(** * Dynamic casting in the Swift runtime (stdlib/public/runtime/Casting.cpp)

    A shallow embedding of the cast-dispatch engine, [swift_dynamicCast] and
    the functions it is built from, together with the properties the
    specification states about it.

    Scope of the model.
    - The build without Objective-C interoperation is modelled: every
      [#if SWIFT_OBJC_INTEROP] region takes its [#else] branch, and
      [SwiftError::isPureNSError] is constantly false.
    - Type metadata is uniqued by the runtime, so pointer equality of
      [const Metadata *] is structural equality of the descriptions below.
    - Memory is abstract: an [OpaqueValue *] is an address together with the
      value stored there.  Calls to value witnesses, reference counting and
      stores into the destination buffer are recorded, in program order, in
      an event trace.
    - [assert]s are compiled out, as in a release build. *)

From Stdlib Require Import ZArith List Bool Lia.
Import ListNotations.

Set Implicit Arguments.
Set Warnings "-register-all".

(** ** Type metadata *)

Definition Addr := N.
Definition WitnessTable := N.

Module SpecialProtocol.
Inductive t := None | AnyObject | ErrorProtocol.
Definition eqb (a b : t) : bool :=
  match a, b with
  | None, None | AnyObject, AnyObject | ErrorProtocol, ErrorProtocol => true
  | _, _ => false
  end.
End SpecialProtocol.

Module ProtocolDispatchStrategy.
Inductive t := ObjC | Swift | Empty.
End ProtocolDispatchStrategy.

Record ProtocolDescriptorFlags := {
  getSpecialProtocol : SpecialProtocol.t;
  getDispatchStrategy : ProtocolDispatchStrategy.t;
  needsWitnessTable : bool
}.

Record ProtocolDescriptor := {
  protocol_Name : N;
  protocol_Flags : ProtocolDescriptorFlags
}.

Module ExistentialTypeRepresentation.
Inductive t := Opaque | Class | ErrorProtocol.
End ExistentialTypeRepresentation.

Record ExistentialTypeMetadata := {
  getRepresentation : ExistentialTypeRepresentation.t;
  isClassBounded : bool;
  Protocols : list ProtocolDescriptor
}.

(** A class and its superclass link.  The chain is finite and acyclic by
    construction. *)
Inductive ClassMetadata :=
| RootClass (Description : N)
| SubClass (Description : N) (SuperClass : ClassMetadata).

Definition _swift_getSuperclass (c : ClassMetadata) : option ClassMetadata :=
  match c with
  | RootClass _ => None
  | SubClass _ s => Some s
  end.

Module FunctionMetadataConvention.
Inductive t := Swift | Block | Thin | CFunctionPointer.
Definition eqb (a b : t) : bool :=
  match a, b with
  | Swift, Swift | Block, Block | Thin, Thin
  | CFunctionPointer, CFunctionPointer => true
  | _, _ => false
  end.
End FunctionMetadataConvention.

Record FunctionTypeFlags := {
  getNumArguments : nat;
  getConvention : FunctionMetadataConvention.t;
  throws : bool
}.

Definition withThrows (f : FunctionTypeFlags) (t : bool) : FunctionTypeFlags :=
  {| getNumArguments := getNumArguments f;
     getConvention := getConvention f;
     throws := t |}.

Module MetadataKind.
Inductive t :=
| Class | Struct | Enum | Optional | Opaque | Tuple | Function
| Existential | Metatype | ObjCClassWrapper | ExistentialMetatype
| ForeignClass | HeapLocalVariable | HeapGenericLocalVariable | ErrorObject.
End MetadataKind.

(** [Metadata]: one constructor per [MetadataKind], with the kind-specific
    payload the casting code reads.  A function argument is a flagged
    pointer: the argument's type and its inout bit. *)
Inductive Metadata :=
| MClass (c : ClassMetadata)
| MObjCClassWrapper (Class : ClassMetadata)
| MForeignClass (Description : N)
| MStruct (Description : N)
| MEnum (Description : N)
| MOptional (payload : Metadata)
| MOpaque (Description : N)
| MTuple (Elements : list Metadata)
| MFunction (Flags : FunctionTypeFlags) (Arguments : list (Metadata * bool))
            (ResultType : Metadata)
| MExistential (e : ExistentialTypeMetadata)
| MMetatype (InstanceType : Metadata)
| MExistentialMetatype (InstanceType : Metadata)
| MHeapLocalVariable (Description : N)
| MHeapGenericLocalVariable (Description : N)
| MErrorObject (Description : N).

Definition getKind (type : Metadata) : MetadataKind.t :=
  match type with
  | MClass _ => MetadataKind.Class
  | MObjCClassWrapper _ => MetadataKind.ObjCClassWrapper
  | MForeignClass _ => MetadataKind.ForeignClass
  | MStruct _ => MetadataKind.Struct
  | MEnum _ => MetadataKind.Enum
  | MOptional _ => MetadataKind.Optional
  | MOpaque _ => MetadataKind.Opaque
  | MTuple _ => MetadataKind.Tuple
  | MFunction _ _ _ => MetadataKind.Function
  | MExistential _ => MetadataKind.Existential
  | MMetatype _ => MetadataKind.Metatype
  | MExistentialMetatype _ => MetadataKind.ExistentialMetatype
  | MHeapLocalVariable _ => MetadataKind.HeapLocalVariable
  | MHeapGenericLocalVariable _ => MetadataKind.HeapGenericLocalVariable
  | MErrorObject _ => MetadataKind.ErrorObject
  end.

(** *** Pointer equality of metadata *)

Fixpoint ClassMetadata_eqb (a b : ClassMetadata) : bool :=
  match a, b with
  | RootClass n, RootClass m => N.eqb n m
  | SubClass n s, SubClass m t => N.eqb n m && ClassMetadata_eqb s t
  | _, _ => false
  end.

Definition SpecialProtocol_eqb := SpecialProtocol.eqb.

Definition ProtocolDispatchStrategy_eqb (a b : ProtocolDispatchStrategy.t)
  : bool :=
  match a, b with
  | ProtocolDispatchStrategy.ObjC, ProtocolDispatchStrategy.ObjC
  | ProtocolDispatchStrategy.Swift, ProtocolDispatchStrategy.Swift
  | ProtocolDispatchStrategy.Empty, ProtocolDispatchStrategy.Empty => true
  | _, _ => false
  end.

Definition ProtocolDescriptor_eqb (p q : ProtocolDescriptor) : bool :=
  N.eqb (protocol_Name p) (protocol_Name q) &&
  SpecialProtocol_eqb (getSpecialProtocol (protocol_Flags p))
                      (getSpecialProtocol (protocol_Flags q)) &&
  ProtocolDispatchStrategy_eqb (getDispatchStrategy (protocol_Flags p))
                               (getDispatchStrategy (protocol_Flags q)) &&
  Bool.eqb (needsWitnessTable (protocol_Flags p))
           (needsWitnessTable (protocol_Flags q)).

Definition ExistentialTypeRepresentation_eqb
  (a b : ExistentialTypeRepresentation.t) : bool :=
  match a, b with
  | ExistentialTypeRepresentation.Opaque, ExistentialTypeRepresentation.Opaque
  | ExistentialTypeRepresentation.Class, ExistentialTypeRepresentation.Class
  | ExistentialTypeRepresentation.ErrorProtocol,
    ExistentialTypeRepresentation.ErrorProtocol => true
  | _, _ => false
  end.

Fixpoint list_eqb {A} (eqb : A -> A -> bool) (xs ys : list A) : bool :=
  match xs, ys with
  | [], [] => true
  | x :: xs', y :: ys' => eqb x y && list_eqb eqb xs' ys'
  | _, _ => false
  end.

Definition ExistentialTypeMetadata_eqb (a b : ExistentialTypeMetadata) : bool :=
  ExistentialTypeRepresentation_eqb (getRepresentation a)
                                    (getRepresentation b) &&
  Bool.eqb (isClassBounded a) (isClassBounded b) &&
  list_eqb ProtocolDescriptor_eqb (Protocols a) (Protocols b).

Definition FunctionTypeFlags_eqb (f g : FunctionTypeFlags) : bool :=
  Nat.eqb (getNumArguments f) (getNumArguments g) &&
  FunctionMetadataConvention.eqb (getConvention f) (getConvention g) &&
  Bool.eqb (throws f) (throws g).

Fixpoint Metadata_eqb (a b : Metadata) {struct a} : bool :=
  match a, b with
  | MClass c, MClass d => ClassMetadata_eqb c d
  | MObjCClassWrapper c, MObjCClassWrapper d => ClassMetadata_eqb c d
  | MForeignClass n, MForeignClass m => N.eqb n m
  | MStruct n, MStruct m => N.eqb n m
  | MEnum n, MEnum m => N.eqb n m
  | MOptional p, MOptional q => Metadata_eqb p q
  | MOpaque n, MOpaque m => N.eqb n m
  | MTuple xs, MTuple ys =>
      (fix go (xs ys : list Metadata) : bool :=
         match xs, ys with
         | [], [] => true
         | x :: xs', y :: ys' => Metadata_eqb x y && go xs' ys'
         | _, _ => false
         end) xs ys
  | MFunction f xs r, MFunction g ys s =>
      FunctionTypeFlags_eqb f g &&
      (fix go (xs ys : list (Metadata * bool)) : bool :=
         match xs, ys with
         | [], [] => true
         | (x, i) :: xs', (y, j) :: ys' =>
             Metadata_eqb x y && Bool.eqb i j && go xs' ys'
         | _, _ => false
         end) xs ys &&
      Metadata_eqb r s
  | MExistential e, MExistential e' => ExistentialTypeMetadata_eqb e e'
  | MMetatype i, MMetatype j => Metadata_eqb i j
  | MExistentialMetatype i, MExistentialMetatype j => Metadata_eqb i j
  | MHeapLocalVariable n, MHeapLocalVariable m => N.eqb n m
  | MHeapGenericLocalVariable n, MHeapGenericLocalVariable m => N.eqb n m
  | MErrorObject n, MErrorObject m => N.eqb n m
  | _, _ => false
  end.

(** A function argument: [FlaggedPointer] comparison is on the pointer and
    the flag together. *)
Definition Argument := (Metadata * bool)%type.

Definition Argument_eqb (a b : Argument) : bool :=
  Metadata_eqb (fst a) (fst b) && Bool.eqb (snd a) (snd b).

(** Induction over metadata that reaches tuple elements and function
    arguments. *)
Section Metadata_induction.
Variable P : Metadata -> Prop.
Hypothesis HClass : forall c, P (MClass c).
Hypothesis HWrapper : forall c, P (MObjCClassWrapper c).
Hypothesis HForeign : forall n, P (MForeignClass n).
Hypothesis HStruct : forall n, P (MStruct n).
Hypothesis HEnum : forall n, P (MEnum n).
Hypothesis HOptional : forall p, P p -> P (MOptional p).
Hypothesis HOpaque : forall n, P (MOpaque n).
Hypothesis HTuple : forall xs, Forall P xs -> P (MTuple xs).
Hypothesis HFunction : forall f args r,
  Forall (fun a => P (fst a)) args -> P r -> P (MFunction f args r).
Hypothesis HExistential : forall e, P (MExistential e).
Hypothesis HMetatype : forall i, P i -> P (MMetatype i).
Hypothesis HExistentialMetatype : forall i, P i -> P (MExistentialMetatype i).
Hypothesis HLocal : forall n, P (MHeapLocalVariable n).
Hypothesis HGenericLocal : forall n, P (MHeapGenericLocalVariable n).
Hypothesis HErrorObject : forall n, P (MErrorObject n).

Fixpoint Metadata_nested_ind (m : Metadata) : P m :=
  match m with
  | MClass c => HClass c
  | MObjCClassWrapper c => HWrapper c
  | MForeignClass n => HForeign n
  | MStruct n => HStruct n
  | MEnum n => HEnum n
  | MOptional p => HOptional (Metadata_nested_ind p)
  | MOpaque n => HOpaque n
  | MTuple xs =>
      HTuple ((fix all (xs : list Metadata) : Forall P xs :=
                 match xs with
                 | [] => Forall_nil P
                 | x :: xs' => Forall_cons x (Metadata_nested_ind x) (all xs')
                 end) xs)
  | MFunction f args r =>
      HFunction f
        ((fix all (xs : list (Metadata * bool))
            : Forall (fun a => P (fst a)) xs :=
            match xs with
            | [] => Forall_nil _
            | x :: xs' =>
                Forall_cons x (Metadata_nested_ind (fst x)) (all xs')
            end) args)
        (Metadata_nested_ind r)
  | MExistential e => HExistential e
  | MMetatype i => HMetatype (Metadata_nested_ind i)
  | MExistentialMetatype i => HExistentialMetatype (Metadata_nested_ind i)
  | MHeapLocalVariable n => HLocal n
  | MHeapGenericLocalVariable n => HGenericLocal n
  | MErrorObject n => HErrorObject n
  end.
End Metadata_induction.

(** ** Cast flags *)

(** [DynamicCastFlags] is a bit set over [size_t]. *)
Definition DynamicCastFlags := Z.

Module Flags.
Definition Default : DynamicCastFlags := 0%Z.
Definition Unconditional : DynamicCastFlags := 1%Z.
Definition TakeOnSuccess : DynamicCastFlags := 2%Z.
Definition DestroyOnFailure : DynamicCastFlags := 4%Z.
End Flags.

(** [flags & X], read as a condition. *)
Definition has_flag (flags X : DynamicCastFlags) : bool :=
  negb (Z.eqb (Z.land flags X) 0).

(** [a | b] and [a - b] (which is [a & ~b]). *)
Definition flags_or (a b : DynamicCastFlags) : DynamicCastFlags := Z.lor a b.
Definition flags_minus (a b : DynamicCastFlags) : DynamicCastFlags :=
  Z.ldiff a b.

Declare Scope cast_scope.
Delimit Scope cast_scope with cast.
Infix "&?" := has_flag (at level 40, no associativity) : cast_scope.
Open Scope cast_scope.

(** The flags of the preliminary existential attempt on an Optional. *)
Definition checkCastFlags (flags : DynamicCastFlags) : DynamicCastFlags :=
  flags_minus flags (flags_or Flags.Unconditional Flags.DestroyOnFailure).

(** The flags of a cast out of a box that cannot be taken from. *)
Definition copyOnlyFlags (flags : DynamicCastFlags) : DynamicCastFlags :=
  flags_minus flags (flags_or Flags.TakeOnSuccess Flags.DestroyOnFailure).

(** ** Values and pointers *)

(** A heap object: its address and the class it was allocated as. *)
Record HeapObject := {
  object_address : Addr;
  _swift_getClassOfAllocated : ClassMetadata
}.

Definition swift_getObjectType (o : HeapObject) : Metadata :=
  MClass (_swift_getClassOfAllocated o).

Definition _swift_getClass (o : HeapObject) : Metadata :=
  MClass (_swift_getClassOfAllocated o).

(** The contents of a buffer.
    - [VBits]: a value the casting code never looks into (struct, enum,
      tuple, function, opaque).
    - [VObject]: a reference to a heap object.
    - [VMetadata]: a metatype value, a pointer to type metadata.
    - [VNone], [VSome]: the two cases of a single-payload Optional; the
      payload case is layout compatible with its payload.
    - [VClassExistential]: a [ClassExistentialContainer]: its [Value], a
      reference, and its witness tables.
    - [VOpaqueExistential]: an [OpaqueExistentialContainer]; [box] is the
      address of the out-of-line allocation, or [None] when the payload is
      stored inline in the container's buffer.
    - [VErrorBox]: a pointer to a [SwiftError] box at address [box].
    - [VExistentialMetatype]: an [ExistentialMetatypeContainer]. *)
Inductive Value :=
| VBits (bits : Z)
| VObject (o : HeapObject)
| VMetadata (m : Metadata)
| VNone
| VSome (payload : Value)
| VClassExistential (Value_ : Value) (witnesses : list WitnessTable)
| VOpaqueExistential (Type_ : Metadata) (box : option Addr) (payload : Value)
                     (witnesses : list WitnessTable)
| VErrorBox (box : Addr) (type : Metadata) (witness : WitnessTable)
            (payload : Value)
| VExistentialMetatype (m : Metadata) (witnesses : list WitnessTable).

Record OpaqueValue := {
  address : Addr;
  pointee : Value
}.

Definition ptr_eqb (p q : OpaqueValue) : bool := N.eqb (address p) (address q).

(** ** Effects *)

(** What a cast does to the world besides returning: value-witness calls,
    reference counting, and stores into the destination buffer.  [dest] is
    the same pointer in every call of one cast and is only written, so the
    events do not name it. *)
Inductive Event :=
(* value witnesses applied to the source *)
| vw_destroy (type : Metadata) (object : OpaqueValue)
| vw_initializeWithTake (type : Metadata) (src : OpaqueValue)
| vw_initializeWithCopy (type : Metadata) (src : OpaqueValue)
| vw_initializeBufferWithTake (type : Metadata) (src : OpaqueValue)
| vw_initializeBufferWithCopy (type : Metadata) (src : OpaqueValue)
| vw_deallocateBuffer (type : Metadata) (container : OpaqueValue)
(* reference counting *)
| swift_retain (o : HeapObject)
| swift_unknownRetain (o : HeapObject)
| swift_unknownRelease (o : HeapObject)
(* stores into the destination *)
| store_witness (index : nat) (w : WitnessTable)
| store_existential_Value (o : HeapObject)
| store_existential_Type (type : Metadata)
| store_metatype (m : Metadata)
| store_reference (o : HeapObject)
| store_errorBox (type : Metadata) (w : WitnessTable) (src : OpaqueValue)
                 (isTake : bool)
| swift_storeEnumTagSinglePayload (payloadType : Metadata) (whichCase : Z).

(** How a call can end without returning. *)
Inductive Crash :=
| dynamicCastFailure (sourceType targetType : Metadata)
| corruptType (type : Metadata)
| invalidValue.

Inductive Outcome (A : Type) :=
| Returns (a : A)
| Aborts (c : Crash).
Arguments Aborts {A} c.

Definition Effect (A : Type) : Type := (list Event * Outcome A)%type.

Definition ret {A} (a : A) : Effect A := ([], Returns a).

Definition bind {A B} (m : Effect A) (k : A -> Effect B) : Effect B :=
  match m with
  | (t, Returns a) => let (t', r) := k a in (t ++ t', r)
  | (t, Aborts c) => (t, Aborts c)
  end.

Definition emit (e : Event) : Effect unit := ([e], Returns tt).
Definition abort {A} (c : Crash) : Effect A := ([], Aborts c).

Notation "x <- m ;; k" := (bind m (fun x => k))
  (at level 61, m at next level, right associativity) : cast_scope.
Notation "m ;; k" := (bind m (fun _ => k))
  (at level 61, right associativity) : cast_scope.

Definition when (b : bool) (m : Effect unit) : Effect unit :=
  if b then m else ret tt.

Definition trace {A} (m : Effect A) : list Event := fst m.
Definition outcome {A} (m : Effect A) : Outcome A := snd m.

(** [swift_dynamicCastFailure]: report both types and abort. *)
Definition swift_dynamicCastFailure {A} (sourceType targetType : Metadata)
  : Effect A :=
  abort (dynamicCastFailure sourceType targetType).

(** [_failCorruptType]. *)
Definition _failCorruptType {A} (type : Metadata) : Effect A :=
  abort (corruptType type).

(** ** Terminal helpers *)

Definition _fail (srcValue : OpaqueValue) (srcType targetType : Metadata)
  (flags : DynamicCastFlags) (srcDynamicType : option Metadata) : Effect bool :=
  when (flags &? Flags.Unconditional)
       (let srcTypeToReport :=
          match srcDynamicType with Some t => t | None => srcType end in
        swift_dynamicCastFailure srcTypeToReport targetType) ;;
  when (flags &? Flags.DestroyOnFailure) (emit (vw_destroy srcType srcValue)) ;;
  ret false.

Definition _succeed (src : OpaqueValue) (srcType : Metadata)
  (flags : DynamicCastFlags) : Effect bool :=
  (if flags &? Flags.TakeOnSuccess
   then emit (vw_initializeWithTake srcType src)
   else emit (vw_initializeWithCopy srcType src)) ;;
  ret true.

Definition shouldDeallocateSource (castSucceeded : bool)
  (flags : DynamicCastFlags) : bool :=
  (castSucceeded && (flags &? Flags.TakeOnSuccess)) ||
  (negb castSucceeded && (flags &? Flags.DestroyOnFailure)).

(** ** Reading the first word of a buffer *)

(** Reading a [HeapObject *] out of the buffer: it has to hold a
    reference.  A class existential container starts with its [Value]. *)
Definition load_object (v : Value) : Effect HeapObject :=
  match v with
  | VObject o => ret o
  | VClassExistential (VObject o) _ => ret o
  | _ => abort invalidValue
  end.

(** Reading a [const Metadata *] out of the buffer: it has to hold a
    metatype.  An existential metatype container starts with its
    [Value]. *)
Definition load_metadata (v : Value) : Effect Metadata :=
  match v with
  | VMetadata m => ret m
  | VExistentialMetatype m _ => ret m
  | _ => abort invalidValue
  end.

(** [container->Type] of an [OpaqueExistentialContainer]. *)
Definition load_container_Type (v : Value) : Effect Metadata :=
  match v with
  | VOpaqueExistential ty _ _ _ => ret ty
  | _ => abort invalidValue
  end.

(** [vw_projectBuffer]: the address of the payload of a container at
    [container], inline (the buffer is the container's first field) or in
    its out-of-line box. *)
Definition vw_projectBuffer (container : Addr) (box : option Addr) : Addr :=
  match box with
  | Some b => b
  | None => container
  end.

(** [swift_getMetatypeMetadata]. *)
Definition swift_getMetatypeMetadata (instanceType : Metadata) : Metadata :=
  MMetatype instanceType.

(** Modelled from the spec: [ExistentialTypeMetadata::mayTakeValue] is not
    in this file.  "Intersect can-take with whether the box's own
    representation permits taking (error-boxes holding a possibly-shared box
    must never be taken, only copied)". *)
Definition mayTakeValue (e : ExistentialTypeMetadata) : bool :=
  match getRepresentation e with
  | ExistentialTypeRepresentation.Class => true
  | ExistentialTypeRepresentation.Opaque => true
  | ExistentialTypeRepresentation.ErrorProtocol => false
  end.

(** ** Class casts *)

(** The superclass walk (a do-while loop over [_swift_getSuperclass]). *)
Fixpoint _dynamicCastClassMetatype (sourceType targetType : ClassMetadata)
  : option ClassMetadata :=
  if ClassMetadata_eqb sourceType targetType then Some sourceType
  else match sourceType with
       | RootClass _ => None
       | SubClass _ super => _dynamicCastClassMetatype super targetType
       end.

Definition swift_dynamicCastClass (object : HeapObject)
  (targetType : ClassMetadata) : option HeapObject :=
  let isa := _swift_getClassOfAllocated object in
  match _dynamicCastClassMetatype isa targetType with
  | Some _ => Some object
  | None => None
  end.

Definition swift_dynamicCastClassUnconditional (object : HeapObject)
  (targetType : ClassMetadata) : Effect HeapObject :=
  match swift_dynamicCastClass object targetType with
  | Some value => ret value
  | None =>
      swift_dynamicCastFailure (_swift_getClass object) (MClass targetType)
  end.

(** Where [_conformsToProtocols] stores the witness tables it finds:
    nowhere ([nullptr]), the witness-table slots of the destination
    container from [index] on, or a local variable of the caller. *)
Inductive WitnessTables :=
| null_witnesses
| dest_witnesses (index : nat)
| local_witness.

Definition store_conformance (conformance : WitnessTables) (w : WitnessTable)
  : Effect unit :=
  match conformance with
  | null_witnesses => ret tt
  | dest_witnesses i => emit (store_witness i w)
  | local_witness => ret tt
  end.

Definition next_conformance (conformance : WitnessTables) : WitnessTables :=
  match conformance with
  | dest_witnesses i => dest_witnesses (S i)
  | c => c
  end.

Section Runtime.

(** The conformance oracle, [swift_conformsToProtocol]. *)
Variable swift_conformsToProtocol :
  Metadata -> ProtocolDescriptor -> option WitnessTable.

(** The foreign-class ancestry check. *)
Variable swift_dynamicCastForeignClassMetatype : Metadata -> Metadata -> bool.

(** Modelled from the spec: the unconditional form of the foreign check,
    "each with a conditional and unconditional form"; it aborts where the
    conditional form answers no. *)
Definition swift_dynamicCastForeignClassMetatypeUnconditional
  (sourceType targetType : Metadata) : Effect unit :=
  if swift_dynamicCastForeignClassMetatype sourceType targetType
  then ret tt
  else swift_dynamicCastFailure sourceType targetType.

(** [_conformsToProtocol].  The result is [None] for "does not conform"
    and otherwise the witness table stored through [conformance], if one
    was. *)
Definition _conformsToProtocol (value : option OpaqueValue) (type : Metadata)
  (protocol : ProtocolDescriptor) (conformance : WitnessTables)
  : Effect (option (option WitnessTable)) :=
  let yes : Effect (option (option WitnessTable)) := ret (Some None) in
  let no : Effect (option (option WitnessTable)) := ret None in
  if SpecialProtocol.eqb (getSpecialProtocol (protocol_Flags protocol))
                         SpecialProtocol.AnyObject
  then
    match type with
    | MClass _ | MObjCClassWrapper _ | MForeignClass _ => yes
    | MExistential sourceExistential =>
        if isClassBounded sourceExistential then yes else no
    | _ => no
    end
  else if needsWitnessTable (protocol_Flags protocol)
  then
    match swift_conformsToProtocol type protocol with
    | None => no
    | Some witness =>
        store_conformance conformance witness ;;
        ret (Some (match conformance with
                   | null_witnesses => None
                   | _ => Some witness
                   end))
    end
  else
    match type with
    | MClass _ => no
    | MObjCClassWrapper _ => no
    | MForeignClass _ => _failCorruptType type
    | _ => no
    end.

(** [_conformsToProtocols]: [None] as soon as one protocol fails,
    otherwise the witness tables stored, in order. *)
Fixpoint _conformsToProtocols (value : option OpaqueValue) (type : Metadata)
  (protocols : list ProtocolDescriptor) (conformances : WitnessTables)
  : Effect (option (list WitnessTable)) :=
  match protocols with
  | [] => ret (Some [])
  | protocol :: rest =>
      r <- _conformsToProtocol value type protocol conformances ;;
      match r with
      | None => ret None
      | Some stored =>
          let conformances' :=
            if needsWitnessTable (protocol_Flags protocol)
            then next_conformance conformances else conformances in
          rs <- _conformsToProtocols value type rest conformances' ;;
          match rs with
          | None => ret None
          | Some ws =>
              ret (Some (match stored with
                         | Some w => w :: ws
                         | None => ws
                         end))
          end
      end
  end.

Definition _maybeDeallocateOpaqueExistential (srcExistential : OpaqueValue)
  (castSucceeded : bool) (flags : DynamicCastFlags) : Effect unit :=
  if shouldDeallocateSource castSucceeded flags
  then
    Type_ <- load_container_Type (pointee srcExistential) ;;
    emit (vw_deallocateBuffer Type_ srcExistential)
  else ret tt.

(** [findDynamicValueAndType]: the out-parameters are returned. *)
Fixpoint findDynamicValueAndType_ (a : Addr) (value : Value) (type : Metadata)
  (inoutCanTake : bool) {struct value}
  : Effect (OpaqueValue * Metadata * bool) :=
  let here := {| address := a; pointee := value |} in
  match type with
  | MClass _ | MObjCClassWrapper _ | MForeignClass _ =>
      o <- load_object value ;;
      ret (here, swift_getObjectType o, inoutCanTake)
  | MExistential existentialType =>
      match getRepresentation existentialType with
      | ExistentialTypeRepresentation.Class =>
          match value with
          | VClassExistential Value_ _ =>
              o <- load_object Value_ ;;
              ret ({| address := a; pointee := Value_ |},
                   swift_getObjectType o, inoutCanTake)
          | _ => abort invalidValue
          end
      | ExistentialTypeRepresentation.Opaque =>
          match value with
          | VOpaqueExistential innerType box innerValue _ =>
              findDynamicValueAndType_ (vw_projectBuffer a box) innerValue
                innerType (inoutCanTake && mayTakeValue existentialType)
          | _ => abort invalidValue
          end
      | ExistentialTypeRepresentation.ErrorProtocol =>
          match value with
          | VErrorBox box innerType _ innerValue =>
              findDynamicValueAndType_ box innerValue
                innerType (inoutCanTake && mayTakeValue existentialType)
          | _ => abort invalidValue
          end
      end
  | MMetatype _ | MExistentialMetatype _ =>
      storedType <- load_metadata value ;;
      ret (here, swift_getMetatypeMetadata storedType, inoutCanTake)
  | _ => ret (here, type, inoutCanTake)
  end.

Definition findDynamicValueAndType (value : OpaqueValue) (type : Metadata)
  (inoutCanTake : bool) : Effect (OpaqueValue * Metadata * bool) :=
  findDynamicValueAndType_ (address value) (pointee value) type inoutCanTake.

Definition swift_getDynamicType (value : OpaqueValue) (self : Metadata)
  : Effect Metadata :=
  r <- findDynamicValueAndType value self false ;;
  ret (snd (fst r)).

(** [deallocateDynamicValue]. *)
Fixpoint deallocateDynamicValue_ (a : Addr) (value : Value) (type : Metadata)
  {struct value} : Effect unit :=
  match type with
  | MExistential existentialType =>
      match getRepresentation existentialType with
      | ExistentialTypeRepresentation.Class => ret tt
      | ExistentialTypeRepresentation.ErrorProtocol => ret tt
      | ExistentialTypeRepresentation.Opaque =>
          match value with
          | VOpaqueExistential Type_ box existentialValue _ =>
              deallocateDynamicValue_ (vw_projectBuffer a box)
                existentialValue Type_ ;;
              emit (vw_deallocateBuffer Type_
                      {| address := a; pointee := value |})
          | _ => abort invalidValue
          end
      end
  | _ => ret tt
  end.

Definition deallocateDynamicValue (value : OpaqueValue) (type : Metadata)
  : Effect unit :=
  deallocateDynamicValue_ (address value) (pointee value) type.

(** ** Casts to an existential type *)

Definition _dynamicCastToExistential (src : OpaqueValue) (srcType : Metadata)
  (targetType : ExistentialTypeMetadata) (flags : DynamicCastFlags)
  : Effect bool :=
  found <- findDynamicValueAndType src srcType true ;;
  let '(srcDynamicValue, srcDynamicType, canTake) := found in
  let maybeDeallocateSourceAfterSuccess : Effect unit :=
    if shouldDeallocateSource true flags
    then
      if canTake && negb (ptr_eqb src srcDynamicValue)
      then deallocateDynamicValue src srcType
      else if negb canTake
      then emit (vw_destroy srcType src)
      else ret tt
    else ret tt in
  match getRepresentation targetType with
  | ExistentialTypeRepresentation.Class =>
      let conform : Effect bool :=
        ok <- _conformsToProtocols (Some srcDynamicValue) srcDynamicType
                (Protocols targetType) (dest_witnesses 0) ;;
        match ok with
        | None =>
            _fail src srcType (MExistential targetType) flags
                  (Some srcDynamicType)
        | Some _ =>
            object <- load_object (pointee srcDynamicValue) ;;
            emit (store_existential_Value object) ;;
            when (negb canTake || negb (flags &? Flags.TakeOnSuccess))
                 (emit (swift_retain object)) ;;
            maybeDeallocateSourceAfterSuccess ;;
            ret true
        end in
      match getKind srcDynamicType with
      | MetadataKind.ExistentialMetatype | MetadataKind.Metatype =>
          _fail src srcType (MExistential targetType) flags None
      | MetadataKind.Class | MetadataKind.ObjCClassWrapper
      | MetadataKind.ForeignClass | MetadataKind.Existential =>
          conform
      | MetadataKind.Struct | MetadataKind.Enum | MetadataKind.Optional =>
          conform
      | MetadataKind.Function | MetadataKind.HeapLocalVariable
      | MetadataKind.HeapGenericLocalVariable | MetadataKind.ErrorObject
      | MetadataKind.Opaque | MetadataKind.Tuple =>
          _fail src srcType (MExistential targetType) flags None
      end
  | ExistentialTypeRepresentation.Opaque =>
      ok <- _conformsToProtocols (Some srcDynamicValue) srcDynamicType
              (Protocols targetType) (dest_witnesses 0) ;;
      match ok with
      | None =>
          _fail src srcType (MExistential targetType) flags
                (Some srcDynamicType)
      | Some _ =>
          emit (store_existential_Type srcDynamicType) ;;
          (if canTake && (flags &? Flags.TakeOnSuccess)
           then emit (vw_initializeBufferWithTake srcDynamicType
                                                  srcDynamicValue)
           else emit (vw_initializeBufferWithCopy srcDynamicType
                                                  srcDynamicValue)) ;;
          maybeDeallocateSourceAfterSuccess ;;
          ret true
      end
  | ExistentialTypeRepresentation.ErrorProtocol =>
      ok <- _conformsToProtocols (Some srcDynamicValue) srcDynamicType
              (Protocols targetType) local_witness ;;
      match ok with
      | None =>
          _fail src srcType (MExistential targetType) flags
                (Some srcDynamicType)
      | Some [errorWitness] =>
          emit (store_errorBox srcDynamicType errorWitness srcDynamicValue
                  (canTake && (flags &? Flags.TakeOnSuccess))) ;;
          maybeDeallocateSourceAfterSuccess ;;
          ret true
      | Some _ => abort invalidValue
      end
  end.

(** ** Casts of class references *)

Definition _dynamicCastUnknownClassToExistential (object : HeapObject)
  (targetType : ExistentialTypeMetadata) : option HeapObject :=
  (fix loop (protocols : list ProtocolDescriptor) : option HeapObject :=
     match protocols with
     | [] => Some object
     | protocol :: rest =>
         match getDispatchStrategy (protocol_Flags protocol) with
         | ProtocolDispatchStrategy.Swift => None
         | ProtocolDispatchStrategy.ObjC => None
         | ProtocolDispatchStrategy.Empty => loop rest
         end
     end) (Protocols targetType).

Definition swift_dynamicCastUnknownClass (object : HeapObject)
  (targetType : Metadata) : Effect (option HeapObject) :=
  match targetType with
  | MClass targetClassType =>
      ret (swift_dynamicCastClass object targetClassType)
  | MObjCClassWrapper _ => _failCorruptType targetType
  | MForeignClass _ => _failCorruptType targetType
  | MExistential e => ret (_dynamicCastUnknownClassToExistential object e)
  | _ => ret None
  end.

Definition swift_dynamicCastUnknownClassUnconditional (object : HeapObject)
  (targetType : Metadata) : Effect HeapObject :=
  match targetType with
  | MClass targetClassType =>
      swift_dynamicCastClassUnconditional object targetClassType
  | MObjCClassWrapper _ => _failCorruptType targetType
  | MForeignClass _ => _failCorruptType targetType
  | MExistential e =>
      match _dynamicCastUnknownClassToExistential object e with
      | Some result => ret result
      | None => swift_dynamicCastFailure (_swift_getClass object) targetType
      end
  | _ => swift_dynamicCastFailure (_swift_getClass object) targetType
  end.

Definition _dynamicCastUnknownClassIndirect (object : HeapObject)
  (targetType : Metadata) (flags : DynamicCastFlags) : Effect bool :=
  if flags &? Flags.Unconditional
  then
    result <- swift_dynamicCastUnknownClassUnconditional object targetType ;;
    emit (store_reference result) ;;
    when (negb (flags &? Flags.TakeOnSuccess))
         (emit (swift_unknownRetain result)) ;;
    ret true
  else
    r <- swift_dynamicCastUnknownClass object targetType ;;
    match r with
    | None =>
        when (flags &? Flags.DestroyOnFailure)
             (emit (swift_unknownRelease object)) ;;
        ret false
    | Some result =>
        emit (store_reference result) ;;
        when (negb (flags &? Flags.TakeOnSuccess))
             (emit (swift_unknownRetain result)) ;;
        ret true
    end.

(** ** Metatype casts *)

Definition swift_dynamicCastMetatype (sourceType targetType : Metadata)
  : option Metadata :=
  let origSourceType := sourceType in
  let toClass (targetType : ClassMetadata) : option Metadata :=
    let subclass (sourceType : ClassMetadata) : option Metadata :=
      match _dynamicCastClassMetatype sourceType targetType with
      | Some _ => Some origSourceType
      | None => None
      end in
    match sourceType with
    | MObjCClassWrapper c => subclass c
    | MClass c => subclass c
    | MForeignClass _ =>
        if swift_dynamicCastForeignClassMetatype sourceType
             (MClass targetType)
        then Some origSourceType else None
    | _ => None
    end in
  match targetType with
  | MObjCClassWrapper c => toClass c
  | MClass c => toClass c
  | MForeignClass _ =>
      let foreign (sourceType : Metadata) : option Metadata :=
        if swift_dynamicCastForeignClassMetatype sourceType targetType
        then Some origSourceType else None in
      match sourceType with
      | MObjCClassWrapper c => foreign (MClass c)
      | MClass _ | MForeignClass _ => foreign sourceType
      | _ => None
      end
  | _ =>
      if negb (Metadata_eqb sourceType targetType) then None
      else Some origSourceType
  end.

Definition swift_dynamicCastMetatypeUnconditional
  (sourceType targetType : Metadata) : Effect Metadata :=
  let origSourceType := sourceType in
  let toClass (targetType : ClassMetadata) : Effect Metadata :=
    let subclass (sourceType : ClassMetadata) : Effect Metadata :=
      match _dynamicCastClassMetatype sourceType targetType with
      | Some _ => ret origSourceType
      | None => swift_dynamicCastFailure (MClass sourceType)
                                         (MClass targetType)
      end in
    match sourceType with
    | MObjCClassWrapper c => subclass c
    | MClass c => subclass c
    | MForeignClass _ =>
        swift_dynamicCastForeignClassMetatypeUnconditional sourceType
          (MClass targetType) ;;
        ret origSourceType
    | _ => swift_dynamicCastFailure sourceType (MClass targetType)
    end in
  match targetType with
  | MObjCClassWrapper c => toClass c
  | MClass c => toClass c
  | MForeignClass _ =>
      let foreign (sourceType : Metadata) : Effect Metadata :=
        swift_dynamicCastForeignClassMetatypeUnconditional sourceType
          targetType ;;
        ret origSourceType in
      match sourceType with
      | MObjCClassWrapper c => foreign (MClass c)
      | MClass _ | MForeignClass _ => foreign sourceType
      | _ => swift_dynamicCastFailure sourceType targetType
      end
  | _ =>
      if negb (Metadata_eqb sourceType targetType)
      then swift_dynamicCastFailure sourceType targetType
      else ret origSourceType
  end.

(** [targetType] is a [MetatypeMetadata]; its [InstanceType] is passed. *)
Definition _dynamicCastMetatypeToMetatype (metatype : Metadata)
  (targetType_InstanceType : Metadata) (flags : DynamicCastFlags)
  : Effect bool :=
  if flags &? Flags.Unconditional
  then
    result <- swift_dynamicCastMetatypeUnconditional metatype
                targetType_InstanceType ;;
    emit (store_metatype result) ;;
    ret true
  else
    match swift_dynamicCastMetatype metatype targetType_InstanceType with
    | None => ret false
    | Some result =>
        emit (store_metatype result) ;;
        ret true
    end.

(** Class values are never metatypes in the native runtime. *)
Definition _getUnknownClassAsMetatype (object : HeapObject) : option Metadata :=
  None.

Definition _dynamicCastUnknownClassToMetatype (object : HeapObject)
  (targetType_InstanceType : Metadata) (flags : DynamicCastFlags)
  : Effect bool :=
  match _getUnknownClassAsMetatype object with
  | Some metatype =>
      _dynamicCastMetatypeToMetatype metatype targetType_InstanceType flags
  | None =>
      when (flags &? Flags.Unconditional)
           (swift_dynamicCastFailure (_swift_getClass object)
              (MMetatype targetType_InstanceType)) ;;
      when (flags &? Flags.DestroyOnFailure)
           (emit (swift_unknownRelease object)) ;;
      ret false
  end.

(** [targetType] is a [MetatypeMetadata]; its [InstanceType] is passed. *)
Fixpoint _dynamicCastToMetatype_ (a : Addr) (v : Value) (srcType : Metadata)
  (targetType_InstanceType : Metadata) (flags : DynamicCastFlags) {struct v}
  : Effect bool :=
  let src := {| address := a; pointee := v |} in
  let targetType := MMetatype targetType_InstanceType in
  match srcType with
  | MMetatype _ | MExistentialMetatype _ =>
      srcMetatype <- load_metadata v ;;
      _dynamicCastMetatypeToMetatype srcMetatype targetType_InstanceType flags
  | MExistential srcExistentialType =>
      match getRepresentation srcExistentialType with
      | ExistentialTypeRepresentation.Class =>
          object <- load_object v ;;
          _dynamicCastUnknownClassToMetatype object targetType_InstanceType
            flags
      | ExistentialTypeRepresentation.Opaque =>
          match v with
          | VOpaqueExistential srcValueType box payload _ =>
              let srcValue := vw_projectBuffer a box in
              result <- _dynamicCastToMetatype_ srcValue payload srcValueType
                          targetType_InstanceType flags ;;
              when (negb (N.eqb a srcValue))
                   (_maybeDeallocateOpaqueExistential src result flags) ;;
              ret result
          | _ => abort invalidValue
          end
      | ExistentialTypeRepresentation.ErrorProtocol =>
          match v with
          | VErrorBox box srcValueType _ payload =>
              let subFlags :=
                flags_minus flags
                  (flags_or Flags.TakeOnSuccess Flags.DestroyOnFailure) in
              result <- _dynamicCastToMetatype_ box payload srcValueType
                          targetType_InstanceType subFlags ;;
              when (shouldDeallocateSource result flags)
                   (emit (vw_destroy srcType src)) ;;
              ret result
          | _ => abort invalidValue
          end
      end
  | MClass _ | MObjCClassWrapper _ | MForeignClass _ =>
      object <- load_object v ;;
      _dynamicCastUnknownClassToMetatype object targetType_InstanceType flags
  | _ => _fail src srcType targetType flags None
  end.

Definition _dynamicCastToMetatype (src : OpaqueValue) (srcType : Metadata)
  (targetType_InstanceType : Metadata) (flags : DynamicCastFlags)
  : Effect bool :=
  _dynamicCastToMetatype_ (address src) (pointee src) srcType
    targetType_InstanceType flags.

(** The conformance loop of [_dynamicCastMetatypeToExistentialMetatype]. *)
Fixpoint conformsToAll (srcMetatype targetType : Metadata)
  (flags : DynamicCastFlags) (protocols : list ProtocolDescriptor)
  (conformance : WitnessTables) : Effect bool :=
  match protocols with
  | [] => ret true
  | protocol :: rest =>
      r <- _conformsToProtocol None srcMetatype protocol conformance ;;
      match r with
      | None =>
          when (flags &? Flags.Unconditional)
               (swift_dynamicCastFailure srcMetatype targetType) ;;
          ret false
      | Some _ =>
          conformsToAll srcMetatype targetType flags rest
            (if needsWitnessTable (protocol_Flags protocol)
             then next_conformance conformance else conformance)
      end
  end.

(** [targetType] is an [ExistentialMetatypeMetadata]; its [InstanceType]
    is passed. *)
Fixpoint _dynamicCastMetatypeToExistentialMetatype (srcMetatype : Metadata)
  (targetType_InstanceType : Metadata) (flags : DynamicCastFlags)
  (writeDestMetatype : bool) {struct targetType_InstanceType} : Effect bool :=
  let targetType := MExistentialMetatype targetType_InstanceType in
  match targetType_InstanceType with
  | MExistential targetInstanceTypeAsExistential =>
      let conformance :=
        if writeDestMetatype then dest_witnesses 0 else null_witnesses in
      ok <- conformsToAll srcMetatype targetType flags
              (Protocols targetInstanceTypeAsExistential) conformance ;;
      if ok
      then
        when writeDestMetatype (emit (store_metatype srcMetatype)) ;;
        ret true
      else ret false
  | MExistentialMetatype targetInstanceTypeAsMetatype_InstanceType =>
      match srcMetatype with
      | MMetatype srcInstanceType =>
          when writeDestMetatype (emit (store_metatype srcMetatype)) ;;
          _dynamicCastMetatypeToExistentialMetatype srcInstanceType
            targetInstanceTypeAsMetatype_InstanceType flags false
      | _ =>
          when (flags &? Flags.Unconditional)
               (swift_dynamicCastFailure srcMetatype targetType) ;;
          ret false
      end
  | _ => _failCorruptType targetType
  end.

Definition _dynamicCastUnknownClassToExistentialMetatype (object : HeapObject)
  (targetType_InstanceType : Metadata) (flags : DynamicCastFlags)
  : Effect bool :=
  match _getUnknownClassAsMetatype object with
  | Some metatype =>
      _dynamicCastMetatypeToExistentialMetatype metatype
        targetType_InstanceType flags true
  | None =>
      when (flags &? Flags.Unconditional)
           (swift_dynamicCastFailure (_swift_getClass object)
              (MExistentialMetatype targetType_InstanceType)) ;;
      when (flags &? Flags.DestroyOnFailure)
           (emit (swift_unknownRelease object)) ;;
      ret false
  end.

Fixpoint _dynamicCastToExistentialMetatype_ (a : Addr) (v : Value)
  (srcType : Metadata) (targetType_InstanceType : Metadata)
  (flags : DynamicCastFlags) {struct v} : Effect bool :=
  let src := {| address := a; pointee := v |} in
  let targetType := MExistentialMetatype targetType_InstanceType in
  match srcType with
  | MMetatype _ | MExistentialMetatype _ =>
      srcMetatype <- load_metadata v ;;
      _dynamicCastMetatypeToExistentialMetatype srcMetatype
        targetType_InstanceType flags true
  | MExistential srcExistentialType =>
      match getRepresentation srcExistentialType with
      | ExistentialTypeRepresentation.Class =>
          object <- load_object v ;;
          _dynamicCastUnknownClassToExistentialMetatype object
            targetType_InstanceType flags
      | ExistentialTypeRepresentation.Opaque =>
          match v with
          | VOpaqueExistential srcValueType box payload _ =>
              let srcValue := vw_projectBuffer a box in
              result <- _dynamicCastToExistentialMetatype_ srcValue payload
                          srcValueType targetType_InstanceType flags ;;
              when (negb (N.eqb a srcValue))
                   (_maybeDeallocateOpaqueExistential src result flags) ;;
              ret result
          | _ => abort invalidValue
          end
      | ExistentialTypeRepresentation.ErrorProtocol =>
          match v with
          | VErrorBox box srcValueType _ payload =>
              let subFlags :=
                flags_minus flags
                  (flags_or Flags.TakeOnSuccess Flags.DestroyOnFailure) in
              result <- _dynamicCastToExistentialMetatype_ box payload
                          srcValueType targetType_InstanceType subFlags ;;
              when (shouldDeallocateSource result flags)
                   (emit (vw_destroy srcType src)) ;;
              ret result
          | _ => abort invalidValue
          end
      end
  | MClass _ | MObjCClassWrapper _ | MForeignClass _ =>
      object <- load_object v ;;
      _dynamicCastUnknownClassToExistentialMetatype object
        targetType_InstanceType flags
  | _ => _fail src srcType targetType flags None
  end.

Definition _dynamicCastToExistentialMetatype (src : OpaqueValue)
  (srcType : Metadata) (targetType_InstanceType : Metadata)
  (flags : DynamicCastFlags) : Effect bool :=
  _dynamicCastToExistentialMetatype_ (address src) (pointee src) srcType
    targetType_InstanceType flags.

(** ** The dispatch engine *)

(** The functions below call [swift_dynamicCast] back on the payload of an
    existential, with the target type they were given.  They take that
    call as [cast_payload]; [swift_dynamicCast] ties the knot. *)

Definition CastPayload : Type :=
  Addr -> Value -> Metadata -> DynamicCastFlags -> Effect bool.

Definition _dynamicCastToUnknownClassFromExistential
  (cast_payload : CastPayload) (a : Addr) (v : Value)
  (srcType : ExistentialTypeMetadata) (targetType : Metadata)
  (flags : DynamicCastFlags) : Effect bool :=
  let src := {| address := a; pointee := v |} in
  match getRepresentation srcType with
  | ExistentialTypeRepresentation.Class =>
      obj <- load_object v ;;
      _dynamicCastUnknownClassIndirect obj targetType flags
  | ExistentialTypeRepresentation.Opaque =>
      match v with
      | VOpaqueExistential srcCapturedType box payload _ =>
          let srcValue := vw_projectBuffer a box in
          result <- cast_payload srcValue payload srcCapturedType flags ;;
          when (negb (N.eqb a srcValue))
               (_maybeDeallocateOpaqueExistential src result flags) ;;
          ret result
      | _ => abort invalidValue
      end
  | ExistentialTypeRepresentation.ErrorProtocol =>
      match v with
      | VErrorBox box srcCapturedType _ payload =>
          let subFlags :=
            flags_minus flags
              (flags_or Flags.TakeOnSuccess Flags.DestroyOnFailure) in
          result <- cast_payload box payload srcCapturedType subFlags ;;
          when (shouldDeallocateSource result flags)
               (emit (vw_destroy (MExistential srcType) src)) ;;
          ret result
      | _ => abort invalidValue
      end
  end.

Definition _dynamicCastFromExistential
  (cast_payload : CastPayload) (a : Addr) (v : Value)
  (srcType : ExistentialTypeMetadata) (targetType : Metadata)
  (flags : DynamicCastFlags) : Effect bool :=
  let src := {| address := a; pointee := v |} in
  let continue (srcValue : Addr) (payload : Value)
        (srcCapturedType : Metadata) (isOutOfLine canTake : bool)
      : Effect bool :=
    let subFlags :=
      if negb canTake
      then flags_minus flags
             (flags_or Flags.DestroyOnFailure Flags.TakeOnSuccess)
      else flags in
    result <- cast_payload srcValue payload srcCapturedType subFlags ;;
    (if canTake && result && isOutOfLine
     then _maybeDeallocateOpaqueExistential src result flags
     else if negb canTake && shouldDeallocateSource result flags
     then emit (vw_destroy (MExistential srcType) src)
     else ret tt) ;;
    ret result in
  match getRepresentation srcType with
  | ExistentialTypeRepresentation.Class =>
      match v with
      | VClassExistential Value_ _ =>
          obj <- load_object Value_ ;;
          continue a Value_ (swift_getObjectType obj) false true
      | _ => abort invalidValue
      end
  | ExistentialTypeRepresentation.Opaque =>
      match v with
      | VOpaqueExistential srcCapturedType box payload _ =>
          let srcValue := vw_projectBuffer a box in
          continue srcValue payload srcCapturedType
                   (negb (N.eqb a srcValue)) true
      | _ => abort invalidValue
      end
  | ExistentialTypeRepresentation.ErrorProtocol =>
      match v with
      | VErrorBox box srcCapturedType _ payload =>
          continue box payload srcCapturedType true false
      | _ => abort invalidValue
      end
  end.

(** [srcFn->getArguments()[i] != targetFn->getArguments()[i]] for
    [i < n]. *)
Fixpoint arguments_differ (n : nat) (srcArgs targetArgs : list Argument)
  : Effect bool :=
  match n with
  | O => ret false
  | S n' =>
      match srcArgs, targetArgs with
      | s :: srcArgs', t :: targetArgs' =>
          if negb (Argument_eqb s t) then ret true
          else arguments_differ n' srcArgs' targetArgs'
      | _, _ => abort invalidValue
      end
  end.

(** [targetType] is a [FunctionTypeMetadata]: flags, arguments, result. *)
Definition _dynamicCastToFunction (cast_payload : CastPayload)
  (a : Addr) (v : Value) (srcType : Metadata)
  (targetFn_Flags : FunctionTypeFlags) (targetFn_Arguments : list Argument)
  (targetFn_ResultType : Metadata) (flags : DynamicCastFlags) : Effect bool :=
  let src := {| address := a; pointee := v |} in
  let targetType :=
    MFunction targetFn_Flags targetFn_Arguments targetFn_ResultType in
  if Metadata_eqb srcType targetType then _succeed src srcType flags
  else
    match srcType with
    | MFunction srcFn_Flags srcFn_Arguments srcFn_ResultType =>
        if negb (FunctionTypeFlags_eqb (withThrows srcFn_Flags false)
                                       (withThrows targetFn_Flags false))
        then _fail src srcType targetType flags None
        else if throws srcFn_Flags && negb (throws targetFn_Flags)
        then _fail src srcType targetType flags None
        else if negb (Metadata_eqb srcFn_ResultType targetFn_ResultType)
        then _fail src srcType targetType flags None
        else if negb (Nat.eqb (getNumArguments srcFn_Flags)
                              (getNumArguments targetFn_Flags))
        then _fail src srcType targetType flags None
        else
          differ <- arguments_differ (getNumArguments srcFn_Flags)
                      srcFn_Arguments targetFn_Arguments ;;
          if differ then _fail src srcType targetType flags None
          else _succeed src srcType flags
    | MExistential e =>
        _dynamicCastFromExistential cast_payload a v e targetType flags
    | _ => _fail src srcType targetType flags None
    end.

(** [checkDynamicCastFromOptional], followed by what [swift_dynamicCast]
    does with its result.  [{true, nullptr}] and [{false, nullptr}] end
    the cast with that answer; [{false, payloadType}] goes on to
    [dispatch] with the source read at [payloadType]: an Optional in its
    payload case is layout compatible with its payload. *)
Definition checkDynamicCastFromOptional (a : Addr) (v : Value)
  (srcType targetType : Metadata) (flags : DynamicCastFlags)
  (dispatch : Value -> Metadata -> Effect bool) : Effect bool :=
  let src := {| address := a; pointee := v |} in
  match srcType with
  | MOptional payloadType =>
      attempt <-
        match targetType with
        | MExistential e =>
            let checkCastFlags :=
              flags_minus flags
                (flags_or Flags.Unconditional Flags.DestroyOnFailure) in
            _dynamicCastToExistential src srcType e checkCastFlags
        | _ => ret false
        end ;;
      if (attempt : bool) then ret true
      else
        match v with
        | VNone =>
            let enumCase := 0%Z in
            match targetType with
            | MOptional _ =>
                emit (swift_storeEnumTagSinglePayload payloadType enumCase) ;;
                _succeed src srcType flags ;;
                ret true
            | _ =>
                _fail src srcType targetType flags None ;;
                ret false
            end
        | VSome payload => dispatch payload payloadType
        | _ => abort invalidValue
        end
  | _ => dispatch v srcType
  end.

(** The [switch (targetType->getKind())] of [swift_dynamicCast].  Its
    calls of [swift_dynamicCast] are [cast_payload], into the same target
    type, and [cast_into], into the payload type of an Optional target. *)
Definition swift_dynamicCast_dispatch (cast_payload : CastPayload)
  (cast_into : Metadata -> CastPayload) (targetType : Metadata)
  (a : Addr) (v : Value) (srcType : Metadata) (flags : DynamicCastFlags)
  : Effect bool :=
  let src := {| address := a; pointee := v |} in
  let exact_or_existential : Effect bool :=
    if Metadata_eqb srcType targetType then _succeed src srcType flags
    else
      match srcType with
      | MExistential srcExistentialType =>
          _dynamicCastFromExistential cast_payload a v srcExistentialType
            targetType flags
      | _ => _fail src srcType targetType flags None
      end in
  let to_class : Effect bool :=
    match srcType with
    | MClass _ | MObjCClassWrapper _ | MForeignClass _ =>
        object <- load_object v ;;
        _dynamicCastUnknownClassIndirect object targetType flags
    | MExistential srcExistentialType =>
        _dynamicCastToUnknownClassFromExistential cast_payload a v
          srcExistentialType targetType flags
    | _ => _fail src srcType targetType flags None
    end in
  match targetType with
  | MOptional payloadType =>
      match srcType with
      | MExistential srcExistentialType =>
          _dynamicCastFromExistential cast_payload a v srcExistentialType
            targetType flags
      | _ =>
          ok <- cast_into payloadType a v srcType flags ;;
          if (ok : bool)
          then
            emit (swift_storeEnumTagSinglePayload payloadType (-1)) ;;
            ret true
          else ret false
      end
  | MClass _ | MObjCClassWrapper _ | MForeignClass _ => to_class
  | MExistential e => _dynamicCastToExistential src srcType e flags
  | MMetatype InstanceType =>
      _dynamicCastToMetatype src srcType InstanceType flags
  | MExistentialMetatype InstanceType =>
      _dynamicCastToExistentialMetatype src srcType InstanceType flags
  | MFunction Flags_ Arguments ResultType =>
      _dynamicCastToFunction cast_payload a v srcType
        Flags_ Arguments ResultType flags
  | MStruct _ | MEnum _ => exact_or_existential
  | MHeapLocalVariable _ | MHeapGenericLocalVariable _ | MErrorObject _
  | MOpaque _ | MTuple _ => exact_or_existential
  end.

(** Tying the knot: recursion is on the target type and, under one target
    type, on the source value. *)
Fixpoint swift_dynamicCast_switch (targetType : Metadata) {struct targetType}
  : CastPayload :=
  fix switch (a : Addr) (v : Value) (srcType : Metadata)
             (flags : DynamicCastFlags) {struct v} : Effect bool :=
    swift_dynamicCast_dispatch
      (fun a' v' srcType' flags' =>
         checkDynamicCastFromOptional a' v' srcType' targetType flags'
           (fun x ty => switch a' x ty flags'))
      (fun payloadType a' v' srcType' flags' =>
         checkDynamicCastFromOptional a' v' srcType' payloadType flags'
           (fun x ty => swift_dynamicCast_switch payloadType a' x ty flags'))
      targetType a v srcType flags.

(** [swift_dynamicCast]. *)
Definition swift_dynamicCast (src : OpaqueValue) (srcType targetType : Metadata)
  (flags : DynamicCastFlags) : Effect bool :=
  checkDynamicCastFromOptional (address src) (pointee src) srcType targetType
    flags
    (fun x ty => swift_dynamicCast_switch targetType (address src) x ty flags).

(** [swift_dynamicCast] by target type, the source pointer given as its
    address and contents. *)
Definition cast (targetType : Metadata) : CastPayload :=
  fun a v srcType flags =>
    swift_dynamicCast {| address := a; pointee := v |} srcType targetType
      flags.

End Runtime.


(** * What the specification says, in its own words *)

(** ** Subclassing *)

(** [subclass_or_equal base c]: [c] is [base] or a transitive subclass of
    it. *)
Inductive subclass_or_equal (base : ClassMetadata) : ClassMetadata -> Prop :=
| subclass_refl : subclass_or_equal base base
| subclass_step (n : N) (super : ClassMetadata) :
    subclass_or_equal base super -> subclass_or_equal base (SubClass n super).

(** [Metadata::isAnyKindOfClass]. *)
Definition isAnyKindOfClass (k : MetadataKind.t) : bool :=
  match k with
  | MetadataKind.Class | MetadataKind.ObjCClassWrapper
  | MetadataKind.ForeignClass => true
  | _ => false
  end.

(** ** Function types *)

(** A function type is well formed when its flags count its arguments. *)
Definition function_type_ok (f : FunctionTypeFlags) (args : list Argument)
  : Prop :=
  length args = getNumArguments f.

(** "Same argument count and per-argument exact type+by-reference-flag
    equality, same result type, same calling convention, and a
    throwing-compatibility rule: a non-throwing source may cast to a
    throwing target, but not vice versa." *)
Definition function_types_compatible
  (sf : FunctionTypeFlags) (sargs : list Argument) (sres : Metadata)
  (tf : FunctionTypeFlags) (targs : list Argument) (tres : Metadata) : bool :=
  Nat.eqb (length sargs) (length targs) &&
  list_eqb Argument_eqb sargs targs &&
  Metadata_eqb sres tres &&
  FunctionMetadataConvention.eqb (getConvention sf) (getConvention tf) &&
  (negb (throws sf) || throws tf).

(** ** Sizes, for induction over the engine *)

Fixpoint size_value (v : Value) : nat :=
  match v with
  | VSome payload => S (size_value payload)
  | VClassExistential Value_ _ => S (size_value Value_)
  | VOpaqueExistential _ _ payload _ => S (size_value payload)
  | VErrorBox _ _ _ payload => S (size_value payload)
  | _ => O
  end.

(** ** Unconditional casts *)

(** An effect that, if it returns, returns true. *)
Definition only_true (m : Effect bool) : Prop :=
  forall t b, m = (t, Returns b) -> b = true.

(** What the helpers need of the calls they make back into
    [swift_dynamicCast]. *)
Definition payload_casts_only_true (cast_payload : CastPayload) (v : Value)
  : Prop :=
  forall a' v' s' f',
    size_value v' < size_value v ->
    f' &? Flags.Unconditional = true ->
    only_true (cast_payload a' v' s' f').

(** ** Postconditions *)

(** [post m R]: if [m] returns [a] after the events [t], then [R t a]. *)
Definition post {A} (m : Effect A) (R : list Event -> A -> Prop) : Prop :=
  forall t a, m = (t, Returns a) -> R t a.

(** ** Stores into the destination *)

Definition writes_dest (e : Event) : bool :=
  match e with
  | vw_initializeWithTake _ _ | vw_initializeWithCopy _ _
  | vw_initializeBufferWithTake _ _ | vw_initializeBufferWithCopy _ _
  | store_witness _ _ | store_existential_Value _ | store_existential_Type _
  | store_metatype _ | store_reference _ | store_errorBox _ _ _ _
  | swift_storeEnumTagSinglePayload _ _ => true
  | _ => false
  end.

(** "[dest] is untouched". *)
Definition dest_untouched (t : list Event) : bool :=
  forallb (fun e => negb (writes_dest e)) t.

(** The stores that may precede a failure: a witness-table slot filled
    while collecting conformances, and the metatype slot set ahead of the
    recursion into a nested existential metatype. *)
Definition bookkeeping_store (e : Event) : bool :=
  match e with
  | store_witness _ _ | store_metatype _ => true
  | _ => false
  end.

(** No value, reference, payload, dynamic type or enum tag is stored. *)
Definition no_value_stored (t : list Event) : bool :=
  forallb (fun e => negb (writes_dest e) || bookkeeping_store e) t.

(** The answer false comes with no value stored. *)
Definition fails_without_value : list Event -> bool -> Prop :=
  fun t b => b = false -> no_value_stored t = true.

(** What the engine's helpers need of the calls they make back into
    [swift_dynamicCast]: the postcondition [R] on every smaller source. *)
Definition payload_casts_post (cast_payload : CastPayload) (v : Value)
  (R : list Event -> bool -> Prop) : Prop :=
  forall a' v' s' f',
    size_value v' < size_value v -> post (cast_payload a' v' s' f') R.

(** ** Existential containers on the way to a dynamic value *)

(** The existential types whose containers [findDynamicValueAndType] opens
    on its way from [value], of type [type], to the dynamic value. *)
Fixpoint containers_traversed (value : Value) (type : Metadata)
  : list ExistentialTypeMetadata :=
  match type, value with
  | MExistential e, VOpaqueExistential innerType _ innerValue _ =>
      match getRepresentation e with
      | ExistentialTypeRepresentation.Opaque =>
          e :: containers_traversed innerValue innerType
      | _ => []
      end
  | MExistential e, VErrorBox _ innerType _ innerValue =>
      match getRepresentation e with
      | ExistentialTypeRepresentation.ErrorProtocol =>
          e :: containers_traversed innerValue innerType
      | _ => []
      end
  | _, _ => []
  end.

Definition is_error_box (e : ExistentialTypeMetadata) : bool :=
  match getRepresentation e with
  | ExistentialTypeRepresentation.ErrorProtocol => true
  | _ => false
  end.

(** ** Crashes *)

(** [swift_dynamicCastFailure], as opposed to the crashes on corrupt
    metadata or on a buffer that does not hold what its type says. *)
Definition is_cast_failure (c : Crash) : bool :=
  match c with
  | dynamicCastFailure _ _ => true
  | _ => false
  end.

(** [m] does not end in [swift_dynamicCastFailure]. *)
Definition no_cast_failure {A} (m : Effect A) : Prop :=
  forall t c, m = (t, Aborts c) -> is_cast_failure c = false.

Definition is_store_witness (e : Event) : bool :=
  match e with
  | store_witness _ _ => true
  | _ => false
  end.

(** ** An Optional source and an existential target *)

(** What [swift_dynamicCast] does after the preliminary attempt has
    failed: the empty case fails, the payload case is cast as its payload,
    both with the flags of the caller. *)
Definition after_failed_attempt
  (conforms : Metadata -> ProtocolDescriptor -> option WitnessTable)
  (a : Addr) (v : Value) (T : Metadata)
  (e : ExistentialTypeMetadata) (flags : DynamicCastFlags) : Effect bool :=
  match v with
  | VNone =>
      _fail {| address := a; pointee := v |} (MOptional T) (MExistential e)
            flags None ;;
      ret false
  | VSome payload =>
      _dynamicCastToExistential conforms {| address := a; pointee := payload |}
        T e flags
  | _ => abort invalidValue
  end.


(** ** Ownership of the source *)

(** What an event does to the ownership the caller has of the source:
    destroying it, taking it, releasing it, or storing its reference into
    [dest] gives one ownership up; a retain creates one.  Copies, stores of
    types and witness tables, and buffer deallocation count for nothing. *)
Definition ownership_given_up (e : Event) : Z :=
  match e with
  | vw_destroy _ _ => 1
  | vw_initializeWithTake _ _ => 1
  | vw_initializeBufferWithTake _ _ => 1
  | swift_unknownRelease _ => 1
  | store_reference _ => 1
  | store_existential_Value _ => 1
  | store_errorBox _ _ _ isTake => if isTake then 1 else 0
  | swift_retain _ => -1
  | swift_unknownRetain _ => -1
  | _ => 0
  end%Z.

Fixpoint released (t : list Event) : Z :=
  match t with
  | [] => 0
  | e :: t' => ownership_given_up e + released t'
  end%Z.

(** "Exactly one ownership release when [shouldDeallocateSource] holds and
    none when it does not". *)
Definition released_as_flagged (flags : DynamicCastFlags)
  : list Event -> bool -> Prop :=
  fun t succeeded =>
    released t = (if shouldDeallocateSource succeeded flags then 1 else 0)%Z.

(** The target is a metatype or an existential metatype, possibly under
    Optionals. *)
Fixpoint metatype_target (T : Metadata) : bool :=
  match T with
  | MOptional P => metatype_target P
  | MMetatype _ | MExistentialMetatype _ => true
  | _ => false
  end.

(** The source is a metatype value, possibly inside Optionals and
    existential containers. *)
Fixpoint holds_metatype (v : Value) (s : Metadata) : bool :=
  match s, v with
  | MMetatype _, _ | MExistentialMetatype _, _ => true
  | MOptional P, VSome payload => holds_metatype payload P
  | MExistential _, VOpaqueExistential ty _ payload _ =>
      holds_metatype payload ty
  | MExistential _, VErrorBox _ ty _ payload => holds_metatype payload ty
  | _, _ => false
  end.

(** The rule as the engine keeps it: as flagged, or, when [strict] is off,
    nothing released at all. *)
Definition released_at_most (strict : bool) (flags : DynamicCastFlags)
  : list Event -> bool -> Prop :=
  fun t succeeded =>
    released_as_flagged flags t succeeded \/
    (strict = false /\ released t = 0%Z).

(** The cast is decided by a metatype rule: a metatype value cast to a
    metatype target. *)
Definition metatype_rule (T : Metadata) (v : Value) (s : Metadata) : bool :=
  metatype_target T && holds_metatype v s.

(** What the engine's helpers need, for the ownership rule, of the calls
    they make back into [swift_dynamicCast]. *)
Definition payload_casts_release (strict : bool) (T : Metadata)
  (cast_payload : CastPayload) (v : Value) : Prop :=
  forall a' v' s' f',
    size_value v' < size_value v ->
    (strict = true -> metatype_rule T v' s' = false) ->
    post (cast_payload a' v' s' f') (released_at_most strict f').

(** ** The dynamic value of a source *)

(** The innermost value and its type, through existential containers. *)
Fixpoint dynamic_type (v : Value) (T : Metadata) : Metadata :=
  match T, v with
  | MClass _, VObject o => swift_getObjectType o
  | MObjCClassWrapper _, VObject o => swift_getObjectType o
  | MForeignClass _, VObject o => swift_getObjectType o
  | MExistential _, VClassExistential (VObject o) _ => swift_getObjectType o
  | MExistential _, VOpaqueExistential ty _ payload _ =>
      dynamic_type payload ty
  | MExistential _, VErrorBox _ ty _ payload => dynamic_type payload ty
  | MMetatype _, VMetadata m => MMetatype m
  | MExistentialMetatype _, VMetadata m => MMetatype m
  | MMetatype _, VExistentialMetatype m _ => MMetatype m
  | MExistentialMetatype _, VExistentialMetatype m _ => MMetatype m
  | _, _ => T
  end.

Fixpoint dynamic_payload (v : Value) (T : Metadata) : Value :=
  match T, v with
  | MExistential _, VClassExistential (VObject o) _ => VObject o
  | MExistential _, VOpaqueExistential ty _ payload _ =>
      dynamic_payload payload ty
  | MExistential _, VErrorBox _ ty _ payload => dynamic_payload payload ty
  | _, _ => v
  end.

(** ** What [dest] holds after a cast *)

(** The destination buffer, as far as the casting code writes it: the value
    at its start (a value initialised there by a value witness, a
    reference, a metatype or an error box), the [Type] field of an opaque
    existential container, the witness tables and the enum tags stored,
    latest first. *)
Record DestBuffer := {
  dest_value : option Value;
  dest_Type : option Metadata;
  dest_witness_slots : list (nat * WitnessTable);
  dest_tags : list (Metadata * Z)
}.

Definition empty_dest : DestBuffer :=
  {| dest_value := None; dest_Type := None;
     dest_witness_slots := []; dest_tags := [] |}.

Definition with_value (d : DestBuffer) (v : Value) : DestBuffer :=
  {| dest_value := Some v; dest_Type := dest_Type d;
     dest_witness_slots := dest_witness_slots d; dest_tags := dest_tags d |}.

Definition store (d : DestBuffer) (e : Event) : DestBuffer :=
  match e with
  | vw_initializeWithTake _ src => with_value d (pointee src)
  | vw_initializeWithCopy _ src => with_value d (pointee src)
  | vw_initializeBufferWithTake _ src => with_value d (pointee src)
  | vw_initializeBufferWithCopy _ src => with_value d (pointee src)
  | store_witness i w =>
      {| dest_value := dest_value d; dest_Type := dest_Type d;
         dest_witness_slots := (i, w) :: dest_witness_slots d;
         dest_tags := dest_tags d |}
  | store_existential_Value o => with_value d (VObject o)
  | store_reference o => with_value d (VObject o)
  | store_existential_Type ty =>
      {| dest_value := dest_value d; dest_Type := Some ty;
         dest_witness_slots := dest_witness_slots d; dest_tags := dest_tags d |}
  | store_metatype m => with_value d (VMetadata m)
  | store_errorBox ty w src _ => with_value d (VErrorBox 0%N ty w (pointee src))
  | swift_storeEnumTagSinglePayload payloadType whichCase =>
      {| dest_value := dest_value d; dest_Type := dest_Type d;
         dest_witness_slots := dest_witness_slots d;
         dest_tags := (payloadType, whichCase) :: dest_tags d |}
  | _ => d
  end.

Definition dest_after (t : list Event) : DestBuffer :=
  fold_left store t empty_dest.

Fixpoint lookup_tag (payloadType : Metadata) (tags : list (Metadata * Z))
  : option Z :=
  match tags with
  | [] => None
  | (P, c) :: rest =>
      if Metadata_eqb P payloadType then Some c
      else lookup_tag payloadType rest
  end.

Definition witnesses_stored (d : DestBuffer) : list WitnessTable :=
  map snd (rev (dest_witness_slots d)).

(** The value of type [T] the buffer holds. *)
Fixpoint read_dest (T : Metadata) (d : DestBuffer) : option Value :=
  match T with
  | MOptional P =>
      match lookup_tag P (dest_tags d) with
      | Some (-1)%Z => option_map VSome (read_dest P d)
      | Some _ => Some VNone
      | None => None
      end
  | MExistential e =>
      match getRepresentation e with
      | ExistentialTypeRepresentation.Class =>
          option_map (fun v => VClassExistential v (witnesses_stored d))
                     (dest_value d)
      | ExistentialTypeRepresentation.Opaque =>
          match dest_Type d, dest_value d with
          | Some ty, Some v =>
              Some (VOpaqueExistential ty None v (witnesses_stored d))
          | _, _ => None
          end
      | ExistentialTypeRepresentation.ErrorProtocol => dest_value d
      end
  | MExistentialMetatype _ =>
      match dest_value d with
      | Some (VMetadata m) =>
          Some (VExistentialMetatype m (witnesses_stored d))
      | _ => None
      end
  | _ => dest_value d
  end.

(** Equality of two values of type [T]: case by case for an Optional, the
    dynamic value and its type for an existential, the metatype for an
    existential metatype, and the value itself otherwise. *)
Fixpoint same_value (T : Metadata) (v v' : Value) : Prop :=
  match T with
  | MOptional P =>
      match v, v' with
      | VNone, VNone => True
      | VSome x, VSome x' => same_value P x x'
      | _, _ => False
      end
  | MExistential _ =>
      dynamic_type v T = dynamic_type v' T /\
      dynamic_payload v T = dynamic_payload v' T
  | MExistentialMetatype _ =>
      match v, v' with
      | VExistentialMetatype m _, VExistentialMetatype m' _ => m = m'
      | _, _ => False
      end
  | _ => v = v'
  end.

(** ** Well-formed values *)

(** "conformsTo(value?, type, protocol)": "If the protocol is the universal
    reference-type protocol, succeeds for any class-like kind or any
    class-bounded existential, fails for everything else.  If the protocol
    requires a witness table, delegate to the Oracle; a returned null means
    non-conformance.  Otherwise [...] returns false if that collaborator is
    unavailable." *)
Definition conforms_to
  (conforms : Metadata -> ProtocolDescriptor -> option WitnessTable)
  (type : Metadata) (protocol : ProtocolDescriptor) : bool :=
  if SpecialProtocol.eqb (getSpecialProtocol (protocol_Flags protocol))
                         SpecialProtocol.AnyObject
  then
    match type with
    | MClass _ | MObjCClassWrapper _ | MForeignClass _ => true
    | MExistential e => isClassBounded e
    | _ => false
    end
  else
    needsWitnessTable (protocol_Flags protocol) &&
    match conforms type protocol with Some _ => true | None => false end.

(** The buffer holds what its type says, as far as the search for the
    dynamic value looks: a reference for a class type, a container of the
    right representation for an existential type, down to its innermost
    payload, and a metatype for a metatype type. *)
Fixpoint has_dynamic_value (v : Value) (T : Metadata) {struct v} : Prop :=
  match T with
  | MClass _ | MObjCClassWrapper _ | MForeignClass _ =>
      match v with VObject _ => True | _ => False end
  | MExistential e =>
      match v with
      | VClassExistential (VObject _) _ =>
          getRepresentation e = ExistentialTypeRepresentation.Class
      | VOpaqueExistential ty _ payload _ =>
          getRepresentation e = ExistentialTypeRepresentation.Opaque /\
          has_dynamic_value payload ty
      | VErrorBox _ ty _ payload =>
          getRepresentation e = ExistentialTypeRepresentation.ErrorProtocol /\
          has_dynamic_value payload ty
      | _ => False
      end
  | MMetatype _ | MExistentialMetatype _ =>
      match v with
      | VMetadata _ | VExistentialMetatype _ _ => True
      | _ => False
      end
  | _ => True
  end.

(** What an existential type asks of the representation it uses: a class
    existential holds a reference, an error existential has the one
    protocol whose witness table the box records. *)
Definition fits_representation (e : ExistentialTypeMetadata)
  (dynamicValue : Value) (dynamicType : Metadata) : Prop :=
  match getRepresentation e with
  | ExistentialTypeRepresentation.Class =>
      exists o, dynamicValue = VObject o /\ dynamicType = swift_getObjectType o
  | ExistentialTypeRepresentation.Opaque => True
  | ExistentialTypeRepresentation.ErrorProtocol =>
      exists p, Protocols e = [p] /\
        SpecialProtocol.eqb (getSpecialProtocol (protocol_Flags p))
                            SpecialProtocol.AnyObject = false
  end.

(** [v], of type [T], can be held by the existential [e]: its dynamic type
    conforms to all the protocols of [e]. *)
Definition boxable
  (conforms : Metadata -> ProtocolDescriptor -> option WitnessTable)
  (e : ExistentialTypeMetadata) (v : Value) (T : Metadata) : Prop :=
  has_dynamic_value v T /\
  forallb (conforms_to conforms (dynamic_type v T)) (Protocols e) = true /\
  fits_representation e (dynamic_payload v T) (dynamic_type v T).

(** [m] is a value of the metatype [instance.Type]: [instance] itself or,
    for a class, a subclass of it. *)
Definition metatype_of (instance m : Metadata) : Prop :=
  match instance with
  | MClass c => exists c', m = MClass c' /\ subclass_or_equal c c'
  | MObjCClassWrapper _ | MForeignClass _ => False
  | _ => m = instance
  end.

(** [m] is a value of the existential metatype [instance.Type]: a type
    conforming to the protocols of the existential [instance], or the
    metatype of such a value when [instance] is itself an existential
    metatype. *)
Fixpoint metatype_conforms
  (conforms : Metadata -> ProtocolDescriptor -> option WitnessTable)
  (m instance : Metadata) {struct instance} : Prop :=
  match instance with
  | MExistential e => forallb (conforms_to conforms m) (Protocols e) = true
  | MExistentialMetatype instance' =>
      match m with
      | MMetatype m' => metatype_conforms conforms m' instance'
      | _ => False
      end
  | _ => False
  end.

(** A well-formed value of type [T], as far as a cast depends on it.  In
    the native runtime there are no values of wrapped or foreign class
    types. *)
Fixpoint well_formed
  (conforms : Metadata -> ProtocolDescriptor -> option WitnessTable)
  (v : Value) (T : Metadata) {struct v} : Prop :=
  match T with
  | MOptional P =>
      match v with
      | VNone => True
      | VSome x => well_formed conforms x P
      | _ => False
      end
  | MClass c =>
      match v with
      | VObject o => subclass_or_equal c (_swift_getClassOfAllocated o)
      | _ => False
      end
  | MObjCClassWrapper _ | MForeignClass _ => False
  | MExistential e => boxable conforms e v T
  | MMetatype instance =>
      match v with
      | VMetadata m => metatype_of instance m
      | _ => False
      end
  | MExistentialMetatype instance =>
      match v with
      | VExistentialMetatype m _ => metatype_conforms conforms m instance
      | _ => False
      end
  | _ => True
  end.

(** No Optional in [v] has, as the payload of its existential type, a
    container whose dynamic value is again an Optional. *)
Fixpoint no_hidden_optional (v : Value) (T : Metadata) {struct v} : Prop :=
  match T, v with
  | MOptional P, VSome x =>
      match P with
      | MExistential _ => getKind (dynamic_type x P) <> MetadataKind.Optional
      | _ => no_hidden_optional x P
      end
  | _, _ => True
  end.

(** After [events], [dest] holds a value of type [T] equal to [v]. *)
Definition holds (T : Metadata) (v : Value) (events : list Event) : Prop :=
  exists held,
    read_dest T (dest_after events) = Some held /\ same_value T v held.

(** Levels of Optional around a type. *)
Fixpoint optional_depth (T : Metadata) : nat :=
  match T with
  | MOptional P => S (optional_depth P)
  | _ => O
  end.

(** What the cast into [Optional<e>] of a value the existential [e] can
    hold comes to: the value is put into the existential and the payload
    tag injected. *)
Definition boxed_as_payload (e : ExistentialTypeMetadata) (v : Value)
  (T : Metadata) (m : Effect bool) : Prop :=
  exists E held,
    m = (E ++ [swift_storeEnumTagSinglePayload (MExistential e) (-1)],
         Returns true) /\
    read_dest (MExistential e) (dest_after E) = Some held /\
    dynamic_type held (MExistential e) = dynamic_type v T /\
    dynamic_payload held (MExistential e) = dynamic_payload v T.

(** * Notions used by the further properties of the runtime functions *)

(** ** Classes *)

(** Length of the superclass chain. *)
Fixpoint class_depth (c : ClassMetadata) : nat :=
  match c with
  | RootClass _ => O
  | SubClass _ super => S (class_depth super)
  end.

(** [ProtocolDispatchStrategy::Empty]. *)
Definition is_empty_dispatch (p : ProtocolDescriptor) : bool :=
  match getDispatchStrategy (protocol_Flags p) with
  | ProtocolDispatchStrategy.Empty => true
  | _ => false
  end.

(** ** Casts to value types *)

(** The kinds [swift_dynamicCast] handles by exact match: structs, enums
    and "the non-polymorphic types". *)
Definition non_polymorphic (T : Metadata) : bool :=
  match T with
  | MStruct _ | MEnum _ | MOpaque _ | MTuple _
  | MHeapLocalVariable _ | MHeapGenericLocalVariable _ | MErrorObject _ =>
      true
  | _ => false
  end.

(** The value [x], of type [P], is of type [T], or is an opaque or error
    existential whose payload [inside] accepts. *)
Definition exact_or_inside (T : Metadata)
  (inside : Value -> Metadata -> bool) (x : Value) (P : Metadata) : bool :=
  if Metadata_eqb P T then true
  else
    match P with
    | MExistential e =>
        match getRepresentation e, x with
        | ExistentialTypeRepresentation.Opaque,
          VOpaqueExistential ty _ payload _ => inside payload ty
        | ExistentialTypeRepresentation.ErrorProtocol,
          VErrorBox _ ty _ payload => inside payload ty
        | _, _ => false
        end
    | _ => false
    end.

(** A value of type [T] is found in [v], of type [S]: behind at most one
    level of Optional and then, as long as the type at hand is an
    existential, inside its container, again behind at most one level of
    Optional. *)
Fixpoint finds_exact (T : Metadata) (v : Value) (S : Metadata) {struct v}
  : bool :=
  match S with
  | MOptional P =>
      match v with
      | VSome x => exact_or_inside T (finds_exact T) x P
      | _ => false
      end
  | _ => exact_or_inside T (finds_exact T) v S
  end.

(** ** Existential sources *)

(** The targets [swift_dynamicCast] reaches by casting the payload of an
    existential source with [swift_dynamicCast] itself: all but
    existentials and the two kinds of metatype. *)
Definition casts_payload_again (T : Metadata) : bool :=
  match T with
  | MExistential _ | MMetatype _ | MExistentialMetatype _ => false
  | _ => true
  end.

(** The payload of an existential container at [a], where it is and
    the type it is held at. *)
Definition container_payload (a : Addr) (v : Value)
  : option (Addr * Value * Metadata) :=
  match v with
  | VClassExistential (VObject o) _ =>
      Some (a, VObject o, swift_getObjectType o)
  | VOpaqueExistential ty box payload _ =>
      Some (vw_projectBuffer a box, payload, ty)
  | VErrorBox box ty _ payload => Some (box, payload, ty)
  | _ => None
  end.

(** The container is of the representation of its type. *)
Definition container_of (e : ExistentialTypeMetadata) (v : Value) : bool :=
  match getRepresentation e, v with
  | ExistentialTypeRepresentation.Class, VClassExistential (VObject _) _ =>
      true
  | ExistentialTypeRepresentation.Opaque, VOpaqueExistential _ _ _ _ => true
  | ExistentialTypeRepresentation.ErrorProtocol, VErrorBox _ _ _ _ => true
  | _, _ => false
  end.

(** ** Conformance *)

Definition is_some {A} (o : option A) : bool :=
  match o with Some _ => true | None => false end.

(** The protocol is [AnyObject]. *)
Definition is_AnyObject (p : ProtocolDescriptor) : bool :=
  SpecialProtocol.eqb (getSpecialProtocol (protocol_Flags p))
                      SpecialProtocol.AnyObject.

Definition needs_table (p : ProtocolDescriptor) : bool :=
  needsWitnessTable (protocol_Flags p).

(** The stores of the witness tables [ws] into the slots from [i] on. *)
Definition stores_from (i : nat) (ws : list WitnessTable) : list Event :=
  map (fun slot => store_witness (fst slot) (snd slot))
      (combine (seq i (length ws)) ws).

(** ** What a cast does to its source *)

(** The events by which the source, or a part of it, is given up: a
    destroy, a take, a release, the deallocation of a buffer. *)
Definition gives_up_source (e : Event) : bool :=
  match e with
  | vw_destroy _ _ | vw_initializeWithTake _ _
  | vw_initializeBufferWithTake _ _ | vw_deallocateBuffer _ _
  | swift_unknownRelease _ => true
  | store_errorBox _ _ _ isTake => isTake
  | _ => false
  end.

Definition source_kept (t : list Event) : bool :=
  forallb (fun e => negb (gives_up_source e)) t.

(** What the helpers need, to keep the source, of the calls they make
    back into [swift_dynamicCast]. *)
Definition payload_casts_keep (cast_payload : CastPayload) (v : Value)
  : Prop :=
  forall a' v' s' f',
    size_value v' < size_value v ->
    f' &? Flags.TakeOnSuccess = false ->
    f' &? Flags.DestroyOnFailure = false ->
    post (cast_payload a' v' s' f') (fun t _ => source_kept t = true).

(** The events that put a value into [dest]: not a witness table, a
    dynamic type or an enum tag alone. *)
Definition stores_value (e : Event) : bool :=
  match e with
  | vw_initializeWithTake _ _ | vw_initializeWithCopy _ _
  | vw_initializeBufferWithTake _ _ | vw_initializeBufferWithCopy _ _
  | store_existential_Value _ | store_metatype _ | store_reference _
  | store_errorBox _ _ _ _ => true
  | _ => false
  end.

Definition value_stored (t : list Event) : bool := existsb stores_value t.

(** The answer true comes with a value stored. *)
Definition succeeds_with_value : list Event -> bool -> Prop :=
  fun t b => b = true -> value_stored t = true.

(** ** Conditional casts *)

(** What the helpers need, not to end in a cast failure, of the calls they
    make back into [swift_dynamicCast]. *)
Definition payload_casts_return (cast_payload : CastPayload) (v : Value)
  : Prop :=
  forall a' v' s' f',
    size_value v' < size_value v ->
    f' &? Flags.Unconditional = false ->
    no_cast_failure (cast_payload a' v' s' f').

(** ** Metatype targets *)

(** The metatype a cast to a metatype type finds in [v], of type [S]: the
    metatype a metatype type holds, or the one found in the payload of an
    opaque or error existential. *)
Fixpoint held_metatype (v : Value) (S : Metadata) {struct v}
  : option Metadata :=
  match S with
  | MMetatype _ | MExistentialMetatype _ =>
      match v with
      | VMetadata m => Some m
      | VExistentialMetatype m _ => Some m
      | _ => None
      end
  | MExistential e =>
      match getRepresentation e, v with
      | ExistentialTypeRepresentation.Opaque,
        VOpaqueExistential ty _ payload _ => held_metatype payload ty
      | ExistentialTypeRepresentation.ErrorProtocol,
        VErrorBox _ ty _ payload => held_metatype payload ty
      | _, _ => None
      end
  | _ => None
  end.

(** The same, behind at most one level of Optional. *)
Definition source_metatype (v : Value) (S : Metadata) : option Metadata :=
  match S with
  | MOptional P =>
      match v with
      | VSome x => held_metatype x P
      | _ => None
      end
  | _ => held_metatype v S
  end.

(** The metatype found, if any, is a value of the existential metatype
    [instance.Type]. *)
Definition conforming_metatype
  (conforms : Metadata -> ProtocolDescriptor -> option WitnessTable)
  (instance : Metadata) (found : option Metadata) : Prop :=
  match found with
  | Some m => metatype_conforms conforms m instance
  | None => False
  end.

(** ** Type names *)

(** [swift_getTypeName] keeps the names it has built in a map, keyed by
    the type and the [qualified] bit (a [PointerIntPair]), that lives as
    long as the process.  The map is passed in and out; its lock is not
    modelled: one thread calls at a time. *)
Definition TypeNameKey : Type := (Metadata * bool)%type.

Definition TypeNameKey_eqb (k k' : TypeNameKey) : bool :=
  Metadata_eqb (fst k) (fst k') && Bool.eqb (snd k) (snd k').

(** A name, as its characters, and its size. *)
Definition TypeName : Type := (list Byte.byte * nat)%type.

Definition TypeNameCache : Type := list (TypeNameKey * TypeName).

(** [DenseMap::find]. *)
Fixpoint cache_find (cache : TypeNameCache) (key : TypeNameKey)
  : option TypeName :=
  match cache with
  | [] => None
  | (k, result) :: rest =>
      if TypeNameKey_eqb k key then Some result else cache_find rest key
  end.

(** [DenseMap::insert]: a key that is present keeps its value. *)
Definition cache_insert (cache : TypeNameCache) (key : TypeNameKey)
  (result : TypeName) : TypeNameCache :=
  match cache_find cache key with
  | Some _ => cache
  | None => (key, result) :: cache
  end.

Section TypeNames.

(** [nameForMetadata], which builds the name with the demangler. *)
Variable nameForMetadata : Metadata -> bool -> list Byte.byte.

(** [swift_getTypeName]: the name and its size, and the cache after the
    call.  The cache is looked up twice, under the read lock and again
    under the write lock, before the name is built, copied and
    inserted. *)
Definition swift_getTypeName (type : Metadata) (qualified : bool)
  (cache : TypeNameCache) : TypeName * TypeNameCache :=
  let key := (type, qualified) in
  match cache_find cache key with
  | Some result => (result, cache)
  | None =>
      match cache_find cache key with
      | Some result => (result, cache)
      | None =>
          let name := nameForMetadata type qualified in
          let size := length name in
          let result := (name, size) in
          (result, cache_insert cache key result)
      end
  end.

(** Every name in the cache is the name of its key, with its size. *)
Definition cache_holds_names (cache : TypeNameCache) : Prop :=
  forall type qualified result,
    cache_find cache (type, qualified) = Some result ->
    result = (nameForMetadata type qualified,
              length (nameForMetadata type qualified)).

End TypeNames.

(** ** Casts to class types *)

(** The class the object was allocated as is [t] or a subclass of it. *)
Definition is_instance (t : ClassMetadata) (o : HeapObject) : bool :=
  is_some (_dynamicCastClassMetatype (_swift_getClassOfAllocated o) t).

(** The reference a buffer starts with, if it holds one. *)
Definition held_reference (x : Value) : option HeapObject :=
  match x with
  | VObject o => Some o
  | VClassExistential (VObject o) _ => Some o
  | _ => None
  end.

(** The value [x], of type [P], is a reference to an instance of [t], or
    is an opaque or error existential whose payload [inside] accepts. *)
Definition instance_or_inside (t : ClassMetadata)
  (inside : Value -> Metadata -> bool) (x : Value) (P : Metadata) : bool :=
  let reference :=
    match held_reference x with
    | Some o => is_instance t o
    | None => false
    end in
  match P with
  | MClass _ | MObjCClassWrapper _ | MForeignClass _ => reference
  | MExistential e =>
      match getRepresentation e, x with
      | ExistentialTypeRepresentation.Class, _ => reference
      | ExistentialTypeRepresentation.Opaque,
        VOpaqueExistential ty _ payload _ => inside payload ty
      | ExistentialTypeRepresentation.ErrorProtocol,
        VErrorBox _ ty _ payload => inside payload ty
      | _, _ => false
      end
  | _ => false
  end.

(** A reference to an instance of [t] is found in [v], of type [S]:
    behind at most one level of Optional and then inside existential
    containers, each payload again behind at most one level of
    Optional. *)
Fixpoint finds_instance (t : ClassMetadata) (v : Value) (S : Metadata)
  {struct v} : bool :=
  match S with
  | MOptional P =>
      match v with
      | VSome x => instance_or_inside t (finds_instance t) x P
      | _ => false
      end
  | _ => instance_or_inside t (finds_instance t) v S
  end.

(** ** Metatype casts *)

(** The class a wrapper stands for: "get the actual class object". *)
Definition unwrapped (T : Metadata) : Metadata :=
  match T with
  | MObjCClassWrapper c => MClass c
  | _ => T
  end.

(** ** Into an existential and back *)

(** The types whose values a cast from an existential hands back as they
    are: the value types and the classes. *)
Definition value_or_class (S : Metadata) : bool :=
  non_polymorphic S || match S with MClass _ => true | _ => false end.

(** * Concrete types and values *)

Module Examples.

(** A runtime in which no type conforms to any protocol and there are no
    foreign classes. *)
Definition no_conformance
  : Metadata -> ProtocolDescriptor -> option WitnessTable :=
  fun _ _ => None.
Definition no_foreign_classes : Metadata -> Metadata -> bool :=
  fun _ _ => false.

Definition at_address (a : Addr) (v : Value) : OpaqueValue :=
  {| address := a; pointee := v |}.

Definition Int : Metadata := MStruct 1.
Definition String : Metadata := MStruct 2.

(** A runtime in which [Int], and nothing else, conforms to every
    protocol. *)
Definition Int_conforms
  : Metadata -> ProtocolDescriptor -> option WitnessTable :=
  fun type _ => if Metadata_eqb type Int then Some 100%N else None.

(** A Swift protocol with a witness table, and the existential [P]. *)
Definition P : ProtocolDescriptor :=
  {| protocol_Name := 1;
     protocol_Flags :=
       {| getSpecialProtocol := SpecialProtocol.None;
          getDispatchStrategy := ProtocolDispatchStrategy.Swift;
          needsWitnessTable := true |} |}.

Definition P_existential : ExistentialTypeMetadata :=
  {| getRepresentation := ExistentialTypeRepresentation.Opaque;
     isClassBounded := false;
     Protocols := [P] |}.

(** [Any]: no protocols, opaque representation. *)
Definition Any : ExistentialTypeMetadata :=
  {| getRepresentation := ExistentialTypeRepresentation.Opaque;
     isClassBounded := false;
     Protocols := [] |}.

(** [P.Type.Type]. *)
Definition P_Type_Type : Metadata :=
  MExistentialMetatype (MExistentialMetatype (MExistential P_existential)).

(** Classes [A <- B <- C]. *)
Definition A : ClassMetadata := RootClass 10.
Definition B : ClassMetadata := SubClass 11 A.
Definition C : ClassMetadata := SubClass 12 B.

(** [(Int) -> String], not throwing and throwing. *)
Definition swift_function (throwing : bool) : FunctionTypeFlags :=
  {| getNumArguments := 1;
     getConvention := FunctionMetadataConvention.Swift;
     throws := throwing |}.
Definition Int_to_String (throwing : bool) : Metadata :=
  MFunction (swift_function throwing) [(Int, false)] String.

End Examples.

(** * Further concrete values *)

Module More_examples.
Import Examples.

(** An object allocated as a [C], held at the static type [A]. *)
Definition a_C : HeapObject :=
  {| object_address := 32%N; _swift_getClassOfAllocated := C |}.

(** An [Any] holding the [Int] 7 out of line, in a buffer at 64. *)
Definition Int_in_Any : Value :=
  VOpaqueExistential Int (Some 64%N) (VBits 7) [].

(** A name builder that gives every type the empty name. *)
Definition no_names : Metadata -> bool -> list Byte.byte := fun _ _ => [].

End More_examples.
(** * Properties *)

(** ** Equality tests decide equality *)

Lemma ClassMetadata_eqb_eq (a b : ClassMetadata) :
  ClassMetadata_eqb a b = true <-> a = b.
Proof.
  revert b; induction a as [n | n s IH]; intros [m | m t]; simpl;
    try (split; [discriminate | intros H; inversion H]).
  - rewrite N.eqb_eq. split; [intros -> | intros H; inversion H]; reflexivity.
  - rewrite andb_true_iff, N.eqb_eq, IH.
    split; [intros [-> ->] | intros H; inversion H]; auto.
Qed.

Lemma ClassMetadata_eqb_refl (a : ClassMetadata) : ClassMetadata_eqb a a = true.
Proof. apply ClassMetadata_eqb_eq; reflexivity. Qed.

Lemma list_eqb_eq {A} (eqb : A -> A -> bool) (xs : list A) :
  Forall (fun x => forall y, eqb x y = true <-> x = y) xs ->
  forall ys, list_eqb eqb xs ys = true <-> xs = ys.
Proof.
  induction 1 as [| x xs Hx _ IH]; intros [| y ys]; simpl;
    try (split; [discriminate | intros H; inversion H]);
    try tauto.
  rewrite andb_true_iff, Hx, IH.
  split; [intros [-> ->] | intros H; inversion H]; auto.
Qed.

Lemma ProtocolDescriptor_eqb_eq (p q : ProtocolDescriptor) :
  ProtocolDescriptor_eqb p q = true <-> p = q.
Proof.
  destruct p as [n [sp ds nw]], q as [m [sp' ds' nw']].
  unfold ProtocolDescriptor_eqb; simpl.
  rewrite !andb_true_iff, N.eqb_eq, eqb_true_iff.
  split.
  - intros [[[-> Hs] Hd] ->].
    destruct sp, sp'; try discriminate; destruct ds, ds'; try discriminate;
      reflexivity.
  - intros H; inversion H; subst.
    destruct sp', ds'; auto.
Qed.

Lemma ExistentialTypeMetadata_eqb_eq (a b : ExistentialTypeMetadata) :
  ExistentialTypeMetadata_eqb a b = true <-> a = b.
Proof.
  destruct a as [r c ps], b as [r' c' ps'].
  unfold ExistentialTypeMetadata_eqb; simpl.
  rewrite !andb_true_iff, eqb_true_iff.
  rewrite (list_eqb_eq ProtocolDescriptor_eqb (xs := ps)).
  - split.
    + intros [[Hr ->] ->]. destruct r, r'; try discriminate; reflexivity.
    + intros H; inversion H; subst. destruct r'; auto.
  - apply Forall_forall; intros p _ q. apply ProtocolDescriptor_eqb_eq.
Qed.

Lemma FunctionTypeFlags_eqb_eq (f g : FunctionTypeFlags) :
  FunctionTypeFlags_eqb f g = true <-> f = g.
Proof.
  destruct f as [n c t], g as [n' c' t'].
  unfold FunctionTypeFlags_eqb; simpl.
  rewrite !andb_true_iff, Nat.eqb_eq, eqb_true_iff.
  split.
  - intros [[-> Hc] ->]. destruct c, c'; try discriminate; reflexivity.
  - intros H; inversion H; subst. destruct c'; auto.
Qed.

Lemma Metadata_eqb_eq (a b : Metadata) : Metadata_eqb a b = true <-> a = b.
Proof.
  revert b; induction a using Metadata_nested_ind; intros b; destruct b; simpl;
    try (split; [discriminate | intros H'; inversion H']);
    try (rewrite ClassMetadata_eqb_eq; split;
         [intros -> | intros H'; inversion H']; reflexivity);
    try (rewrite N.eqb_eq; split;
         [intros -> | intros H'; inversion H']; reflexivity);
    try (rewrite IHa; split;
         [intros -> | intros H'; inversion H']; reflexivity).
  - (* tuples *)
    assert (E : forall ys,
      (fix go (xs ys : list Metadata) : bool :=
         match xs, ys with
         | [], [] => true
         | x :: xs', y :: ys' => Metadata_eqb x y && go xs' ys'
         | _, _ => false
         end) xs ys = true <-> xs = ys).
    { induction H as [| x xs Hx _ IH]; intros [| y ys];
        try (split; [discriminate | intros H'; inversion H']); try tauto.
      rewrite andb_true_iff, Hx, IH.
      split; [intros [-> ->] | intros H'; inversion H']; auto. }
    rewrite E. split; [intros -> | intros H'; inversion H']; reflexivity.
  - (* functions *)
    assert (E : forall ys,
      (fix go (xs ys : list (Metadata * bool)) : bool :=
         match xs, ys with
         | [], [] => true
         | (x, i) :: xs', (y, j) :: ys' =>
             Metadata_eqb x y && Bool.eqb i j && go xs' ys'
         | _, _ => false
         end) args ys = true <-> args = ys).
    { induction H as [| [x i] xs Hx _ IH]; intros [| [y j] ys];
        try (split; [discriminate | intros H'; inversion H']); try tauto.
      simpl in Hx.
      rewrite !andb_true_iff, Hx, eqb_true_iff, IH.
      split; [intros [[-> ->] ->] | intros H'; inversion H']; auto. }
    rewrite !andb_true_iff, FunctionTypeFlags_eqb_eq, E, IHa.
    split; [intros [[-> ->] ->] | intros H'; inversion H']; auto.
  - (* existentials *)
    rewrite ExistentialTypeMetadata_eqb_eq.
    split; [intros -> | intros H'; inversion H']; reflexivity.
Qed.

Lemma Metadata_eqb_refl (a : Metadata) : Metadata_eqb a a = true.
Proof. apply Metadata_eqb_eq; reflexivity. Qed.

Lemma Metadata_eqb_neq (a b : Metadata) : Metadata_eqb a b = false <-> a <> b.
Proof.
  rewrite <- Metadata_eqb_eq. destruct (Metadata_eqb a b); split; congruence.
Qed.

Lemma Argument_eqb_eq (a b : Argument) : Argument_eqb a b = true <-> a = b.
Proof.
  destruct a as [x i], b as [y j]; unfold Argument_eqb; simpl.
  rewrite andb_true_iff, Metadata_eqb_eq, eqb_true_iff.
  split; [intros [-> ->] | intros H; inversion H]; auto.
Qed.

(** ** Flag arithmetic *)

Lemma land_pow2_zero (f i : Z) :
  (0 <= i)%Z -> Z.eqb (Z.land f (2 ^ i)) 0 = negb (Z.testbit f i).
Proof.
  intros Hi. destruct (Z.testbit f i) eqn:E; simpl.
  - apply Z.eqb_neq. intros H.
    assert (T : Z.testbit (Z.land f (2 ^ i)) i = true).
    { rewrite Z.land_spec, E, Z.pow2_bits_true; auto. }
    rewrite H, Z.bits_0 in T. discriminate.
  - apply Z.eqb_eq. apply Z.bits_inj'. intros n Hn.
    rewrite Z.land_spec, Z.bits_0.
    destruct (Z.eq_dec i n) as [<- | Hne].
    + rewrite E. reflexivity.
    + rewrite Z.pow2_bits_false by auto. apply andb_false_r.
Qed.

Lemma has_flag_Unconditional (f : DynamicCastFlags) :
  f &? Flags.Unconditional = Z.testbit f 0.
Proof.
  unfold has_flag, Flags.Unconditional.
  change 1%Z with (2 ^ 0)%Z. rewrite land_pow2_zero by lia.
  apply negb_involutive.
Qed.

Lemma has_flag_TakeOnSuccess (f : DynamicCastFlags) :
  f &? Flags.TakeOnSuccess = Z.testbit f 1.
Proof.
  unfold has_flag, Flags.TakeOnSuccess.
  change 2%Z with (2 ^ 1)%Z. rewrite land_pow2_zero by lia.
  apply negb_involutive.
Qed.

Lemma has_flag_DestroyOnFailure (f : DynamicCastFlags) :
  f &? Flags.DestroyOnFailure = Z.testbit f 2.
Proof.
  unfold has_flag, Flags.DestroyOnFailure.
  change 4%Z with (2 ^ 2)%Z. rewrite land_pow2_zero by lia.
  apply negb_involutive.
Qed.

Lemma checkCastFlags_Unconditional f :
  checkCastFlags f &? Flags.Unconditional = false.
Proof.
  rewrite has_flag_Unconditional. unfold checkCastFlags, flags_minus.
  rewrite Z.ldiff_spec by lia. apply andb_false_r.
Qed.

Lemma checkCastFlags_DestroyOnFailure f :
  checkCastFlags f &? Flags.DestroyOnFailure = false.
Proof.
  rewrite has_flag_DestroyOnFailure. unfold checkCastFlags, flags_minus.
  rewrite Z.ldiff_spec by lia. apply andb_false_r.
Qed.

Lemma checkCastFlags_TakeOnSuccess f :
  checkCastFlags f &? Flags.TakeOnSuccess = f &? Flags.TakeOnSuccess.
Proof.
  rewrite !has_flag_TakeOnSuccess. unfold checkCastFlags, flags_minus.
  rewrite Z.ldiff_spec by lia. apply andb_true_r.
Qed.

Lemma copyOnlyFlags_Unconditional f :
  copyOnlyFlags f &? Flags.Unconditional = f &? Flags.Unconditional.
Proof.
  rewrite !has_flag_Unconditional. unfold copyOnlyFlags, flags_minus.
  rewrite Z.ldiff_spec by lia. apply andb_true_r.
Qed.

Lemma copyOnlyFlags_TakeOnSuccess f :
  copyOnlyFlags f &? Flags.TakeOnSuccess = false.
Proof.
  rewrite has_flag_TakeOnSuccess. unfold copyOnlyFlags, flags_minus.
  rewrite Z.ldiff_spec by lia. apply andb_false_r.
Qed.

Lemma copyOnlyFlags_DestroyOnFailure f :
  copyOnlyFlags f &? Flags.DestroyOnFailure = false.
Proof.
  rewrite has_flag_DestroyOnFailure. unfold copyOnlyFlags, flags_minus.
  rewrite Z.ldiff_spec by lia. apply andb_false_r.
Qed.

Lemma copyOnlyFlags_swap f :
  flags_minus f (flags_or Flags.DestroyOnFailure Flags.TakeOnSuccess)
  = copyOnlyFlags f.
Proof. reflexivity. Qed.

Lemma shouldDeallocateSource_copyOnly b f :
  shouldDeallocateSource b (copyOnlyFlags f) = false.
Proof.
  unfold shouldDeallocateSource.
  rewrite copyOnlyFlags_TakeOnSuccess, copyOnlyFlags_DestroyOnFailure.
  destruct b; reflexivity.
Qed.

(** ** The effect monad *)

Lemma bind_ret_l {A B} (a : A) (k : A -> Effect B) : bind (ret a) k = k a.
Proof. unfold bind, ret. destruct (k a); reflexivity. Qed.

Lemma bind_abort {A B} (c : Crash) (k : A -> Effect B) :
  bind (abort c) k = abort c.
Proof. reflexivity. Qed.

Lemma bind_returns {A B} (t : list Event) (a : A) (k : A -> Effect B) :
  bind (t, Returns a) k = (t ++ trace (k a), outcome (k a)).
Proof. unfold bind, trace, outcome. destruct (k a); reflexivity. Qed.

Lemma bind_aborts {A B} (t : list Event) (c : Crash) (k : A -> Effect B) :
  bind (t, Aborts c) k = (t, Aborts c).
Proof. reflexivity. Qed.

Lemma bind_emit {B} (e : Event) (k : unit -> Effect B) :
  bind (emit e) k = (e :: trace (k tt), outcome (k tt)).
Proof. unfold emit. rewrite bind_returns. reflexivity. Qed.

Lemma bind_assoc {A B C} (m : Effect A) (k : A -> Effect B)
  (h : B -> Effect C) :
  bind (bind m k) h = bind m (fun a => bind (k a) h).
Proof.
  destruct m as [t [a | c]]; simpl; auto.
  destruct (k a) as [t' [b | c]]; simpl; auto.
  destruct (h b) as [t'' r]. rewrite app_assoc. reflexivity.
Qed.

(** Inversion of a bind that returned. *)
Lemma bind_inv {A B} (m : Effect A) (k : A -> Effect B) t b :
  bind m k = (t, Returns b) ->
  exists t1 a t2, m = (t1, Returns a) /\ k a = (t2, Returns b) /\ t = t1 ++ t2.
Proof.
  destruct m as [t1 [a | c]]; simpl; [| discriminate].
  destruct (k a) as [t2 r] eqn:E. intros H; inversion H; subst.
  exists t1, a, t2. auto.
Qed.

Lemma when_false (m : Effect unit) : when false m = ret tt.
Proof. reflexivity. Qed.

Lemma when_true (m : Effect unit) : when true m = m.
Proof. reflexivity. Qed.

(** ** Unfolding the engine *)

Section Engine_equations.
Variable conforms : Metadata -> ProtocolDescriptor -> option WitnessTable.
Variable foreign : Metadata -> Metadata -> bool.

Lemma swift_dynamicCast_switch_eq targetType a v srcType flags :
  swift_dynamicCast_switch conforms foreign targetType a v srcType flags =
  swift_dynamicCast_dispatch conforms foreign
    (cast conforms foreign targetType) (cast conforms foreign)
    targetType a v srcType flags.
Proof. destruct targetType, v; reflexivity. Qed.

Lemma cast_eq targetType a v srcType flags :
  cast conforms foreign targetType a v srcType flags =
  checkDynamicCastFromOptional conforms a v srcType targetType flags
    (fun x ty =>
       swift_dynamicCast_dispatch conforms foreign
         (cast conforms foreign targetType) (cast conforms foreign)
         targetType a x ty flags).
Proof.
  unfold cast at 1, swift_dynamicCast; simpl.
  unfold checkDynamicCastFromOptional.
  destruct srcType; try apply swift_dynamicCast_switch_eq.
  destruct (match targetType with MExistential _ => _ | _ => _ end)
    as [t [[|] | c]]; simpl; try reflexivity.
  destruct v; try reflexivity.
  rewrite swift_dynamicCast_switch_eq. reflexivity.
Qed.

(** A source that is not an Optional goes straight to the switch. *)
Lemma cast_not_optional targetType a v srcType flags :
  getKind srcType <> MetadataKind.Optional ->
  cast conforms foreign targetType a v srcType flags =
  swift_dynamicCast_dispatch conforms foreign
    (cast conforms foreign targetType) (cast conforms foreign)
    targetType a v srcType flags.
Proof.
  intros H. rewrite cast_eq. destruct srcType; try reflexivity.
  exfalso; apply H; reflexivity.
Qed.

End Engine_equations.

(** ** Unfolding the recursive helpers *)

Section Helper_equations.
Variable conforms : Metadata -> ProtocolDescriptor -> option WitnessTable.
Variable foreign : Metadata -> Metadata -> bool.

Lemma findDynamicValueAndType__eq a value type inoutCanTake :
  findDynamicValueAndType_ a value type inoutCanTake =
  let here := {| address := a; pointee := value |} in
  match type with
  | MClass _ | MObjCClassWrapper _ | MForeignClass _ =>
      o <- load_object value ;;
      ret (here, swift_getObjectType o, inoutCanTake)
  | MExistential existentialType =>
      match getRepresentation existentialType with
      | ExistentialTypeRepresentation.Class =>
          match value with
          | VClassExistential Value_ _ =>
              o <- load_object Value_ ;;
              ret ({| address := a; pointee := Value_ |},
                   swift_getObjectType o, inoutCanTake)
          | _ => abort invalidValue
          end
      | ExistentialTypeRepresentation.Opaque =>
          match value with
          | VOpaqueExistential innerType box innerValue _ =>
              findDynamicValueAndType_ (vw_projectBuffer a box) innerValue
                innerType (inoutCanTake && mayTakeValue existentialType)
          | _ => abort invalidValue
          end
      | ExistentialTypeRepresentation.ErrorProtocol =>
          match value with
          | VErrorBox box innerType _ innerValue =>
              findDynamicValueAndType_ box innerValue
                innerType (inoutCanTake && mayTakeValue existentialType)
          | _ => abort invalidValue
          end
      end
  | MMetatype _ | MExistentialMetatype _ =>
      storedType <- load_metadata value ;;
      ret (here, swift_getMetatypeMetadata storedType, inoutCanTake)
  | _ => ret (here, type, inoutCanTake)
  end.
Proof. destruct value; reflexivity. Qed.

Lemma deallocateDynamicValue__eq a value type :
  deallocateDynamicValue_ a value type =
  match type with
  | MExistential existentialType =>
      match getRepresentation existentialType with
      | ExistentialTypeRepresentation.Class => ret tt
      | ExistentialTypeRepresentation.ErrorProtocol => ret tt
      | ExistentialTypeRepresentation.Opaque =>
          match value with
          | VOpaqueExistential Type_ box existentialValue _ =>
              deallocateDynamicValue_ (vw_projectBuffer a box)
                existentialValue Type_ ;;
              emit (vw_deallocateBuffer Type_
                      {| address := a; pointee := value |})
          | _ => abort invalidValue
          end
      end
  | _ => ret tt
  end.
Proof. destruct value; reflexivity. Qed.

Lemma _dynamicCastToMetatype__eq a v srcType instanceType flags :
  _dynamicCastToMetatype_ foreign a v srcType instanceType flags =
  let src := {| address := a; pointee := v |} in
  match srcType with
  | MMetatype _ | MExistentialMetatype _ =>
      srcMetatype <- load_metadata v ;;
      _dynamicCastMetatypeToMetatype foreign srcMetatype instanceType flags
  | MExistential srcExistentialType =>
      match getRepresentation srcExistentialType with
      | ExistentialTypeRepresentation.Class =>
          object <- load_object v ;;
          _dynamicCastUnknownClassToMetatype foreign object instanceType flags
      | ExistentialTypeRepresentation.Opaque =>
          match v with
          | VOpaqueExistential srcValueType box payload _ =>
              let srcValue := vw_projectBuffer a box in
              result <- _dynamicCastToMetatype_ foreign srcValue payload
                          srcValueType instanceType flags ;;
              when (negb (N.eqb a srcValue))
                   (_maybeDeallocateOpaqueExistential src result flags) ;;
              ret result
          | _ => abort invalidValue
          end
      | ExistentialTypeRepresentation.ErrorProtocol =>
          match v with
          | VErrorBox box srcValueType _ payload =>
              result <- _dynamicCastToMetatype_ foreign box payload
                          srcValueType instanceType (copyOnlyFlags flags) ;;
              when (shouldDeallocateSource result flags)
                   (emit (vw_destroy srcType src)) ;;
              ret result
          | _ => abort invalidValue
          end
      end
  | MClass _ | MObjCClassWrapper _ | MForeignClass _ =>
      object <- load_object v ;;
      _dynamicCastUnknownClassToMetatype foreign object instanceType flags
  | _ => _fail src srcType (MMetatype instanceType) flags None
  end.
Proof. destruct v; reflexivity. Qed.

Lemma _dynamicCastToExistentialMetatype__eq a v srcType instanceType flags :
  _dynamicCastToExistentialMetatype_ conforms a v srcType instanceType flags =
  let src := {| address := a; pointee := v |} in
  match srcType with
  | MMetatype _ | MExistentialMetatype _ =>
      srcMetatype <- load_metadata v ;;
      _dynamicCastMetatypeToExistentialMetatype conforms srcMetatype
        instanceType flags true
  | MExistential srcExistentialType =>
      match getRepresentation srcExistentialType with
      | ExistentialTypeRepresentation.Class =>
          object <- load_object v ;;
          _dynamicCastUnknownClassToExistentialMetatype conforms object
            instanceType flags
      | ExistentialTypeRepresentation.Opaque =>
          match v with
          | VOpaqueExistential srcValueType box payload _ =>
              let srcValue := vw_projectBuffer a box in
              result <- _dynamicCastToExistentialMetatype_ conforms srcValue
                          payload srcValueType instanceType flags ;;
              when (negb (N.eqb a srcValue))
                   (_maybeDeallocateOpaqueExistential src result flags) ;;
              ret result
          | _ => abort invalidValue
          end
      | ExistentialTypeRepresentation.ErrorProtocol =>
          match v with
          | VErrorBox box srcValueType _ payload =>
              result <- _dynamicCastToExistentialMetatype_ conforms box
                          payload srcValueType instanceType
                          (copyOnlyFlags flags) ;;
              when (shouldDeallocateSource result flags)
                   (emit (vw_destroy srcType src)) ;;
              ret result
          | _ => abort invalidValue
          end
      end
  | MClass _ | MObjCClassWrapper _ | MForeignClass _ =>
      object <- load_object v ;;
      _dynamicCastUnknownClassToExistentialMetatype conforms object
        instanceType flags
  | _ => _fail src srcType (MExistentialMetatype instanceType) flags None
  end.
Proof. destruct v; reflexivity. Qed.

Lemma _dynamicCastMetatypeToExistentialMetatype_eq srcMetatype instanceType
  flags writeDestMetatype :
  _dynamicCastMetatypeToExistentialMetatype conforms srcMetatype instanceType
    flags writeDestMetatype =
  let targetType := MExistentialMetatype instanceType in
  match instanceType with
  | MExistential targetInstanceTypeAsExistential =>
      let conformance :=
        if writeDestMetatype then dest_witnesses 0 else null_witnesses in
      ok <- conformsToAll conforms srcMetatype targetType flags
              (Protocols targetInstanceTypeAsExistential) conformance ;;
      if ok
      then
        when writeDestMetatype (emit (store_metatype srcMetatype)) ;;
        ret true
      else ret false
  | MExistentialMetatype inner =>
      match srcMetatype with
      | MMetatype srcInstanceType =>
          when writeDestMetatype (emit (store_metatype srcMetatype)) ;;
          _dynamicCastMetatypeToExistentialMetatype conforms srcInstanceType
            inner flags false
      | _ =>
          when (flags &? Flags.Unconditional)
               (swift_dynamicCastFailure srcMetatype targetType) ;;
          ret false
      end
  | _ => _failCorruptType targetType
  end.
Proof. destruct instanceType; reflexivity. Qed.

End Helper_equations.

(** ** Metatype casts decide instance-of *)

Lemma _dynamicCastClassMetatype_unfold (s t : ClassMetadata) :
  _dynamicCastClassMetatype s t =
  if ClassMetadata_eqb s t then Some s
  else match s with
       | RootClass _ => None
       | SubClass _ super => _dynamicCastClassMetatype super t
       end.
Proof. destruct s; reflexivity. Qed.

Lemma _dynamicCastClassMetatype_sound (s t r : ClassMetadata) :
  _dynamicCastClassMetatype s t = Some r -> subclass_or_equal t s.
Proof.
  induction s as [n | n super IH]; rewrite _dynamicCastClassMetatype_unfold;
    destruct (ClassMetadata_eqb _ t) eqn:E;
    try (apply ClassMetadata_eqb_eq in E; subst; constructor).
  - discriminate.
  - intros H. constructor. auto.
Qed.

Lemma _dynamicCastClassMetatype_complete (s t : ClassMetadata) :
  subclass_or_equal t s -> exists r, _dynamicCastClassMetatype s t = Some r.
Proof.
  induction 1 as [| n super _ [r IH]];
    rewrite _dynamicCastClassMetatype_unfold.
  - rewrite ClassMetadata_eqb_refl. eauto.
  - destruct (ClassMetadata_eqb _ t); eauto.
Qed.

Lemma _dynamicCastClassMetatype_None (s t : ClassMetadata) :
  ~ subclass_or_equal t s -> _dynamicCastClassMetatype s t = None.
Proof.
  intros H. destruct (_dynamicCastClassMetatype s t) eqn:E; auto.
  exfalso. eauto using _dynamicCastClassMetatype_sound.
Qed.

Section Metatype_casts.
Variable foreign : Metadata -> Metadata -> bool.

Lemma swift_dynamicCastMetatype_class (derived base : ClassMetadata) :
  swift_dynamicCastMetatype foreign (MClass derived) (MClass base) =
  match _dynamicCastClassMetatype derived base with
  | Some _ => Some (MClass derived)
  | None => None
  end.
Proof. reflexivity. Qed.

Lemma swift_dynamicCastMetatype_other (source target : Metadata) :
  isAnyKindOfClass (getKind target) = false ->
  swift_dynamicCastMetatype foreign source target =
  if Metadata_eqb source target then Some source else None.
Proof.
  intros H. destruct target; try discriminate H; simpl;
    match goal with |- context [negb ?b] => destruct b end; reflexivity.
Qed.


End Metatype_casts.

(** ** Function casts *)

Lemma list_eqb_refl {A} (eqb : A -> A -> bool) (xs : list A) :
  (forall x, eqb x x = true) -> list_eqb eqb xs xs = true.
Proof. intros H; induction xs; simpl; rewrite ?H; auto. Qed.

Lemma Argument_list_eqb_eq (xs ys : list Argument) :
  list_eqb Argument_eqb xs ys = true <-> xs = ys.
Proof.
  apply list_eqb_eq. apply Forall_forall. intros x _ y. apply Argument_eqb_eq.
Qed.

Lemma arguments_differ_spec (srcArgs targetArgs : list Argument) :
  length srcArgs = length targetArgs ->
  arguments_differ (length srcArgs) srcArgs targetArgs =
  ret (negb (list_eqb Argument_eqb srcArgs targetArgs)).
Proof.
  revert targetArgs; induction srcArgs as [| s srcArgs IH];
    intros [| t targetArgs] H; try discriminate H; simpl; auto.
  destruct (Argument_eqb s t); simpl; auto.
Qed.

Lemma convention_eqb_refl c : FunctionMetadataConvention.eqb c c = true.
Proof. destruct c; reflexivity. Qed.

Section Function_casts.
Variable conforms : Metadata -> ProtocolDescriptor -> option WitnessTable.
Variable foreign : Metadata -> Metadata -> bool.

Lemma swift_dynamicCast_function a v sf sa sr tf ta tr flags :
  swift_dynamicCast conforms foreign {| address := a; pointee := v |}
    (MFunction sf sa sr) (MFunction tf ta tr) flags =
  _dynamicCastToFunction (cast conforms foreign (MFunction tf ta tr))
    a v (MFunction sf sa sr) tf ta tr flags.
Proof.
  change (swift_dynamicCast conforms foreign _ ?s ?t ?f)
    with (cast conforms foreign t a v s f).
  rewrite cast_not_optional by discriminate. reflexivity.
Qed.

(** C5.  Casts between function types.  An exact descriptor match
    succeeds.  Otherwise the cast succeeds exactly when the argument
    counts, every argument (type and inout flag), the result type and the
    calling convention are equal and the source does not throw unless the
    target does; in every other case it takes the failure path.  In
    particular a difference in the arguments fails, whatever the throwing
    flags are. *)
Theorem function_cast_rule a v sf sa sr tf ta tr flags :
  function_type_ok sf sa ->
  function_type_ok tf ta ->
  (MFunction sf sa sr = MFunction tf ta tr ->
   swift_dynamicCast conforms foreign {| address := a; pointee := v |}
     (MFunction sf sa sr) (MFunction tf ta tr) flags =
   _succeed {| address := a; pointee := v |} (MFunction sf sa sr) flags) /\
  swift_dynamicCast conforms foreign {| address := a; pointee := v |}
    (MFunction sf sa sr) (MFunction tf ta tr) flags =
  (if function_types_compatible sf sa sr tf ta tr
   then _succeed {| address := a; pointee := v |} (MFunction sf sa sr) flags
   else _fail {| address := a; pointee := v |} (MFunction sf sa sr)
              (MFunction tf ta tr) flags None) /\
  (sa <> ta ->
   swift_dynamicCast conforms foreign {| address := a; pointee := v |}
     (MFunction sf sa sr) (MFunction tf ta tr) flags =
   _fail {| address := a; pointee := v |} (MFunction sf sa sr)
         (MFunction tf ta tr) flags None).
Proof.
  intros Hs Ht. unfold function_type_ok in Hs, Ht.
  assert (General :
    swift_dynamicCast conforms foreign {| address := a; pointee := v |}
      (MFunction sf sa sr) (MFunction tf ta tr) flags =
    (if function_types_compatible sf sa sr tf ta tr
     then _succeed {| address := a; pointee := v |} (MFunction sf sa sr) flags
     else _fail {| address := a; pointee := v |} (MFunction sf sa sr)
                (MFunction tf ta tr) flags None)).
  { rewrite swift_dynamicCast_function. unfold _dynamicCastToFunction.
    unfold function_types_compatible.
    destruct (Metadata_eqb (MFunction sf sa sr) (MFunction tf ta tr)) eqn:E.
    - apply Metadata_eqb_eq in E. inversion E; subst.
      rewrite Nat.eqb_refl, Metadata_eqb_refl, convention_eqb_refl.
      rewrite (list_eqb_refl Argument_eqb ta)
        by (intros x; apply Argument_eqb_eq; reflexivity).
      destruct (throws tf); reflexivity.
    - unfold FunctionTypeFlags_eqb, withThrows; simpl.
      rewrite <- Hs, <- Ht.
      destruct (Nat.eqb (length sa) (length ta)) eqn:En; simpl;
        [| reflexivity].
      apply Nat.eqb_eq in En.
      destruct (FunctionMetadataConvention.eqb _ _) eqn:Ec; simpl;
        [| rewrite !andb_false_r; reflexivity].
      destruct (throws sf) eqn:Ets, (throws tf) eqn:Ett; simpl;
        rewrite ?andb_false_r, ?andb_true_r; try reflexivity;
        (destruct (Metadata_eqb sr tr) eqn:Er; simpl;
         [| rewrite ?andb_false_r; reflexivity]);
        rewrite arguments_differ_spec by assumption;
        rewrite bind_ret_l;
        destruct (list_eqb Argument_eqb sa ta); reflexivity. }
  split; [| split].
  - intros E. rewrite General.
    inversion E; subst. unfold function_types_compatible.
    rewrite Nat.eqb_refl, Metadata_eqb_refl, convention_eqb_refl.
    rewrite (list_eqb_refl Argument_eqb ta)
      by (intros x; apply Argument_eqb_eq; reflexivity).
    destruct (throws tf); reflexivity.
  - exact General.
  - intros Hne. rewrite General. unfold function_types_compatible.
    destruct (list_eqb Argument_eqb sa ta) eqn:E.
    + apply Argument_list_eqb_eq in E. contradiction.
    + rewrite andb_false_r. reflexivity.
Qed.

End Function_casts.

(** ** Induction over the engine *)

(** To prove a property of every call of [swift_dynamicCast] it is enough
    to prove it of a call assuming it of the calls into the payload type of
    an Optional target and of the calls on smaller source values. *)
Lemma engine_induction
  (P : Metadata -> Addr -> Value -> Metadata -> DynamicCastFlags -> Prop) :
  (forall T a v s f,
     (forall T' a' v' s' f', T = MOptional T' -> P T' a' v' s' f') ->
     (forall a' v' s' f', size_value v' < size_value v -> P T a' v' s' f') ->
     P T a v s f) ->
  forall T a v s f, P T a v s f.
Proof.
  intros step T.
  induction T using Metadata_nested_ind; intros a v; revert a;
    induction v as [v IHv] using (induction_ltof1 _ size_value);
    intros a s0 f0; apply step;
    try (intros T' a' v' s' f' E; discriminate E);
    try (intros a' v' s' f' Hlt; apply IHv; exact Hlt).
  intros T' a' v' s' f' E. inversion E; subst. apply IHT.
Qed.

(** ** Unconditional casts never return false *)

Lemma only_true_bind {A} (m : Effect A) (k : A -> Effect bool) :
  (forall t a, m = (t, Returns a) -> only_true (k a)) -> only_true (bind m k).
Proof.
  intros H t b E. apply bind_inv in E as (t1 & a & t2 & E1 & E2 & _).
  eapply H; eauto.
Qed.

Lemma only_true_ret_true : only_true (ret true).
Proof. intros t b E. inversion E. reflexivity. Qed.

Lemma only_true_abort c : only_true (abort c).
Proof. intros t b E. discriminate E. Qed.

Lemma only_true_aborts t c : only_true (t, Aborts c).
Proof. intros t' b E. discriminate E. Qed.

Lemma only_true_returns_true t : only_true (t, Returns true).
Proof. intros t' b E. inversion E. reflexivity. Qed.

Lemma only_true_pass (m : Effect bool) (after : bool -> Effect unit) :
  only_true m -> only_true (result <- m ;; after result ;; ret result).
Proof.
  intros H t b E.
  apply bind_inv in E as (t1 & a & t2 & E1 & E2 & _).
  apply bind_inv in E2 as (t3 & [] & t4 & _ & E4 & _).
  inversion E4; subst. eauto.
Qed.

Lemma only_true__fail src srcType targetType flags dyn :
  flags &? Flags.Unconditional = true ->
  only_true (_fail src srcType targetType flags dyn).
Proof. intros H. unfold _fail. rewrite H. apply only_true_aborts. Qed.

Lemma only_true_bind__fail src srcType targetType flags dyn
  (k : bool -> Effect bool) :
  flags &? Flags.Unconditional = true ->
  only_true (bind (_fail src srcType targetType flags dyn) k).
Proof. intros H. unfold _fail. rewrite H. apply only_true_aborts. Qed.

Lemma only_true__succeed src srcType flags :
  only_true (_succeed src srcType flags).
Proof.
  unfold _succeed. destruct (flags &? Flags.TakeOnSuccess);
    apply only_true_returns_true.
Qed.

Lemma only_true_when_failure flags s t (k : unit -> Effect bool) :
  flags &? Flags.Unconditional = true ->
  only_true (bind (when (flags &? Flags.Unconditional)
                        (swift_dynamicCastFailure s t)) k).
Proof. intros H. rewrite H. apply only_true_aborts. Qed.

Lemma only_true__failCorruptType type : only_true (_failCorruptType type).
Proof. apply only_true_aborts. Qed.

Lemma copyOnlyFlags_keeps_Unconditional flags :
  flags &? Flags.Unconditional = true ->
  copyOnlyFlags flags &? Flags.Unconditional = true.
Proof. intros H. rewrite copyOnlyFlags_Unconditional. exact H. Qed.

Create HintDb only_true.
#[local] Hint Resolve only_true_ret_true only_true_abort only_true_aborts
  only_true_returns_true only_true__fail only_true__succeed
  only_true__failCorruptType copyOnlyFlags_keeps_Unconditional : only_true.

(** One step through a monadic body: binds, then the case analysis. *)
Ltac only_true_step :=
  cbv beta iota zeta;
  match goal with
  | |- only_true (bind (when (_ &? Flags.Unconditional) _) _) =>
      apply only_true_when_failure; solve [auto with only_true]
  | |- only_true (bind (_fail _ _ _ _ _) _) =>
      apply only_true_bind__fail; solve [auto with only_true]
  | |- only_true (bind _ (fun r => bind _ (fun _ => ret r))) =>
      apply only_true_pass
  | |- only_true (bind _ _) => apply only_true_bind; intros ? ? ?
  | |- only_true (match ?x with _ => _ end) => destruct x eqn:?
  | |- only_true (if ?x then _ else _) => destruct x eqn:?
  | |- only_true (let '(_, _) := ?x in _) => destruct x eqn:?
  end.

Ltac only_true_auto := repeat only_true_step; auto with only_true.

Ltac smaller := unfold ltof; simpl; lia.

Section Unconditional.
Variable conforms : Metadata -> ProtocolDescriptor -> option WitnessTable.
Variable foreign : Metadata -> Metadata -> bool.

Lemma only_true__dynamicCastToExistential src srcType e flags :
  flags &? Flags.Unconditional = true ->
  only_true (_dynamicCastToExistential conforms src srcType e flags).
Proof.
  intros H. unfold _dynamicCastToExistential. only_true_auto.
Qed.

Lemma only_true__dynamicCastUnknownClassIndirect object targetType flags :
  flags &? Flags.Unconditional = true ->
  only_true (_dynamicCastUnknownClassIndirect object targetType flags).
Proof.
  intros H. unfold _dynamicCastUnknownClassIndirect. rewrite H.
  only_true_auto.
Qed.

Lemma only_true__dynamicCastMetatypeToMetatype metatype instanceType flags :
  flags &? Flags.Unconditional = true ->
  only_true (_dynamicCastMetatypeToMetatype foreign metatype instanceType
               flags).
Proof.
  intros H. unfold _dynamicCastMetatypeToMetatype. rewrite H.
  only_true_auto.
Qed.

Lemma only_true__dynamicCastUnknownClassToMetatype object instanceType flags :
  flags &? Flags.Unconditional = true ->
  only_true (_dynamicCastUnknownClassToMetatype foreign object instanceType
               flags).
Proof.
  intros H.
  unfold _dynamicCastUnknownClassToMetatype, _getUnknownClassAsMetatype.
  rewrite H. apply only_true_aborts.
Qed.

Hint Resolve only_true__dynamicCastToExistential
  only_true__dynamicCastUnknownClassIndirect
  only_true__dynamicCastMetatypeToMetatype
  only_true__dynamicCastUnknownClassToMetatype : only_true.

Lemma only_true__dynamicCastToMetatype v :
  forall a srcType instanceType flags,
  flags &? Flags.Unconditional = true ->
  only_true (_dynamicCastToMetatype_ foreign a v srcType instanceType flags).
Proof.
  induction v as [v IH] using (induction_ltof1 _ size_value); intros.
  rewrite _dynamicCastToMetatype__eq. only_true_auto;
    apply IH; auto with only_true; smaller.
Qed.

Lemma only_true_conformsToAll srcMetatype targetType flags protocols :
  forall conformance,
  flags &? Flags.Unconditional = true ->
  only_true (conformsToAll conforms srcMetatype targetType flags protocols
               conformance).
Proof.
  induction protocols as [| p ps IH]; intros conformance H;
    cbn [conformsToAll].
  - auto with only_true.
  - only_true_auto.
Qed.

Lemma only_true__dynamicCastMetatypeToExistentialMetatype instanceType :
  forall srcMetatype flags writeDestMetatype,
  flags &? Flags.Unconditional = true ->
  only_true (_dynamicCastMetatypeToExistentialMetatype conforms srcMetatype
               instanceType flags writeDestMetatype).
Proof.
  induction instanceType; intros;
    rewrite _dynamicCastMetatypeToExistentialMetatype_eq;
    cbv beta iota zeta; try solve [only_true_auto].
  apply only_true_bind. intros t [|] E; only_true_auto.
  apply only_true_conformsToAll in E; auto. discriminate E.
Qed.

Lemma only_true__dynamicCastUnknownClassToExistentialMetatype object
  instanceType flags :
  flags &? Flags.Unconditional = true ->
  only_true (_dynamicCastUnknownClassToExistentialMetatype conforms object
               instanceType flags).
Proof.
  intros H.
  unfold _dynamicCastUnknownClassToExistentialMetatype,
    _getUnknownClassAsMetatype.
  rewrite H. apply only_true_aborts.
Qed.

Hint Resolve only_true__dynamicCastMetatypeToExistentialMetatype
  only_true__dynamicCastUnknownClassToExistentialMetatype : only_true.

Lemma only_true__dynamicCastToExistentialMetatype v :
  forall a srcType instanceType flags,
  flags &? Flags.Unconditional = true ->
  only_true (_dynamicCastToExistentialMetatype_ conforms a v srcType
               instanceType flags).
Proof.
  induction v as [v IH] using (induction_ltof1 _ size_value); intros.
  rewrite _dynamicCastToExistentialMetatype__eq. only_true_auto;
    apply IH; auto with only_true; smaller.
Qed.

Hint Resolve only_true__dynamicCastToMetatype
  only_true__dynamicCastToExistentialMetatype : only_true.

Lemma swapped_keeps_Unconditional flags :
  flags &? Flags.Unconditional = true ->
  flags_minus flags (flags_or Flags.DestroyOnFailure Flags.TakeOnSuccess)
    &? Flags.Unconditional = true.
Proof. apply copyOnlyFlags_keeps_Unconditional. Qed.

Lemma plain_keeps_Unconditional flags :
  flags &? Flags.Unconditional = true ->
  flags_minus flags (flags_or Flags.TakeOnSuccess Flags.DestroyOnFailure)
    &? Flags.Unconditional = true.
Proof. apply copyOnlyFlags_keeps_Unconditional. Qed.

Hint Resolve swapped_keeps_Unconditional plain_keeps_Unconditional
  : only_true.

Lemma only_true__dynamicCastFromExistential cast_payload a v e T flags :
  payload_casts_only_true cast_payload v ->
  flags &? Flags.Unconditional = true ->
  only_true (_dynamicCastFromExistential cast_payload a v e T flags).
Proof.
  intros Hcp H. unfold _dynamicCastFromExistential.
  only_true_auto; cbn [negb]; cbv iota; apply Hcp;
    auto with only_true; smaller.
Qed.

Lemma only_true__dynamicCastToUnknownClassFromExistential cast_payload a v e
  T flags :
  payload_casts_only_true cast_payload v ->
  flags &? Flags.Unconditional = true ->
  only_true (_dynamicCastToUnknownClassFromExistential cast_payload a v e T
               flags).
Proof.
  intros Hcp H. unfold _dynamicCastToUnknownClassFromExistential.
  only_true_auto; apply Hcp; auto with only_true; smaller.
Qed.

Lemma only_true__dynamicCastToFunction cast_payload a v s tf ta tr flags :
  payload_casts_only_true cast_payload v ->
  flags &? Flags.Unconditional = true ->
  only_true (_dynamicCastToFunction cast_payload a v s tf ta tr flags).
Proof.
  intros Hcp H. unfold _dynamicCastToFunction.
  only_true_auto; apply only_true__dynamicCastFromExistential; assumption.
Qed.

Hint Resolve only_true__dynamicCastFromExistential
  only_true__dynamicCastToUnknownClassFromExistential
  only_true__dynamicCastToFunction : only_true.

Lemma only_true_dispatch cast_payload cast_into T a v s flags :
  payload_casts_only_true cast_payload v ->
  (forall T' a' v' s' f',
     T = MOptional T' -> f' &? Flags.Unconditional = true ->
     only_true (cast_into T' a' v' s' f')) ->
  flags &? Flags.Unconditional = true ->
  only_true (swift_dynamicCast_dispatch conforms foreign cast_payload
               cast_into T a v s flags).
Proof.
  intros Hcp Hci H. unfold swift_dynamicCast_dispatch.
  destruct T; cbv beta iota zeta;
    try solve [only_true_auto];
    try solve [unfold _dynamicCastToMetatype; auto with only_true];
    try solve [unfold _dynamicCastToExistentialMetatype;
               auto with only_true].
  (* Optional target *)
  destruct s; auto with only_true;
    (apply only_true_bind; intros t [|] E; only_true_auto;
     apply Hci in E; auto; discriminate E).
Qed.

Lemma only_true_checkDynamicCastFromOptional a v s T flags dispatch :
  (forall x ty, size_value x <= size_value v -> only_true (dispatch x ty)) ->
  flags &? Flags.Unconditional = true ->
  only_true (checkDynamicCastFromOptional conforms a v s T flags dispatch).
Proof.
  intros Hd H. unfold checkDynamicCastFromOptional.
  destruct s; auto.
  apply only_true_bind. intros t [|] _; auto with only_true.
  destruct v; auto with only_true.
  - destruct T; only_true_auto.
  - apply Hd. simpl. lia.
Qed.


End Unconditional.

(** ** Postconditions of the monad *)

Lemma post_bind {A B} (m : Effect A) (k : A -> Effect B)
  (R1 : list Event -> A -> Prop) (R : list Event -> B -> Prop) :
  post m R1 ->
  (forall t1 a, R1 t1 a -> post (k a) (fun t2 b => R (t1 ++ t2) b)) ->
  post (bind m k) R.
Proof.
  intros Hm Hk t b E. apply bind_inv in E as (t1 & a & t2 & E1 & E2 & ->).
  eapply Hk; eauto.
Qed.

Lemma post_ret {A} (a : A) (R : list Event -> A -> Prop) :
  R [] a -> post (ret a) R.
Proof. intros H t b E. inversion E; subst. exact H. Qed.

Lemma post_emit (e : Event) (R : list Event -> unit -> Prop) :
  R [e] tt -> post (emit e) R.
Proof. intros H t [] E. inversion E; subst. exact H. Qed.

Lemma post_abort {A} (c : Crash) (R : list Event -> A -> Prop) :
  post (abort c) R.
Proof. intros t a E. discriminate E. Qed.

Lemma post_aborts {A} t (c : Crash) (R : list Event -> A -> Prop) :
  post (t, Aborts c) R.
Proof. intros t' a E. discriminate E. Qed.

Lemma post_weaken {A} (m : Effect A) (R R' : list Event -> A -> Prop) :
  post m R -> (forall t a, R t a -> R' t a) -> post m R'.
Proof. intros H W t a E. auto. Qed.

Lemma post_exact {A} (m : Effect A) : post m (fun t a => m = (t, Returns a)).
Proof. intros t a E. exact E. Qed.

(** Exact behaviour of the leaves. *)

Lemma post__fail src srcType targetType flags dyn :
  post (_fail src srcType targetType flags dyn)
       (fun t b =>
          b = false /\ flags &? Flags.Unconditional = false /\
          t = if flags &? Flags.DestroyOnFailure
              then [vw_destroy srcType src] else []).
Proof.
  unfold _fail. intros t b.
  destruct (flags &? Flags.Unconditional); [discriminate |].
  destruct (flags &? Flags.DestroyOnFailure); intros E; inversion E; auto.
Qed.

Lemma post__succeed src srcType flags :
  post (_succeed src srcType flags)
       (fun t b =>
          b = true /\
          t = if flags &? Flags.TakeOnSuccess
              then [vw_initializeWithTake srcType src]
              else [vw_initializeWithCopy srcType src]).
Proof.
  unfold _succeed. intros t b.
  destruct (flags &? Flags.TakeOnSuccess); intros E; inversion E; auto.
Qed.

Lemma post_when_emit (b : bool) (e : Event) :
  post (when b (emit e)) (fun t _ => t = if b then [e] else []).
Proof. destruct b; intros t a E; inversion E; reflexivity. Qed.

Lemma post_load_object v : post (load_object v) (fun t _ => t = []).
Proof.
  intros t a E. destruct v; try discriminate E; try (inversion E; auto).
  destruct v; try discriminate E. inversion E; auto.
Qed.

Lemma post_load_metadata v : post (load_metadata v) (fun t _ => t = []).
Proof. intros t a E. destruct v; try discriminate E; inversion E; auto. Qed.

Lemma post_load_container_Type v :
  post (load_container_Type v) (fun t _ => t = []).
Proof. intros t a E. destruct v; try discriminate E; inversion E; auto. Qed.

Lemma post_emit_exact (e : Event) : post (emit e) (fun t _ => t = [e]).
Proof. intros t a E. inversion E; reflexivity. Qed.

Lemma post_ret_exact {A} (a : A) : post (ret a) (fun t x => t = [] /\ x = a).
Proof. intros t x E. inversion E; auto. Qed.

Create HintDb post_db.
#[export] Hint Resolve post__fail post__succeed post_when_emit post_load_object
  post_load_metadata post_load_container_Type post_emit_exact post_ret_exact
  : post_db.

Lemma silent_swift_dynamicCastClassUnconditional object targetType :
  post (swift_dynamicCastClassUnconditional object targetType)
       (fun t _ => t = []).
Proof.
  unfold swift_dynamicCastClassUnconditional. intros t a E.
  destruct (swift_dynamicCastClass object targetType);
    [inversion E; reflexivity | discriminate E].
Qed.

Lemma silent_swift_dynamicCastUnknownClass object targetType :
  post (swift_dynamicCastUnknownClass object targetType) (fun t _ => t = []).
Proof.
  intros t a E. destruct targetType; try discriminate E;
    inversion E; reflexivity.
Qed.

Lemma silent_swift_dynamicCastUnknownClassUnconditional object targetType :
  post (swift_dynamicCastUnknownClassUnconditional object targetType)
       (fun t _ => t = []).
Proof.
  intros t a E. destruct targetType; try discriminate E;
    try (eapply silent_swift_dynamicCastClassUnconditional; exact E).
  simpl in E. destruct (_dynamicCastUnknownClassToExistential object e);
    [inversion E; reflexivity | discriminate E].
Qed.

Lemma silent_swift_dynamicCastMetatypeUnconditional foreign source target :
  post (swift_dynamicCastMetatypeUnconditional foreign source target)
       (fun t _ => t = []).
Proof.
  intros t a E. unfold swift_dynamicCastMetatypeUnconditional,
    swift_dynamicCastForeignClassMetatypeUnconditional in E.
  destruct target; destruct source; simpl in E;
    repeat match type of E with
           | context [match ?x with _ => _ end] => destruct x
           | context [if ?x then _ else _] => destruct x
           end;
    try discriminate E; inversion E; reflexivity.
Qed.

#[export] Hint Resolve silent_swift_dynamicCastClassUnconditional
  silent_swift_dynamicCastUnknownClass
  silent_swift_dynamicCastUnknownClassUnconditional
  silent_swift_dynamicCastMetatypeUnconditional : post_db.

#[export] Hint Extern 1 (size_value _ < size_value _) => simpl; lia : post_db.
#[export] Hint Extern 1 (size_value _ <= size_value _) => simpl; lia : post_db.
#[export] Hint Extern 1 (ltof _ size_value _ _) => unfold ltof; simpl; lia
  : post_db.

(** One step through a monadic body, the postcondition of each bound
    computation coming from the hint database [post_db]. *)
Ltac post_step :=
  cbv beta iota zeta; cbn [negb andb orb];
  match goal with
  | |- post (bind (if ?x then _ else _) _) _ => destruct x eqn:?
  | |- post (bind (match ?x with _ => _ end) _) _ => destruct x eqn:?
  | |- post (bind (when ?x _) _) _ => destruct x eqn:?; unfold when
  | |- post (bind _ _) _ =>
      eapply post_bind;
      [ solve [eauto with post_db] | cbv beta; intros ? ? ? ]
  | |- post (match ?x with _ => _ end) _ => destruct x eqn:?
  | |- post (if ?x then _ else _) _ => destruct x eqn:?
  | |- post (let '(_, _) := ?x in _) _ => destruct x eqn:?
  | |- post (ret _) _ => apply post_ret
  | |- post (emit _) _ => apply post_emit
  | |- post (abort _) _ => apply post_abort
  | |- post (_failCorruptType _) _ => apply post_abort
  | |- post (swift_dynamicCastFailure _ _) _ => apply post_abort
  | |- post (when ?b _) _ => destruct b eqn:?; unfold when
  | |- post _ _ =>
      eapply post_weaken;
      [ solve [eauto with post_db] | cbv beta; intros ? ? ? ]
  end.

Ltac post_steps := repeat post_step.

(** ** What a failing cast leaves in the destination *)

Lemma no_value_stored_app t1 t2 :
  no_value_stored (t1 ++ t2) = no_value_stored t1 && no_value_stored t2.
Proof. apply forallb_app. Qed.

(** Closes the goals left by [post_steps]: the trace is a concatenation of
    pieces that are known exactly or known to store no value. *)
Ltac tidy_hyps :=
  intros;
  repeat (repeat match goal with
                 | H : _ /\ _ |- _ => destruct H
                 | H : ?x = ?x -> _ |- _ => specialize (H eq_refl)
                 end;
          progress subst).

Ltac nvs_finish :=
  tidy_hyps; try discriminate;
  repeat match goal with
         | H : ?x = ?x -> _ |- _ => specialize (H eq_refl)
         end;
  repeat rewrite no_value_stored_app;
  repeat match goal with
         | H : no_value_stored ?t = true |- _ => rewrite H
         | |- context [if ?b then _ else _] => destruct b
         end;
  try reflexivity; try discriminate; auto.

Ltac nvs := post_steps; nvs_finish.

Section Failure_stores.
Variable conforms : Metadata -> ProtocolDescriptor -> option WitnessTable.
Variable foreign : Metadata -> Metadata -> bool.

Lemma nvs_store_conformance c w :
  post (store_conformance c w) (fun t _ => no_value_stored t = true).
Proof. destruct c; intros t a E; inversion E; reflexivity. Qed.
Hint Resolve nvs_store_conformance : post_db.

Lemma nvs__conformsToProtocol value type protocol conformance :
  post (_conformsToProtocol conforms value type protocol conformance)
       (fun t _ => no_value_stored t = true).
Proof. unfold _conformsToProtocol. nvs. Qed.
Hint Resolve nvs__conformsToProtocol : post_db.

Lemma nvs__conformsToProtocols value type protocols :
  forall conformances,
  post (_conformsToProtocols conforms value type protocols conformances)
       (fun t _ => no_value_stored t = true).
Proof.
  induction protocols; intros; cbn [_conformsToProtocols]; nvs.
Qed.
Hint Resolve nvs__conformsToProtocols : post_db.

Lemma silent_findDynamicValueAndType_ value :
  forall a type canTake,
  post (findDynamicValueAndType_ a value type canTake) (fun t _ => t = []).
Proof.
  induction value; intros; rewrite findDynamicValueAndType__eq;
    nvs.
Qed.

Lemma silent_findDynamicValueAndType value type canTake :
  post (findDynamicValueAndType value type canTake) (fun t _ => t = []).
Proof. apply silent_findDynamicValueAndType_. Qed.
Hint Resolve silent_findDynamicValueAndType : post_db.

Lemma nvs_deallocateDynamicValue_ value :
  forall a type,
  post (deallocateDynamicValue_ a value type)
       (fun t _ => no_value_stored t = true).
Proof.
  induction value; intros; rewrite deallocateDynamicValue__eq; nvs.
Qed.

Lemma nvs_deallocateDynamicValue value type :
  post (deallocateDynamicValue value type)
       (fun t _ => no_value_stored t = true).
Proof. apply nvs_deallocateDynamicValue_. Qed.
Hint Resolve nvs_deallocateDynamicValue : post_db.

Lemma nvs__maybeDeallocateOpaqueExistential src result flags :
  post (_maybeDeallocateOpaqueExistential src result flags)
       (fun t _ => no_value_stored t = true).
Proof. unfold _maybeDeallocateOpaqueExistential. nvs. Qed.
Hint Resolve nvs__maybeDeallocateOpaqueExistential : post_db.

Lemma nvs__dynamicCastToExistential src srcType e flags :
  post (_dynamicCastToExistential conforms src srcType e flags)
       (fun t b => b = false -> no_value_stored t = true).
Proof. unfold _dynamicCastToExistential. nvs. Qed.
Hint Resolve nvs__dynamicCastToExistential : post_db.

Lemma nvs__dynamicCastUnknownClassIndirect object targetType flags :
  post (_dynamicCastUnknownClassIndirect object targetType flags)
       (fun t b => b = false -> no_value_stored t = true).
Proof. unfold _dynamicCastUnknownClassIndirect. nvs. Qed.

Lemma nvs__dynamicCastMetatypeToMetatype metatype instanceType flags :
  post (_dynamicCastMetatypeToMetatype foreign metatype instanceType flags)
       (fun t b => b = false -> no_value_stored t = true).
Proof. unfold _dynamicCastMetatypeToMetatype. nvs. Qed.

Lemma nvs__dynamicCastUnknownClassToMetatype object instanceType flags :
  post (_dynamicCastUnknownClassToMetatype foreign object instanceType flags)
       (fun t b => b = false -> no_value_stored t = true).
Proof.
  unfold _dynamicCastUnknownClassToMetatype, _getUnknownClassAsMetatype.
  nvs.
Qed.

Hint Resolve nvs__dynamicCastUnknownClassIndirect
  nvs__dynamicCastMetatypeToMetatype
  nvs__dynamicCastUnknownClassToMetatype : post_db.

Lemma nvs__dynamicCastToMetatype v :
  forall a srcType instanceType flags,
  post (_dynamicCastToMetatype_ foreign a v srcType instanceType flags)
       (fun t b => b = false -> no_value_stored t = true).
Proof.
  induction v as [v IH] using (induction_ltof1 _ size_value); intros.
  rewrite _dynamicCastToMetatype__eq. nvs.
Qed.

Lemma nvs_conformsToAll srcMetatype targetType flags protocols :
  forall conformance,
  post (conformsToAll conforms srcMetatype targetType flags protocols
          conformance)
       (fun t _ => no_value_stored t = true).
Proof.
  induction protocols; intros; cbn [conformsToAll]; nvs.
Qed.
Hint Resolve nvs_conformsToAll : post_db.

Lemma nvs__dynamicCastMetatypeToExistentialMetatype instanceType :
  forall srcMetatype flags writeDestMetatype,
  post (_dynamicCastMetatypeToExistentialMetatype conforms srcMetatype
          instanceType flags writeDestMetatype)
       (fun t _ => no_value_stored t = true).
Proof.
  induction instanceType; intros;
    rewrite _dynamicCastMetatypeToExistentialMetatype_eq; nvs.
Qed.

Lemma nvs__dynamicCastUnknownClassToExistentialMetatype object instanceType
  flags :
  post (_dynamicCastUnknownClassToExistentialMetatype conforms object
          instanceType flags)
       (fun t _ => no_value_stored t = true).
Proof.
  unfold _dynamicCastUnknownClassToExistentialMetatype,
    _getUnknownClassAsMetatype.
  nvs.
Qed.

Hint Resolve nvs__dynamicCastToMetatype
  nvs__dynamicCastMetatypeToExistentialMetatype
  nvs__dynamicCastUnknownClassToExistentialMetatype : post_db.

Lemma nvs__dynamicCastToExistentialMetatype v :
  forall a srcType instanceType flags,
  post (_dynamicCastToExistentialMetatype_ conforms a v srcType instanceType
          flags)
       (fun t b => b = false -> no_value_stored t = true).
Proof.
  induction v as [v IH] using (induction_ltof1 _ size_value); intros.
  rewrite _dynamicCastToExistentialMetatype__eq. nvs.
Qed.
Hint Resolve nvs__dynamicCastToExistentialMetatype : post_db.

Lemma nvs__dynamicCastFromExistential cast_payload a v e T flags :
  payload_casts_post cast_payload v fails_without_value ->
  post (_dynamicCastFromExistential cast_payload a v e T flags)
       fails_without_value.
Proof.
  unfold payload_casts_post, fails_without_value.
  intros Hcp. unfold _dynamicCastFromExistential. nvs.
Qed.

Lemma nvs__dynamicCastToUnknownClassFromExistential cast_payload a v e T
  flags :
  payload_casts_post cast_payload v fails_without_value ->
  post (_dynamicCastToUnknownClassFromExistential cast_payload a v e T flags)
       fails_without_value.
Proof.
  unfold payload_casts_post, fails_without_value.
  intros Hcp. unfold _dynamicCastToUnknownClassFromExistential. nvs.
Qed.

Lemma silent_arguments_differ n :
  forall xs ys, post (arguments_differ n xs ys) (fun t _ => t = []).
Proof. induction n; intros; cbn [arguments_differ]; nvs. Qed.
Hint Resolve silent_arguments_differ : post_db.

Lemma nvs__dynamicCastToFunction cast_payload a v s tf ta tr flags :
  payload_casts_post cast_payload v fails_without_value ->
  post (_dynamicCastToFunction cast_payload a v s tf ta tr flags)
       fails_without_value.
Proof.
  intros Hcp.
  pose proof (fun a e T f => nvs__dynamicCastFromExistential a e T f Hcp)
    as HF.
  unfold fails_without_value in *.
  unfold _dynamicCastToFunction. nvs.
Qed.

Lemma nvs_dispatch cast_payload cast_into T a v s flags :
  payload_casts_post cast_payload v fails_without_value ->
  (forall T' a' v' s' f',
     T = MOptional T' -> post (cast_into T' a' v' s' f') fails_without_value) ->
  post (swift_dynamicCast_dispatch conforms foreign cast_payload cast_into
          T a v s flags)
       fails_without_value.
Proof.
  intros Hcp Hci.
  pose proof (fun a e T f => nvs__dynamicCastFromExistential a e T f Hcp)
    as HF.
  pose proof (fun a e T f =>
                nvs__dynamicCastToUnknownClassFromExistential a e T f Hcp)
    as HC.
  pose proof (fun a s tf ta tr f =>
                nvs__dynamicCastToFunction a s tf ta tr f Hcp) as HFn.
  unfold fails_without_value in *.
  unfold swift_dynamicCast_dispatch, _dynamicCastToMetatype,
    _dynamicCastToExistentialMetatype.
  destruct T; try specialize (Hci _ a v s flags eq_refl); nvs.
Qed.

Lemma nvs_checkDynamicCastFromOptional a v s T flags dispatch :
  (forall x ty,
     size_value x <= size_value v ->
     post (dispatch x ty) fails_without_value) ->
  post (checkDynamicCastFromOptional conforms a v s T flags dispatch)
       fails_without_value.
Proof.
  unfold fails_without_value. intros Hd.
  unfold checkDynamicCastFromOptional. nvs.
Qed.

Lemma failing_cast_stores_no_value T a v s flags :
  post (cast conforms foreign T a v s flags) fails_without_value.
Proof.
  revert T a v s flags.
  apply (engine_induction
           (fun T a v s f =>
              post (cast conforms foreign T a v s f) fails_without_value)).
  intros T a v s f IHT IHv. rewrite cast_eq.
  apply nvs_checkDynamicCastFromOptional. intros x ty Hx.
  apply nvs_dispatch; auto.
  intros a' v' s' f' Hlt. apply IHv. lia.
Qed.


End Failure_stores.

(** ** Unwrapping an existential source *)

Section Existential_source.
Variable conforms : Metadata -> ProtocolDescriptor -> option WitnessTable.
Variable foreign : Metadata -> Metadata -> bool.

Lemma trace_bind_silent {A B} (m : Effect A) (k : A -> Effect B) :
  trace m = [] -> (forall a, trace (k a) = []) -> trace (bind m k) = [].
Proof.
  destruct m as [t [a | c]]; simpl; intros -> Hk; auto.
  specialize (Hk a). destruct (k a); simpl in *; auto.
Qed.

Lemma trace_load_object v : trace (load_object v) = [].
Proof. destruct v; try reflexivity. destruct v; reflexivity. Qed.

Lemma trace_load_metadata v : trace (load_metadata v) = [].
Proof. destruct v; reflexivity. Qed.

Lemma findDynamicValueAndType__trace value :
  forall a ty canTake,
  trace (findDynamicValueAndType_ a value ty canTake) = [].
Proof.
  induction value; intros; rewrite findDynamicValueAndType__eq;
    cbv beta iota zeta;
    repeat match goal with
           | |- trace (bind _ _) = [] => apply trace_bind_silent; [| intros]
           | |- trace (load_object _) = [] => apply trace_load_object
           | |- trace (load_metadata _) = [] => apply trace_load_metadata
           | |- trace (match ?x with _ => _ end) = [] => destruct x
           | |- _ => reflexivity
           | IH : forall a ty canTake, trace _ = [] |- _ => apply IH
           end.
Qed.

Lemma findDynamicValueAndType__canTake value :
  forall a ty canTake outValue outType outCanTake t,
  findDynamicValueAndType_ a value ty canTake
    = (t, Returns (outValue, outType, outCanTake)) ->
  outCanTake = canTake && forallb mayTakeValue (containers_traversed value ty).
Proof.
  assert (leaf : forall (canTake out : bool) (x y : OpaqueValue)
                   (m n : Metadata) (t : list Event),
            ret (x, m, canTake) = (t, Returns (y, n, out)) ->
            out = canTake && true).
  { intros canTake out x y m n t E. inversion E; subst.
    symmetry; apply andb_true_r. }
  assert (loaded : forall A (l : Effect A) (canTake out : bool)
                     (f : A -> OpaqueValue * Metadata) (y : OpaqueValue)
                     (n : Metadata) (t : list Event),
            bind l (fun o => ret (f o, canTake)) = (t, Returns (y, n, out)) ->
            out = canTake && true).
  { intros A l canTake out f y n t E.
    apply bind_inv in E as (t1 & o & t2 & _ & E & _).
    inversion E; subst. symmetry; apply andb_true_r. }
  induction value; intros a ty canTake outValue outType outCanTake t;
    rewrite findDynamicValueAndType__eq; cbv beta iota zeta;
    destruct ty as [| | | | | | | | | e | | | | |];
    cbn [containers_traversed forallb];
    try (intros E; eapply leaf; exact E);
    try (intros E;
         eapply (loaded _ _ _ _ (fun o => (_, swift_getObjectType o)));
         exact E);
    try (intros E;
         eapply (loaded _ _ _ _ (fun o => (_, swift_getMetatypeMetadata o)));
         exact E);
    destruct (getRepresentation e) eqn:R; cbn [forallb];
    try discriminate;
    try (intros E;
         eapply (loaded _ _ _ _ (fun o => (_, swift_getObjectType o)));
         exact E);
    intros E; apply IHvalue in E; rewrite E, andb_assoc; reflexivity.
Qed.


End Existential_source.

(** ** Computations that do not end in a cast failure *)

Lemma ncf_bind {A B} (m : Effect A) (k : A -> Effect B) :
  no_cast_failure m ->
  (forall t a, m = (t, Returns a) -> no_cast_failure (k a)) ->
  no_cast_failure (bind m k).
Proof.
  intros Hm Hk t c E. destruct m as [t1 [a | c1]]; simpl in E.
  - destruct (k a) as [t2 r] eqn:Ek. inversion E; subst.
    eapply Hk; eauto.
  - inversion E; subst. eapply Hm; eauto.
Qed.

Lemma ncf_returns {A} t (a : A) : no_cast_failure (t, Returns a).
Proof. intros t' c E. discriminate E. Qed.

Lemma ncf_ret {A} (a : A) : no_cast_failure (ret a).
Proof. apply ncf_returns. Qed.

Lemma ncf_emit e : no_cast_failure (emit e).
Proof. apply ncf_returns. Qed.

Lemma ncf_invalidValue {A} : no_cast_failure (@abort A invalidValue).
Proof. intros t c E. inversion E; reflexivity. Qed.

Lemma ncf__failCorruptType {A} type :
  no_cast_failure (@_failCorruptType A type).
Proof. intros t c E. inversion E; reflexivity. Qed.

Lemma ncf__fail src srcType targetType flags dyn :
  flags &? Flags.Unconditional = false ->
  no_cast_failure (_fail src srcType targetType flags dyn).
Proof.
  intros H. unfold _fail. rewrite H.
  destruct (flags &? Flags.DestroyOnFailure); apply ncf_returns.
Qed.

Lemma ncf_load_object v : no_cast_failure (load_object v).
Proof.
  destruct v; try apply ncf_ret; try apply ncf_invalidValue.
  destruct v; try apply ncf_ret; apply ncf_invalidValue.
Qed.

Lemma ncf_load_metadata v : no_cast_failure (load_metadata v).
Proof. destruct v; try apply ncf_ret; apply ncf_invalidValue. Qed.

Create HintDb ncf.
#[export] Hint Resolve ncf_returns ncf_ret ncf_emit ncf_invalidValue
  ncf__failCorruptType ncf__fail ncf_load_object ncf_load_metadata : ncf.

Ltac ncf_step :=
  cbv beta iota zeta;
  match goal with
  | |- no_cast_failure (bind _ _) => apply ncf_bind; [| intros ? ? ?]
  | |- no_cast_failure (match ?x with _ => _ end) => destruct x eqn:?
  | |- no_cast_failure (if ?x then _ else _) => destruct x eqn:?
  | |- no_cast_failure (let '(_, _) := ?x in _) => destruct x eqn:?
  | |- no_cast_failure (when ?x _) => destruct x eqn:?; unfold when
  end.

Ltac ncf_auto := repeat ncf_step; auto with ncf.

Section Optional_source.
Variable conforms : Metadata -> ProtocolDescriptor -> option WitnessTable.
Variable foreign : Metadata -> Metadata -> bool.

Lemma ncf_findDynamicValueAndType_ value :
  forall a ty canTake,
  no_cast_failure (findDynamicValueAndType_ a value ty canTake).
Proof.
  induction value; intros; rewrite findDynamicValueAndType__eq; ncf_auto.
Qed.

Lemma ncf_findDynamicValueAndType value ty canTake :
  no_cast_failure (findDynamicValueAndType value ty canTake).
Proof. apply ncf_findDynamicValueAndType_. Qed.

Lemma ncf_deallocateDynamicValue_ value :
  forall a ty, no_cast_failure (deallocateDynamicValue_ a value ty).
Proof.
  induction value; intros; rewrite deallocateDynamicValue__eq; ncf_auto.
Qed.

Lemma ncf_deallocateDynamicValue value ty :
  no_cast_failure (deallocateDynamicValue value ty).
Proof. apply ncf_deallocateDynamicValue_. Qed.

Lemma ncf_store_conformance c w : no_cast_failure (store_conformance c w).
Proof. destruct c; apply ncf_returns. Qed.

Hint Resolve ncf_findDynamicValueAndType ncf_deallocateDynamicValue
  ncf_store_conformance : ncf.

Lemma ncf__conformsToProtocol value ty protocol conformance :
  no_cast_failure (_conformsToProtocol conforms value ty protocol conformance).
Proof. unfold _conformsToProtocol. ncf_auto. Qed.
Hint Resolve ncf__conformsToProtocol : ncf.

Lemma ncf__conformsToProtocols value ty protocols :
  forall conformances,
  no_cast_failure (_conformsToProtocols conforms value ty protocols
                     conformances).
Proof.
  induction protocols; intros; cbn [_conformsToProtocols]; ncf_auto.
Qed.
Hint Resolve ncf__conformsToProtocols : ncf.

Lemma ncf__dynamicCastToExistential src srcType e flags :
  flags &? Flags.Unconditional = false ->
  no_cast_failure (_dynamicCastToExistential conforms src srcType e flags).
Proof. intros H. unfold _dynamicCastToExistential. ncf_auto. Qed.

Lemma post_store_conformance c w :
  post (store_conformance c w)
       (fun t _ => forallb is_store_witness t = true).
Proof. destruct c; intros t a E; inversion E; reflexivity. Qed.

Ltac witnesses_finish :=
  tidy_hyps; try discriminate;
  repeat match goal with
         | H : ?x = ?x -> _ |- _ => specialize (H eq_refl)
         end;
  rewrite ?forallb_app;
  repeat match goal with
         | H : forallb is_store_witness ?t = true |- _ => rewrite H
         end;
  try reflexivity.

Lemma witnesses__conformsToProtocol v ty p c :
  post (_conformsToProtocol conforms v ty p c)
       (fun t _ => forallb is_store_witness t = true).
Proof.
  pose proof post_store_conformance as S.
  unfold _conformsToProtocol. post_steps; witnesses_finish.
Qed.

Lemma witnesses__conformsToProtocols v ty ps :
  forall c,
  post (_conformsToProtocols conforms v ty ps c)
       (fun t _ => forallb is_store_witness t = true).
Proof.
  pose proof witnesses__conformsToProtocol as S.
  induction ps; intros; cbn [_conformsToProtocols];
    post_steps; witnesses_finish.
Qed.

(** What a failed attempt leaves behind: witness-table stores only. *)
Lemma failed_attempt_stores_witnesses src srcType e flags :
  flags &? Flags.DestroyOnFailure = false ->
  post (_dynamicCastToExistential conforms src srcType e flags)
       (fun t b => b = false -> forallb is_store_witness t = true).
Proof.
  intros H.
  pose proof witnesses__conformsToProtocols as W.
  pose proof silent_findDynamicValueAndType as F.
  assert (D : forall v ty,
            post (deallocateDynamicValue v ty) (fun _ _ => True))
    by (intros v ty t a _; exact I).
  unfold _dynamicCastToExistential.
  post_steps; witnesses_finish; rewrite H; reflexivity.
Qed.

(** *** An Optional source and an existential target *)

Lemma cast_optional_to_existential a v T e flags :
  swift_dynamicCast conforms foreign {| address := a; pointee := v |}
    (MOptional T) (MExistential e) flags =
  (attempt <- _dynamicCastToExistential conforms
                {| address := a; pointee := v |} (MOptional T) e
                (checkCastFlags flags) ;;
   if (attempt : bool) then ret true
   else after_failed_attempt conforms a v T e flags).
Proof.
  change (swift_dynamicCast conforms foreign _ ?s ?t ?f)
    with (cast conforms foreign t a v s f).
  rewrite cast_eq. unfold checkDynamicCastFromOptional, after_failed_attempt.
  reflexivity.
Qed.

(** C10.  The preliminary whole-Optional attempt runs with [Unconditional]
    and [DestroyOnFailure] removed: it cannot end in a cast failure, and
    when it answers false it has only stored witness tables, so that the
    source is intact; the cast then goes on, from the case tag, with the
    flags of the caller. *)
Theorem optional_attempt_spares_the_source a v T e flags :
  checkCastFlags flags &? Flags.Unconditional = false /\
  checkCastFlags flags &? Flags.DestroyOnFailure = false /\
  no_cast_failure
    (_dynamicCastToExistential conforms {| address := a; pointee := v |}
       (MOptional T) e (checkCastFlags flags)) /\
  (forall t,
     _dynamicCastToExistential conforms {| address := a; pointee := v |}
       (MOptional T) e (checkCastFlags flags)
     = (t, Returns false) ->
     forallb is_store_witness t = true /\
     swift_dynamicCast conforms foreign {| address := a; pointee := v |}
       (MOptional T) (MExistential e) flags =
     ((t, Returns tt) ;; after_failed_attempt conforms a v T e flags)).
Proof.
  split; [apply checkCastFlags_Unconditional |].
  split; [apply checkCastFlags_DestroyOnFailure |].
  split.
  - apply ncf__dynamicCastToExistential. apply checkCastFlags_Unconditional.
  - intros t E. split.
    + exact (@failed_attempt_stores_witnesses _ _ _ _
               (checkCastFlags_DestroyOnFailure flags) t false E eq_refl).
    + rewrite cast_optional_to_existential, E. reflexivity.
Qed.

(** C6.  A cast from an Optional to an existential first tries the
    existential cast on the Optional value itself: the dynamic value is the
    whole Optional, case tag included, and its dynamic type the Optional
    type.  When the attempt succeeds the cast is over, with the effects of
    the attempt alone.  An [Any]-like target (opaque, no protocols) always
    takes the Optional as it is, empty or not.  Only when the attempt
    answers false does the cast go on with the unwrapped payload. *)
Theorem optional_is_cast_to_existential_whole a v T e flags :
  findDynamicValueAndType {| address := a; pointee := v |} (MOptional T) true
    = ret ({| address := a; pointee := v |}, MOptional T, true) /\
  (forall t,
     _dynamicCastToExistential conforms {| address := a; pointee := v |}
       (MOptional T) e (checkCastFlags flags)
     = (t, Returns true) ->
     swift_dynamicCast conforms foreign {| address := a; pointee := v |}
       (MOptional T) (MExistential e) flags = (t, Returns true)) /\
  (getRepresentation e = ExistentialTypeRepresentation.Opaque ->
   Protocols e = [] ->
   swift_dynamicCast conforms foreign {| address := a; pointee := v |}
     (MOptional T) (MExistential e) flags =
   ([store_existential_Type (MOptional T);
     if flags &? Flags.TakeOnSuccess
     then vw_initializeBufferWithTake (MOptional T)
            {| address := a; pointee := v |}
     else vw_initializeBufferWithCopy (MOptional T)
            {| address := a; pointee := v |}],
    Returns true)) /\
  (forall t payload,
     _dynamicCastToExistential conforms {| address := a; pointee := v |}
       (MOptional T) e (checkCastFlags flags)
     = (t, Returns false) ->
     v = VSome payload ->
     swift_dynamicCast conforms foreign {| address := a; pointee := v |}
       (MOptional T) (MExistential e) flags =
     ((t, Returns tt) ;;
      _dynamicCastToExistential conforms
        {| address := a; pointee := payload |} T e flags)).
Proof.
  split; [| split; [| split]].
  - unfold findDynamicValueAndType. rewrite findDynamicValueAndType__eq.
    reflexivity.
  - intros t E. rewrite cast_optional_to_existential, E.
    unfold bind, ret. rewrite app_nil_r. reflexivity.
  - intros R Ps. rewrite cast_optional_to_existential.
    unfold _dynamicCastToExistential, findDynamicValueAndType.
    rewrite findDynamicValueAndType__eq. cbv beta iota zeta.
    rewrite bind_ret_l. cbv beta iota zeta. rewrite R, Ps.
    cbn [_conformsToProtocols]. rewrite bind_ret_l. cbv beta iota zeta.
    unfold shouldDeallocateSource, ptr_eqb. cbn [address negb andb orb].
    rewrite N.eqb_refl. cbn [negb andb].
    rewrite checkCastFlags_TakeOnSuccess.
    destruct (flags &? Flags.TakeOnSuccess); reflexivity.
  - intros t payload E ->. rewrite cast_optional_to_existential, E.
    reflexivity.
Qed.


End Optional_source.

(** ** Ownership of the source: released once, as flagged *)

Lemma released_app t1 t2 : released (t1 ++ t2) = (released t1 + released t2)%Z.
Proof. induction t1; simpl; lia. Qed.

(** Name the flag tests, then decide every boolean. *)
Ltac name_flags :=
  change (flags_minus ?f (flags_or Flags.TakeOnSuccess Flags.DestroyOnFailure))
    with (copyOnlyFlags f) in *;
  change (flags_minus ?f (flags_or Flags.DestroyOnFailure Flags.TakeOnSuccess))
    with (copyOnlyFlags f) in *;
  change (flags_minus ?f (flags_or Flags.Unconditional Flags.DestroyOnFailure))
    with (checkCastFlags f) in *;
  rewrite ?copyOnlyFlags_TakeOnSuccess, ?copyOnlyFlags_DestroyOnFailure,
    ?copyOnlyFlags_Unconditional, ?checkCastFlags_TakeOnSuccess,
    ?checkCastFlags_DestroyOnFailure, ?checkCastFlags_Unconditional in *;
  repeat match goal with
         | |- context [?f &? ?X] =>
             let x := fresh "flag" in set (x := f &? X) in *; clearbody x
         | H : context [?f &? ?X] |- _ =>
             let x := fresh "flag" in set (x := f &? X) in *; clearbody x
         end.

Ltac decide_bools :=
  repeat match goal with
         | b : bool |- _ => destruct b
         end.

Ltac rel_finish :=
  tidy_hyps; try discriminate;
  unfold released_at_most, released_as_flagged, shouldDeallocateSource in *;
  repeat match goal with
         | H : ?x = ?x -> _ |- _ => specialize (H eq_refl)
         end;
  name_flags;
  rewrite ?released_app in *;
  decide_bools;
  cbn [released ownership_given_up andb orb negb] in *;
  repeat match goal with
         | H : ?x = ?x -> _ |- _ => specialize (H eq_refl)
         end;
  try discriminate;
  repeat match goal with
         | H : _ \/ _ |- _ => destruct H
         | H : _ /\ _ |- _ => destruct H
         end;
  try congruence;
  try lia;
  try (left; lia);
  try (right; split; [reflexivity | lia]).

Ltac rel := post_steps; rel_finish.

Section Ownership.
Variable conforms : Metadata -> ProtocolDescriptor -> option WitnessTable.
Variable foreign : Metadata -> Metadata -> bool.

Lemma rel_store_conformance c w :
  post (store_conformance c w) (fun t _ => released t = 0%Z).
Proof. destruct c; intros t a E; inversion E; reflexivity. Qed.
Hint Resolve rel_store_conformance : post_db.

Lemma rel__conformsToProtocol value ty protocol conformance :
  post (_conformsToProtocol conforms value ty protocol conformance)
       (fun t _ => released t = 0%Z).
Proof. unfold _conformsToProtocol. rel. Qed.
Hint Resolve rel__conformsToProtocol : post_db.

Lemma rel__conformsToProtocols value ty protocols :
  forall conformances,
  post (_conformsToProtocols conforms value ty protocols conformances)
       (fun t _ => released t = 0%Z).
Proof. induction protocols; intros; cbn [_conformsToProtocols]; rel. Qed.
Hint Resolve rel__conformsToProtocols : post_db.

Hint Resolve silent_findDynamicValueAndType : post_db.

Lemma rel_deallocateDynamicValue_ value :
  forall a ty,
  post (deallocateDynamicValue_ a value ty) (fun t _ => released t = 0%Z).
Proof.
  induction value; intros; rewrite deallocateDynamicValue__eq; rel.
Qed.

Lemma rel_deallocateDynamicValue value ty :
  post (deallocateDynamicValue value ty) (fun t _ => released t = 0%Z).
Proof. apply rel_deallocateDynamicValue_. Qed.
Hint Resolve rel_deallocateDynamicValue : post_db.

Lemma rel__maybeDeallocateOpaqueExistential src result flags :
  post (_maybeDeallocateOpaqueExistential src result flags)
       (fun t _ => released t = 0%Z).
Proof. unfold _maybeDeallocateOpaqueExistential. rel. Qed.
Hint Resolve rel__maybeDeallocateOpaqueExistential : post_db.

Lemma rel__dynamicCastToExistential src srcType e flags :
  post (_dynamicCastToExistential conforms src srcType e flags)
       (released_as_flagged flags).
Proof. unfold _dynamicCastToExistential. rel. Qed.

Lemma rel__dynamicCastUnknownClassIndirect object targetType flags :
  post (_dynamicCastUnknownClassIndirect object targetType flags)
       (released_as_flagged flags).
Proof. unfold _dynamicCastUnknownClassIndirect. rel. Qed.

(** The metatype rules release nothing. *)
Lemma rel__dynamicCastMetatypeToMetatype metatype instanceType flags :
  post (_dynamicCastMetatypeToMetatype foreign metatype instanceType flags)
       (fun t _ => released t = 0%Z).
Proof. unfold _dynamicCastMetatypeToMetatype. rel. Qed.

Lemma rel__dynamicCastUnknownClassToMetatype object instanceType flags :
  post (_dynamicCastUnknownClassToMetatype foreign object instanceType flags)
       (released_as_flagged flags).
Proof.
  unfold _dynamicCastUnknownClassToMetatype, _getUnknownClassAsMetatype.
  rel.
Qed.

Hint Resolve rel__dynamicCastToExistential
  rel__dynamicCastUnknownClassIndirect rel__dynamicCastMetatypeToMetatype
  rel__dynamicCastUnknownClassToMetatype : post_db.

Lemma rel__dynamicCastToMetatype strict v :
  forall a srcType instanceType flags,
  (strict = true -> holds_metatype v srcType = false) ->
  post (_dynamicCastToMetatype_ foreign a v srcType instanceType flags)
       (released_at_most strict flags).
Proof.
  induction v as [v IH] using (induction_ltof1 _ size_value);
    intros a srcType instanceType flags Hs.
  rewrite _dynamicCastToMetatype__eq.
  destruct srcType; try solve [rel];
    destruct v; cbn [holds_metatype] in Hs; rel.
Qed.

Lemma rel_conformsToAll srcMetatype targetType flags protocols :
  forall conformance,
  post (conformsToAll conforms srcMetatype targetType flags protocols
          conformance)
       (fun t _ => released t = 0%Z).
Proof. induction protocols; intros; cbn [conformsToAll]; rel. Qed.
Hint Resolve rel_conformsToAll : post_db.

Lemma rel__dynamicCastMetatypeToExistentialMetatype instanceType :
  forall srcMetatype flags writeDestMetatype,
  post (_dynamicCastMetatypeToExistentialMetatype conforms srcMetatype
          instanceType flags writeDestMetatype)
       (fun t _ => released t = 0%Z).
Proof.
  induction instanceType; intros;
    rewrite _dynamicCastMetatypeToExistentialMetatype_eq; rel.
Qed.

Lemma rel__dynamicCastUnknownClassToExistentialMetatype object instanceType
  flags :
  post (_dynamicCastUnknownClassToExistentialMetatype conforms object
          instanceType flags)
       (released_as_flagged flags).
Proof.
  unfold _dynamicCastUnknownClassToExistentialMetatype,
    _getUnknownClassAsMetatype.
  rel.
Qed.

Hint Resolve rel__dynamicCastMetatypeToExistentialMetatype
  rel__dynamicCastUnknownClassToExistentialMetatype : post_db.

Lemma rel__dynamicCastToExistentialMetatype strict v :
  forall a srcType instanceType flags,
  (strict = true -> holds_metatype v srcType = false) ->
  post (_dynamicCastToExistentialMetatype_ conforms a v srcType instanceType
          flags)
       (released_at_most strict flags).
Proof.
  induction v as [v IH] using (induction_ltof1 _ size_value);
    intros a srcType instanceType flags Hs.
  rewrite _dynamicCastToExistentialMetatype__eq.
  destruct srcType; try solve [rel];
    destruct v; cbn [holds_metatype] in Hs; rel.
Qed.

(** *** The engine *)

Lemma holds_metatype_class v c : holds_metatype v (MClass c) = false.
Proof. destruct v; reflexivity. Qed.

Lemma metatype_rule_class T v c : metatype_rule T v (MClass c) = false.
Proof.
  unfold metatype_rule. rewrite holds_metatype_class. apply andb_false_r.
Qed.

Lemma rel__dynamicCastFromExistential strict cast_payload a v e T flags :
  payload_casts_release strict T cast_payload v ->
  (strict = true -> metatype_rule T v (MExistential e) = false) ->
  post (_dynamicCastFromExistential cast_payload a v e T flags)
       (released_at_most strict flags).
Proof.
  unfold payload_casts_release. intros Hcp Hs.
  unfold _dynamicCastFromExistential.
  destruct (getRepresentation e) eqn:R; cbv beta iota zeta;
    destruct v as [| | | | | x ws | | |]; try solve [rel].
  assert (Hp := fun c f => Hcp a x (MClass c) f (ltac:(simpl; lia))
                            (fun _ => metatype_rule_class T x c)).
  unfold swift_getObjectType. rel.
Qed.

Lemma rel__dynamicCastToUnknownClassFromExistential strict cast_payload a v e
  T flags :
  payload_casts_release strict T cast_payload v ->
  (strict = true -> metatype_rule T v (MExistential e) = false) ->
  post (_dynamicCastToUnknownClassFromExistential cast_payload a v e T flags)
       (released_at_most strict flags).
Proof.
  unfold payload_casts_release. intros Hcp Hs.
  unfold _dynamicCastToUnknownClassFromExistential. rel.
Qed.

Hint Resolve silent_arguments_differ : post_db.

Lemma rel__dynamicCastToFunction strict cast_payload a v s tf ta tr flags :
  payload_casts_release strict (MFunction tf ta tr) cast_payload v ->
  (strict = true -> metatype_rule (MFunction tf ta tr) v s = false) ->
  post (_dynamicCastToFunction cast_payload a v s tf ta tr flags)
       (released_at_most strict flags).
Proof.
  intros Hcp Hs.
  pose proof (fun e f H =>
                @rel__dynamicCastFromExistential strict cast_payload a v e
                  (MFunction tf ta tr) f Hcp H) as HF.
  unfold _dynamicCastToFunction.
  destruct s; try specialize (HF _ flags Hs); rel.
Qed.

Lemma rel_dispatch strict cast_payload cast_into T a v s flags :
  payload_casts_release strict T cast_payload v ->
  (forall T' a' v' s' f',
     T = MOptional T' ->
     (strict = true -> metatype_rule T' v' s' = false) ->
     post (cast_into T' a' v' s' f') (released_at_most strict f')) ->
  (strict = true -> metatype_rule T v s = false) ->
  post (swift_dynamicCast_dispatch conforms foreign cast_payload cast_into
          T a v s flags)
       (released_at_most strict flags).
Proof.
  intros Hcp Hci Hs.
  pose proof (fun e H =>
                @rel__dynamicCastFromExistential strict cast_payload a v e
                  T flags Hcp H) as HF.
  pose proof (fun e H =>
                @rel__dynamicCastToUnknownClassFromExistential strict
                  cast_payload a v e T flags Hcp H) as HC.
  unfold swift_dynamicCast_dispatch, _dynamicCastToMetatype,
    _dynamicCastToExistentialMetatype.
  destruct T; cbv beta iota zeta.
  all: try (pose proof (@rel__dynamicCastToFunction strict cast_payload a v s
                          _ _ _ flags Hcp Hs) as HFn).
  all: try (pose proof (@rel__dynamicCastToMetatype strict v a s T flags Hs)
              as HM).
  all: try (pose proof (@rel__dynamicCastToExistentialMetatype strict v a s T
                          flags Hs) as HEM).
  all: try (pose proof (Hci _ a v s flags eq_refl Hs) as Hp).
  all: destruct s; try specialize (HF _ Hs); try specialize (HC _ Hs); rel.
Qed.

Lemma rel_checkDynamicCastFromOptional strict a v s T flags dispatch :
  (forall x ty,
     size_value x <= size_value v ->
     (strict = true -> metatype_rule T x ty = false) ->
     post (dispatch x ty) (released_at_most strict flags)) ->
  (strict = true -> metatype_rule T v s = false) ->
  post (checkDynamicCastFromOptional conforms a v s T flags dispatch)
       (released_at_most strict flags).
Proof.
  intros Hd Hs. unfold checkDynamicCastFromOptional.
  destruct s as [| | | | | P | | | | | | | | |];
    try solve [specialize (Hd v _ (le_n _) Hs); rel].
  destruct v; rel.
Qed.

Lemma cast_releases strict T a v s flags :
  (strict = true -> metatype_rule T v s = false) ->
  post (cast conforms foreign T a v s flags) (released_at_most strict flags).
Proof.
  revert T a v s flags.
  apply (engine_induction
           (fun T a v s f =>
              (strict = true -> metatype_rule T v s = false) ->
              post (cast conforms foreign T a v s f)
                   (released_at_most strict f))).
  intros T a v s f IHT IHv Hs. rewrite cast_eq.
  apply rel_checkDynamicCastFromOptional; auto.
  intros x ty Hx Hx'. apply rel_dispatch; auto.
  intros a' v' s' f' Hlt. apply IHv. lia.
Qed.


End Ownership.

(** * Identity casts *)

(** ** The dynamic value of a source *)

Lemma dynamic_idempotent (v : Value) : forall T,
  dynamic_type (dynamic_payload v T) (dynamic_type v T) = dynamic_type v T /\
  dynamic_payload (dynamic_payload v T) (dynamic_type v T)
  = dynamic_payload v T.
Proof.
  induction v; intros T; destruct T; simpl; auto;
    try (destruct v; simpl; auto).
Qed.

Section Identity.
Variable conforms : Metadata -> ProtocolDescriptor -> option WitnessTable.
Variable foreign : Metadata -> Metadata -> bool.

Lemma findDynamicValueAndType__dynamic (v : Value) : forall T a c,
  has_dynamic_value v T ->
  exists a' c',
    findDynamicValueAndType_ a v T c
    = ([], Returns ({| address := a'; pointee := dynamic_payload v T |},
                    dynamic_type v T, c')).
Proof.
  induction v; intros T a c H; rewrite findDynamicValueAndType__eq;
    destruct T; simpl in H |- *; try contradiction;
    try (eexists; eexists; reflexivity).
  - destruct v; try contradiction. rewrite H. simpl.
    eexists; eexists; reflexivity.
  - destruct H as [-> H]. apply IHv, H.
  - destruct H as [-> H]. apply IHv, H.
Qed.

(** ** Conformance *)

Lemma _conformsToProtocol_conforms value ty p c :
  conforms_to conforms ty p = true ->
  exists E r,
    _conformsToProtocol conforms value ty p c = (E, Returns (Some r)) /\
    forallb is_store_witness E = true.
Proof.
  unfold conforms_to, _conformsToProtocol. intros H.
  destruct (SpecialProtocol.eqb _ _).
  - destruct ty; try discriminate H;
      try (exists [], None; split; reflexivity).
    rewrite H. exists [], None; split; reflexivity.
  - apply andb_prop in H. destruct H as [-> H].
    destruct (conforms ty p) as [w |]; [| discriminate H].
    destruct c; simpl; eexists; eexists; split; reflexivity.
Qed.

Lemma _conformsToProtocols_conforms ps : forall value ty c,
  forallb (conforms_to conforms ty) ps = true ->
  exists E ws,
    _conformsToProtocols conforms value ty ps c = (E, Returns (Some ws)) /\
    forallb is_store_witness E = true.
Proof.
  induction ps as [| p ps IH]; intros value ty c H; simpl.
  - exists [], []; split; reflexivity.
  - simpl in H. apply andb_prop in H. destruct H as [Hp Hps].
    destruct (@_conformsToProtocol_conforms value ty p c Hp)
      as (E & r & -> & HE).
    destruct (IH value ty
                (if needsWitnessTable (protocol_Flags p)
                 then next_conformance c else c) Hps)
      as (E' & ws & HE'eq & HE').
    rewrite bind_returns, HE'eq. simpl.
    eexists; eexists; split; [reflexivity |].
    rewrite !forallb_app, HE, HE'. reflexivity.
Qed.

(** The one witness table of an error existential. *)
Lemma _conformsToProtocols_error value ty p :
  SpecialProtocol.eqb (getSpecialProtocol (protocol_Flags p))
                      SpecialProtocol.AnyObject = false ->
  conforms_to conforms ty p = true ->
  exists w,
    _conformsToProtocols conforms value ty [p] local_witness
    = ([], Returns (Some [w])).
Proof.
  intros Hs H. unfold conforms_to in H. rewrite Hs in H.
  apply andb_prop in H. destruct H as [Hn H].
  simpl. unfold _conformsToProtocol. rewrite Hs, Hn.
  destruct (conforms ty p) as [w |]; [| discriminate H].
  exists w. reflexivity.
Qed.

Lemma conformsToAll_conforms ps : forall m T c,
  forallb (conforms_to conforms m) ps = true ->
  exists E,
    conformsToAll conforms m T Flags.Default ps c = (E, Returns true) /\
    forallb is_store_witness E = true.
Proof.
  induction ps as [| p ps IH]; intros m T c H; simpl.
  - exists []; split; reflexivity.
  - simpl in H. apply andb_prop in H. destruct H as [Hp Hps].
    destruct (@_conformsToProtocol_conforms None m p c Hp) as (E & r & -> & HE).
    destruct (IH m T
                (if needsWitnessTable (protocol_Flags p)
                 then next_conformance c else c) Hps)
      as (E' & HE'eq & HE').
    rewrite bind_returns, HE'eq. simpl.
    eexists; split; [reflexivity |].
    rewrite forallb_app, HE, HE'. reflexivity.
Qed.

(** Without a place to store them, no witness table is stored. *)
Lemma conformsToAll_null ps : forall m T,
  forallb (conforms_to conforms m) ps = true ->
  conformsToAll conforms m T Flags.Default ps null_witnesses
  = ([], Returns true).
Proof.
  induction ps as [| p ps IH]; intros m T H; simpl; [reflexivity |].
  simpl in H. apply andb_prop in H. destruct H as [Hp Hps].
  assert (Hc : exists r,
             _conformsToProtocol conforms None m p null_witnesses
             = ([], Returns (Some r))).
  { unfold conforms_to in Hp. unfold _conformsToProtocol.
    destruct (SpecialProtocol.eqb _ _).
    - destruct m; try discriminate Hp; try (exists None; reflexivity).
      rewrite Hp. exists None; reflexivity.
    - apply andb_prop in Hp. destruct Hp as [-> Hp].
      destruct (conforms m p); [| discriminate Hp].
      exists None; reflexivity. }
  destruct Hc as [r ->]. rewrite bind_returns.
  destruct (needsWitnessTable (protocol_Flags p)); simpl;
    rewrite (IH m T Hps); reflexivity.
Qed.

(** ** Reading [dest] *)

Lemma dest_after_app t t' :
  dest_after (t ++ t') = fold_left store t' (dest_after t).
Proof. apply fold_left_app. Qed.

(** A tag injected for a type with at least as many levels of Optional
    is not one [read_dest] looks at. *)
Lemma optional_depth_neq (K Q : Metadata) :
  optional_depth Q < optional_depth K -> Metadata_eqb K Q = false.
Proof.
  intros H. apply Metadata_eqb_neq. intros ->. lia.
Qed.

Lemma read_dest_tag (P : Metadata) : forall K whichCase d,
  optional_depth P <= optional_depth K ->
  read_dest P (store d (swift_storeEnumTagSinglePayload K whichCase))
  = read_dest P d.
Proof.
  induction P using Metadata_nested_ind; intros K whichCase d Hdepth;
    try reflexivity.
  simpl in Hdepth. cbn [read_dest].
  replace (dest_tags (store d (swift_storeEnumTagSinglePayload K whichCase)))
    with ((K, whichCase) :: dest_tags d) by reflexivity.
  cbn [lookup_tag]. rewrite optional_depth_neq by lia.
  rewrite IHP by lia. reflexivity.
Qed.

(** ** Default flags *)

Lemma has_flag_Default X : Flags.Default &? X = false.
Proof. reflexivity. Qed.

Lemma shouldDeallocateSource_Default b :
  shouldDeallocateSource b Flags.Default = false.
Proof. destruct b; reflexivity. Qed.

(** ** Casts to an existential type *)

Lemma _dynamicCastToExistential_holds a v T e :
  boxable conforms e v T ->
  exists events held,
    _dynamicCastToExistential conforms {| address := a; pointee := v |} T e
      Flags.Default
    = (events, Returns true) /\
    read_dest (MExistential e) (dest_after events) = Some held /\
    dynamic_type held (MExistential e) = dynamic_type v T /\
    dynamic_payload held (MExistential e) = dynamic_payload v T.
Proof.
  intros (Hdyn & Hconf & Hfits).
  destruct (dynamic_idempotent v T) as [Hty Hpay].
  destruct (@findDynamicValueAndType__dynamic v T a true Hdyn)
    as (a' & c' & Hfind).
  unfold _dynamicCastToExistential, findDynamicValueAndType.
  cbn [address pointee]. rewrite Hfind.
  change (@nil Event, Returns ?x) with (ret x). rewrite bind_ret_l.
  cbv beta iota zeta.
  rewrite shouldDeallocateSource_Default, has_flag_Default, andb_false_r.
  unfold fits_representation in Hfits.
  destruct (getRepresentation e) eqn:Hrep.
  - destruct (@_conformsToProtocols_conforms (Protocols e)
                (Some {| address := a'; pointee := dynamic_payload v T |})
                (dynamic_type v T) (dest_witnesses 0) Hconf)
      as (E & ws & -> & HE).
    rewrite bind_returns. simpl.
    eexists; eexists; split; [reflexivity |].
    rewrite dest_after_app. cbn [read_dest]. rewrite Hrep. simpl.
    split; [reflexivity |]. simpl. split; assumption.
  - destruct Hfits as (o & Hpayload & Htype).
    rewrite Htype. cbn [getKind swift_getObjectType].
    rewrite <- Htype.
    destruct (@_conformsToProtocols_conforms (Protocols e)
                (Some {| address := a'; pointee := dynamic_payload v T |})
                (dynamic_type v T) (dest_witnesses 0) Hconf)
      as (E & ws & -> & HE).
    rewrite bind_returns. cbn [pointee]. rewrite Hpayload. simpl.
    rewrite orb_true_r. simpl.
    eexists; eexists; split; [reflexivity |].
    rewrite dest_after_app. cbn [read_dest]. rewrite Hrep. simpl.
    split; [reflexivity |]. simpl. rewrite Htype. split; reflexivity.
  - destruct Hfits as (p & Hp & Hspecial).
    rewrite Hp in Hconf |- *. simpl in Hconf.
    rewrite andb_true_r in Hconf.
    destruct (@_conformsToProtocols_error
                (Some {| address := a'; pointee := dynamic_payload v T |})
                (dynamic_type v T) p Hspecial Hconf) as [w ->].
    rewrite bind_returns. simpl.
    eexists; eexists; split; [reflexivity |].
    cbn [read_dest]. rewrite Hrep. simpl.
    split; [reflexivity |]. simpl. split; assumption.
Qed.

(** ** An existential payload of an Optional *)

Lemma cast_value_to_optional_existential e x X a :
  getKind X <> MetadataKind.Optional ->
  getKind X <> MetadataKind.Existential ->
  boxable conforms e x X ->
  boxed_as_payload e x X
    (cast conforms foreign (MOptional (MExistential e)) a x X Flags.Default).
Proof.
  intros Hopt Hex Hbox.
  destruct (@_dynamicCastToExistential_holds a x X e Hbox)
    as (E & held & Hcast & Hread & Hty & Hpay).
  exists E, held. split; [| auto].
  rewrite cast_not_optional by assumption.
  assert (Hinner :
    cast conforms foreign (MExistential e) a x X Flags.Default
    = (E, Returns true)).
  { rewrite cast_not_optional by assumption. exact Hcast. }
  unfold swift_dynamicCast_dispatch.
  destruct X; try (exfalso; apply Hex; reflexivity);
    rewrite Hinner, bind_returns; reflexivity.
Qed.

Lemma dynamic_type_optional x P : dynamic_type x (MOptional P) = MOptional P.
Proof. destruct x; reflexivity. Qed.

Lemma cast_existential_to_optional_existential e (x : Value) : forall X a,
  has_dynamic_value x X ->
  getKind (dynamic_type x X) <> MetadataKind.Optional ->
  forallb (conforms_to conforms (dynamic_type x X)) (Protocols e) = true ->
  fits_representation e (dynamic_payload x X) (dynamic_type x X) ->
  boxed_as_payload e x X
    (cast conforms foreign (MOptional (MExistential e)) a x X Flags.Default).
Proof.
  induction x as [bits | o | m | | payload IHx | Value_ IHx ws
                   | Type_ box payload IHx ws | box Type_ w payload IHx
                   | m ws];
    intros X a Hdyn Hkind Hconf Hfits;
    (assert (Hopt : getKind X <> MetadataKind.Optional)
       by (intros HX; destruct X; try discriminate HX;
           rewrite dynamic_type_optional in Hkind; apply Hkind; reflexivity));
    (destruct X as [| | | | | | | | | e0 | | | | |];
     try (apply cast_value_to_optional_existential;
          [assumption | discriminate | repeat split; assumption]));
    rewrite cast_not_optional by assumption;
    unfold swift_dynamicCast_dispatch, _dynamicCastFromExistential;
    simpl in Hdyn; try contradiction.
  - destruct Value_; try contradiction. rewrite Hdyn.
    cbn [load_object]. rewrite bind_ret_l. cbn [negb].
    destruct (IHx (swift_getObjectType o) a I Hkind Hconf Hfits)
      as (E & held & -> & Hheld).
    rewrite bind_returns. simpl. rewrite app_nil_r.
    exists E, held. split; [reflexivity | exact Hheld].
  - destruct Hdyn as [Hrep Hdyn]. rewrite Hrep. cbn [negb].
    destruct (IHx Type_ (vw_projectBuffer a box) Hdyn Hkind Hconf Hfits)
      as (E & held & -> & Hheld).
    rewrite bind_returns. cbn [andb].
    unfold _maybeDeallocateOpaqueExistential.
    rewrite shouldDeallocateSource_Default.
    destruct (negb (a =? vw_projectBuffer a box)%N); simpl;
      rewrite app_nil_r;
      exists E, held; (split; [reflexivity | exact Hheld]).
  - destruct Hdyn as [Hrep Hdyn]. rewrite Hrep. cbn [negb].
    change (flags_minus Flags.Default
              (flags_or Flags.DestroyOnFailure Flags.TakeOnSuccess))
      with Flags.Default.
    destruct (IHx Type_ box Hdyn Hkind Hconf Hfits)
      as (E & held & -> & Hheld).
    rewrite bind_returns. simpl. rewrite app_nil_r.
    exists E, held. split; [reflexivity | exact Hheld].
Qed.

(** ** Metatypes *)

Lemma swift_dynamicCastMetatype_metatype_of instance m :
  metatype_of instance m ->
  swift_dynamicCastMetatype foreign m instance = Some m.
Proof.
  intros H. destruct instance; simpl in H; try contradiction;
    try (subst m; rewrite swift_dynamicCastMetatype_other by reflexivity;
         rewrite Metadata_eqb_refl; reflexivity).
  destruct H as (c' & -> & Hsub).
  rewrite swift_dynamicCastMetatype_class.
  destruct (_dynamicCastClassMetatype_complete Hsub) as [r ->]. reflexivity.
Qed.

(** Below the first level, an existential metatype cast stores nothing. *)
Lemma _dynamicCastMetatypeToExistentialMetatype_nested instance : forall m,
  metatype_conforms conforms m instance ->
  _dynamicCastMetatypeToExistentialMetatype conforms m instance
    Flags.Default false
  = ([], Returns true).
Proof.
  induction instance using Metadata_nested_ind; intros m Hm;
    simpl in Hm; try contradiction;
    rewrite _dynamicCastMetatypeToExistentialMetatype_eq;
    cbv beta iota zeta.
  - rewrite conformsToAll_null by assumption. reflexivity.
  - destruct m; try contradiction.
    rewrite when_false, bind_ret_l. apply IHinstance, Hm.
Qed.

Lemma _dynamicCastMetatypeToExistentialMetatype_holds instance m :
  metatype_conforms conforms m instance ->
  exists events,
    _dynamicCastMetatypeToExistentialMetatype conforms m instance
      Flags.Default true
    = (events, Returns true) /\
    dest_value (dest_after events) = Some (VMetadata m).
Proof.
  intros H. rewrite _dynamicCastMetatypeToExistentialMetatype_eq.
  destruct instance; simpl in H; try contradiction; cbv beta iota zeta.
  - destruct (@conformsToAll_conforms (Protocols e) m
                (MExistentialMetatype (MExistential e)) (dest_witnesses 0) H)
      as (E & -> & HE).
    rewrite bind_returns. simpl.
    eexists; split; [reflexivity |].
    rewrite dest_after_app. reflexivity.
  - destruct m; try contradiction.
    rewrite when_true.
    rewrite (_dynamicCastMetatypeToExistentialMetatype_nested _ _ H).
    eexists; split; reflexivity.
Qed.

(** ** The identity cast *)

Lemma swift_dynamicCast_dispatch_optional P a x X flags :
  getKind X <> MetadataKind.Existential ->
  swift_dynamicCast_dispatch conforms foreign
    (cast conforms foreign (MOptional P)) (cast conforms foreign)
    (MOptional P) a x X flags
  = (ok <- cast conforms foreign P a x X flags ;;
     if (ok : bool)
     then emit (swift_storeEnumTagSinglePayload P (-1)) ;; ret true
     else ret false).
Proof.
  intros H. destruct X; try reflexivity. exfalso; apply H; reflexivity.
Qed.

Lemma holds_payload P x E :
  holds P x E ->
  holds (MOptional P) (VSome x) (E ++ [swift_storeEnumTagSinglePayload P (-1)]).
Proof.
  intros (held & Hread & Hsame). exists (VSome held). split; [| exact Hsame].
  rewrite dest_after_app. cbn [fold_left read_dest].
  replace (dest_tags (store (dest_after E)
                        (swift_storeEnumTagSinglePayload P (-1))))
    with ((P, (-1)%Z) :: dest_tags (dest_after E)) by reflexivity.
  cbn [lookup_tag]. rewrite Metadata_eqb_refl.
  rewrite read_dest_tag by lia. rewrite Hread. reflexivity.
Qed.

Lemma well_formed_existential v e :
  well_formed conforms v (MExistential e)
  = boxable conforms e v (MExistential e).
Proof. destruct v; reflexivity. Qed.

Lemma identity_cast (T : Metadata) : forall v a,
  well_formed conforms v T ->
  no_hidden_optional v T ->
  exists events,
    cast conforms foreign T a v T Flags.Default = (events, Returns true) /\
    holds T v events.
Proof.
  induction T as [c | c | n | n | n | P IHP | n | Elements _
                   | f Arguments ResultType _ _ | e | instance _
                   | instance _ | n | n | n]
    using Metadata_nested_ind; intros v a Hwf Hno;
    try (destruct v; contradiction Hwf);
    try (rewrite cast_not_optional by discriminate;
         unfold swift_dynamicCast_dispatch, _dynamicCastToFunction;
         rewrite Metadata_eqb_refl; unfold _succeed;
         rewrite has_flag_Default;
         eexists; split; [reflexivity |];
         exists v; split; reflexivity).
  - (* class *)
    destruct v; try contradiction Hwf. simpl in Hwf.
    rewrite cast_not_optional by discriminate.
    unfold swift_dynamicCast_dispatch. cbn [load_object].
    rewrite bind_ret_l.
    unfold _dynamicCastUnknownClassIndirect. rewrite !has_flag_Default.
    cbn [swift_dynamicCastUnknownClass]. rewrite bind_ret_l.
    unfold swift_dynamicCastClass.
    destruct (_dynamicCastClassMetatype_complete Hwf) as [r ->].
    eexists; split; [reflexivity |].
    eexists; split; reflexivity.
  - (* Optional *)
    rewrite cast_eq. unfold checkDynamicCastFromOptional.
    rewrite bind_ret_l.
    destruct v; try contradiction Hwf; simpl in Hwf.
    + unfold _succeed. rewrite has_flag_Default.
      eexists; split; [reflexivity |].
      exists VNone. split; [| exact I].
      simpl. rewrite Metadata_eqb_refl. reflexivity.
    + assert (Hx : exists E,
                swift_dynamicCast_dispatch conforms foreign
                  (cast conforms foreign (MOptional P)) (cast conforms foreign)
                  (MOptional P) a v P Flags.Default
                = (E ++ [swift_storeEnumTagSinglePayload P (-1)],
                   Returns true) /\
                holds P v E).
      { destruct P;
          try (rewrite swift_dynamicCast_dispatch_optional by discriminate;
               destruct (IHP v a Hwf Hno) as (E & -> & HE);
               rewrite bind_returns; exists E; split; [reflexivity | exact HE]).
        simpl in Hno. rewrite well_formed_existential in Hwf.
        destruct Hwf as (Hdyn & Hconf & Hfits).
        destruct (@cast_existential_to_optional_existential e v
                    (MExistential e) a Hdyn Hno Hconf Hfits)
          as (E & held & Hcast & Hread & Hty & Hpay).
        rewrite cast_not_optional in Hcast by discriminate.
        exists E. split; [exact Hcast |].
        exists held. split; [exact Hread |]. split; congruence. }
      destruct Hx as (E & -> & HE).
      eexists; split; [reflexivity |]. apply holds_payload, HE.
  - (* existential *)
    rewrite cast_not_optional by discriminate.
    unfold swift_dynamicCast_dispatch.
    rewrite well_formed_existential in Hwf.
    destruct (@_dynamicCastToExistential_holds a v (MExistential e) e Hwf)
      as (E & held & -> & Hread & Hty & Hpay).
    exists E. split; [reflexivity |].
    exists held. split; [exact Hread |]. split; congruence.
  - (* metatype *)
    destruct v; try contradiction Hwf. simpl in Hwf.
    rewrite cast_not_optional by discriminate.
    unfold swift_dynamicCast_dispatch, _dynamicCastToMetatype.
    rewrite _dynamicCastToMetatype__eq. cbn [pointee load_metadata].
    cbv beta iota zeta. rewrite bind_ret_l.
    unfold _dynamicCastMetatypeToMetatype. rewrite has_flag_Default.
    rewrite (swift_dynamicCastMetatype_metatype_of _ _ Hwf).
    eexists; split; [reflexivity |].
    eexists; split; reflexivity.
  - (* existential metatype *)
    destruct v; try contradiction Hwf. simpl in Hwf.
    rewrite cast_not_optional by discriminate.
    unfold swift_dynamicCast_dispatch, _dynamicCastToExistentialMetatype.
    rewrite _dynamicCastToExistentialMetatype__eq.
    cbn [pointee load_metadata]. cbv beta iota zeta. rewrite bind_ret_l.
    destruct (_dynamicCastMetatypeToExistentialMetatype_holds _ _ Hwf)
      as (E & -> & HE).
    exists E. split; [reflexivity |].
    eexists. cbn [read_dest]. rewrite HE. split; reflexivity.
Qed.


End Identity.

(** * Class casts *)

Lemma subclass_or_equal_depth base c :
  subclass_or_equal base c -> base = c \/ class_depth base < class_depth c.
Proof.
  induction 1 as [| n super _ [-> | IH]]; simpl; auto; right; lia.
Qed.

Lemma subclass_or_equal_trans a b c :
  subclass_or_equal a b -> subclass_or_equal b c -> subclass_or_equal a c.
Proof.
  intros Hab Hbc. induction Hbc; [assumption | constructor; assumption].
Qed.

Lemma _dynamicCastClassMetatype_target (s t r : ClassMetadata) :
  _dynamicCastClassMetatype s t = Some r -> r = t.
Proof.
  induction s as [n | n super IH]; rewrite _dynamicCastClassMetatype_unfold;
    destruct (ClassMetadata_eqb _ t) eqn:E; intros H;
    try (apply ClassMetadata_eqb_eq in E; congruence);
    [discriminate H | auto].
Qed.

(** X1.  The superclass walk orders the classes: what it finds is the
    target itself; a class found from a class found from a third is found
    from the third; and two classes that find each other are the same
    class. *)
Theorem superclass_walk_is_an_order :
  (forall s t r : ClassMetadata,
     _dynamicCastClassMetatype s t = Some r -> r = t) /\
  (forall a : ClassMetadata, _dynamicCastClassMetatype a a = Some a) /\
  (forall a b c rb rc : ClassMetadata,
     _dynamicCastClassMetatype a b = Some rb ->
     _dynamicCastClassMetatype b c = Some rc ->
     _dynamicCastClassMetatype a c = Some c) /\
  (forall a b ra rb : ClassMetadata,
     _dynamicCastClassMetatype a b = Some rb ->
     _dynamicCastClassMetatype b a = Some ra ->
     a = b).
Proof.
  split; [exact _dynamicCastClassMetatype_target |].
  split.
  { intros a. rewrite _dynamicCastClassMetatype_unfold.
    rewrite ClassMetadata_eqb_refl. reflexivity. }
  split.
  - intros a b c rb rc Hab Hbc.
    apply _dynamicCastClassMetatype_sound in Hab, Hbc.
    destruct (_dynamicCastClassMetatype_complete
                (subclass_or_equal_trans Hbc Hab)) as [r Hr].
    rewrite Hr. f_equal. exact (_dynamicCastClassMetatype_target _ _ Hr).
  - intros a b ra rb Hab Hba.
    apply _dynamicCastClassMetatype_sound in Hab, Hba.
    destruct (subclass_or_equal_depth Hab) as [-> | H1]; [reflexivity |].
    destruct (subclass_or_equal_depth Hba) as [-> | H2]; [reflexivity |].
    lia.
Qed.

(** X2.  [swift_dynamicCastClass] answers with the object it was given
    exactly when the class the object was allocated as is the target or a
    subclass of it, and with null otherwise; the unconditional form
    returns the same object or aborts, naming the class of the object and
    the target. *)
Theorem swift_dynamicCastClass_is_instance_of
  (object : HeapObject) (targetType : ClassMetadata) :
  (subclass_or_equal targetType (_swift_getClassOfAllocated object) ->
   swift_dynamicCastClass object targetType = Some object /\
   swift_dynamicCastClassUnconditional object targetType = ret object) /\
  (~ subclass_or_equal targetType (_swift_getClassOfAllocated object) ->
   swift_dynamicCastClass object targetType = None /\
   swift_dynamicCastClassUnconditional object targetType
   = ([], Aborts (dynamicCastFailure
                    (MClass (_swift_getClassOfAllocated object))
                    (MClass targetType)))).
Proof.
  unfold swift_dynamicCastClassUnconditional, swift_dynamicCastClass.
  split; intros H.
  - destruct (_dynamicCastClassMetatype_complete H) as [r ->].
    split; reflexivity.
  - rewrite (_dynamicCastClassMetatype_None H). split; reflexivity.
Qed.

(** The protocols of [e] all have the empty dispatch strategy. *)
Lemma _dynamicCastUnknownClassToExistential_spec object e :
  _dynamicCastUnknownClassToExistential object e
  = if forallb is_empty_dispatch (Protocols e) then Some object else None.
Proof.
  unfold _dynamicCastUnknownClassToExistential.
  induction (Protocols e) as [| p ps IH]; simpl; [reflexivity |].
  unfold is_empty_dispatch at 1.
  destruct (getDispatchStrategy (protocol_Flags p)); simpl; auto.
Qed.


Section Public_casts.
Variable conforms : Metadata -> ProtocolDescriptor -> option WitnessTable.
Variable foreign : Metadata -> Metadata -> bool.

(** X4.  A cast of a class reference to a class type is decided by the
    class the object was allocated as, whatever its static type: when that
    class is the target or a subclass of it, the same reference is stored
    into [dest], retained unless it is taken; otherwise a conditional cast
    answers false, releasing the reference when asked to destroy on
    failure, and an unconditional cast aborts, naming the class of the
    object. *)
Theorem class_reference_cast
  (a : Addr) (o : HeapObject) (srcType : Metadata)
  (targetType : ClassMetadata) (flags : DynamicCastFlags) :
  isAnyKindOfClass (getKind srcType) = true ->
  (subclass_or_equal targetType (_swift_getClassOfAllocated o) ->
   swift_dynamicCast conforms foreign {| address := a; pointee := VObject o |}
     srcType (MClass targetType) flags
   = (store_reference o ::
      (if flags &? Flags.TakeOnSuccess then [] else [swift_unknownRetain o]),
      Returns true)) /\
  (~ subclass_or_equal targetType (_swift_getClassOfAllocated o) ->
   swift_dynamicCast conforms foreign {| address := a; pointee := VObject o |}
     srcType (MClass targetType) flags
   = if flags &? Flags.Unconditional
     then ([], Aborts (dynamicCastFailure
                         (MClass (_swift_getClassOfAllocated o))
                         (MClass targetType)))
     else (if flags &? Flags.DestroyOnFailure
           then [swift_unknownRelease o] else [],
           Returns false)).
Proof.
  intros Hs.
  assert (E : swift_dynamicCast conforms foreign
                {| address := a; pointee := VObject o |}
                srcType (MClass targetType) flags
              = _dynamicCastUnknownClassIndirect o (MClass targetType) flags).
  { change (swift_dynamicCast conforms foreign _ ?s ?t ?f)
      with (cast conforms foreign t a (VObject o) s f).
    rewrite cast_not_optional
      by (destruct srcType; try discriminate Hs; discriminate).
    unfold swift_dynamicCast_dispatch.
    destruct srcType; try discriminate Hs;
      cbn [load_object]; rewrite bind_ret_l; reflexivity. }
  rewrite E. unfold _dynamicCastUnknownClassIndirect.
  cbn [swift_dynamicCastUnknownClassUnconditional
         swift_dynamicCastUnknownClass].
  unfold swift_dynamicCastClassUnconditional, swift_dynamicCastClass.
  split; intros H.
  - destruct (_dynamicCastClassMetatype_complete H) as [r ->].
    destruct (flags &? Flags.Unconditional),
      (flags &? Flags.TakeOnSuccess); reflexivity.
  - rewrite (_dynamicCastClassMetatype_None H).
    destruct (flags &? Flags.Unconditional),
      (flags &? Flags.DestroyOnFailure); reflexivity.
Qed.

(** ** Casts to value types *)

Lemma post_pass (m : Effect bool) (after : bool -> Effect unit)
  (Q : bool -> Prop) :
  post m (fun _ b => Q b) ->
  post (result <- m ;; after result ;; ret result) (fun _ b => Q b).
Proof.
  intros H t b E.
  apply bind_inv in E as (t1 & r & t2 & E1 & E2 & _).
  apply bind_inv in E2 as (t3 & [] & t4 & _ & E4 & _).
  inversion E4; subst. eapply H; eauto.
Qed.

Lemma non_polymorphic_not_class T c :
  non_polymorphic T = true -> Metadata_eqb (MClass c) T = false.
Proof. intros H. apply Metadata_eqb_neq. intros <-. discriminate H. Qed.

Lemma non_polymorphic_not_existential T e :
  non_polymorphic T = true -> Metadata_eqb (MExistential e) T = false.
Proof. intros H. apply Metadata_eqb_neq. intros <-. discriminate H. Qed.

Lemma finds_exact_eq T v S :
  finds_exact T v S =
  match S with
  | MOptional P =>
      match v with
      | VSome x => exact_or_inside T (finds_exact T) x P
      | _ => false
      end
  | _ => exact_or_inside T (finds_exact T) v S
  end.
Proof. destruct v; reflexivity. Qed.

Lemma swift_dynamicCast_dispatch_non_polymorphic cast_payload cast_into
  T a v S flags :
  non_polymorphic T = true ->
  swift_dynamicCast_dispatch conforms foreign cast_payload cast_into
    T a v S flags
  = if Metadata_eqb S T
    then _succeed {| address := a; pointee := v |} S flags
    else
      match S with
      | MExistential e =>
          _dynamicCastFromExistential cast_payload a v e T flags
      | _ => _fail {| address := a; pointee := v |} S T flags None
      end.
Proof. intros H. destruct T; try discriminate H; reflexivity. Qed.

Lemma finds__dynamicCastFromExistential T cast_payload a x e flags :
  non_polymorphic T = true ->
  (forall a' v' s' f',
     size_value v' < size_value x ->
     post (cast_payload a' v' s' f') (fun _ b => b = finds_exact T v' s')) ->
  post (_dynamicCastFromExistential cast_payload a x e T flags)
       (fun _ b => b = exact_or_inside T (finds_exact T) x (MExistential e)).
Proof.
  intros Hnp Hcp. unfold exact_or_inside.
  rewrite (@non_polymorphic_not_existential T e Hnp).
  unfold _dynamicCastFromExistential.
  destruct (getRepresentation e),
    x as [bits | o | m | | payload | Value_ ws | Type_ box payload ws
          | box Type_ w payload | m ws];
    try apply post_abort; cbv beta iota zeta.
  - apply post_pass with (Q := fun b => b = finds_exact T payload Type_).
    apply Hcp. simpl; lia.
  - eapply post_bind; [apply post_load_object |].
    intros t1 obj _.
    apply post_pass with (Q := fun b => b = false).
    eapply post_weaken; [apply Hcp; simpl; lia |].
    cbv beta. intros t b ->. rewrite finds_exact_eq.
    unfold exact_or_inside, swift_getObjectType.
    rewrite (@non_polymorphic_not_class T _ Hnp). reflexivity.
  - apply post_pass with (Q := fun b => b = finds_exact T payload Type_).
    apply Hcp. simpl; lia.
Qed.

Lemma finds_dispatch T a x P flags :
  non_polymorphic T = true ->
  (forall a' v' s' f',
     size_value v' < size_value x ->
     post (cast conforms foreign T a' v' s' f')
          (fun _ b => b = finds_exact T v' s')) ->
  post (swift_dynamicCast_dispatch conforms foreign
          (cast conforms foreign T) (cast conforms foreign) T a x P flags)
       (fun _ b => b = exact_or_inside T (finds_exact T) x P).
Proof.
  intros Hnp IH.
  rewrite swift_dynamicCast_dispatch_non_polymorphic by assumption.
  destruct (Metadata_eqb P T) eqn:E.
  - unfold exact_or_inside. rewrite E.
    eapply post_weaken; [apply post__succeed |].
    cbv beta. intros t b [-> _]. reflexivity.
  - destruct P;
      try (unfold exact_or_inside; rewrite E;
           eapply post_weaken; [apply post__fail |];
           cbv beta; intros t b [-> _]; reflexivity).
    apply finds__dynamicCastFromExistential; assumption.
Qed.

Lemma cast_finds_exact T :
  non_polymorphic T = true ->
  forall v a S flags,
    post (cast conforms foreign T a v S flags)
         (fun _ b => b = finds_exact T v S).
Proof.
  intros Hnp v.
  induction v as [v IH] using (induction_ltof1 _ size_value).
  unfold ltof in IH. intros a S flags.
  rewrite cast_eq, finds_exact_eq. unfold checkDynamicCastFromOptional.
  destruct S; try (apply finds_dispatch; [assumption |];
                   intros; apply IH; assumption).
  replace (match T with
           | MExistential e =>
               _dynamicCastToExistential conforms
                 {| address := a; pointee := v |} (MOptional S) e
                 (flags_minus flags
                    (flags_or Flags.Unconditional Flags.DestroyOnFailure))
           | _ => ret false
           end) with (ret false)
    by (destruct T; try discriminate Hnp; reflexivity).
  rewrite bind_ret_l.
  destruct v; try apply post_abort.
  - replace (match T with
             | MOptional _ =>
                 emit (swift_storeEnumTagSinglePayload S 0) ;;
                 _succeed {| address := a; pointee := VNone |} (MOptional S)
                   flags ;;
                 ret true
             | _ =>
                 _fail {| address := a; pointee := VNone |} (MOptional S) T
                   flags None ;;
                 ret false
             end)
      with (_fail {| address := a; pointee := VNone |} (MOptional S) T
              flags None ;; ret false)
      by (destruct T; try discriminate Hnp; reflexivity).
    eapply post_bind; [apply post__fail |].
    intros t1 b1 _. apply post_ret. reflexivity.
  - apply finds_dispatch; [assumption |].
    intros a' v' s' f' Hlt. apply IH. simpl. lia.
Qed.

Lemma _succeed_returns src S flags :
  exists t, _succeed src S flags = (t, Returns true).
Proof.
  unfold _succeed. destruct (flags &? Flags.TakeOnSuccess); eexists;
    reflexivity.
Qed.

Lemma found__dynamicCastFromExistential T cast_payload a x e flags :
  non_polymorphic T = true ->
  (forall a' v' s' f',
     size_value v' < size_value x ->
     finds_exact T v' s' = true ->
     exists t, cast_payload a' v' s' f' = (t, Returns true)) ->
  exact_or_inside T (finds_exact T) x (MExistential e) = true ->
  exists t,
    _dynamicCastFromExistential cast_payload a x e T flags
    = (t, Returns true).
Proof.
  intros Hnp Hcp. unfold exact_or_inside.
  rewrite (@non_polymorphic_not_existential T e Hnp).
  unfold _dynamicCastFromExistential.
  destruct (getRepresentation e),
    x as [bits | o | m | | payload | Value_ ws | Type_ box payload ws
          | box Type_ w payload | m ws];
    try discriminate; intros Hin; cbv beta iota zeta; cbn [negb];
    cbv beta iota zeta.
  - destruct (Hcp (vw_projectBuffer a box) payload Type_ flags
                ltac:(simpl; lia) Hin) as [t ->].
    rewrite bind_returns. cbn [negb andb].
    unfold _maybeDeallocateOpaqueExistential. cbn [pointee load_container_Type].
    destruct (negb (a =? vw_projectBuffer a box)%N),
      (shouldDeallocateSource true flags); eexists; reflexivity.
  - destruct (Hcp box payload Type_
                (flags_minus flags
                   (flags_or Flags.DestroyOnFailure Flags.TakeOnSuccess))
                ltac:(simpl; lia) Hin) as [t ->].
    rewrite bind_returns. cbn [negb andb].
    destruct (shouldDeallocateSource true flags); eexists; reflexivity.
Qed.

Lemma found_dispatch T a x P flags :
  non_polymorphic T = true ->
  (forall a' v' s' f',
     size_value v' < size_value x ->
     finds_exact T v' s' = true ->
     exists t, cast conforms foreign T a' v' s' f' = (t, Returns true)) ->
  exact_or_inside T (finds_exact T) x P = true ->
  exists t,
    swift_dynamicCast_dispatch conforms foreign
      (cast conforms foreign T) (cast conforms foreign) T a x P flags
    = (t, Returns true).
Proof.
  intros Hnp IH Hin.
  rewrite swift_dynamicCast_dispatch_non_polymorphic by assumption.
  destruct (Metadata_eqb P T) eqn:E; [apply _succeed_returns |].
  destruct P; try (unfold exact_or_inside in Hin; rewrite E in Hin;
                   discriminate Hin).
  apply found__dynamicCastFromExistential; assumption.
Qed.

Lemma cast_found_exact T :
  non_polymorphic T = true ->
  forall v a S flags,
    finds_exact T v S = true ->
    exists t, cast conforms foreign T a v S flags = (t, Returns true).
Proof.
  intros Hnp v.
  induction v as [v IH] using (induction_ltof1 _ size_value).
  unfold ltof in IH. intros a S flags.
  rewrite cast_eq, finds_exact_eq. unfold checkDynamicCastFromOptional.
  destruct S; try (apply found_dispatch; [assumption |];
                   intros; apply IH; assumption).
  replace (match T with
           | MExistential e =>
               _dynamicCastToExistential conforms
                 {| address := a; pointee := v |} (MOptional S) e
                 (flags_minus flags
                    (flags_or Flags.Unconditional Flags.DestroyOnFailure))
           | _ => ret false
           end) with (ret false)
    by (destruct T; try discriminate Hnp; reflexivity).
  rewrite bind_ret_l.
  destruct v; try discriminate.
  apply found_dispatch; [assumption |].
  intros a' v' s' f' Hlt. apply IH. simpl. lia.
Qed.

(** X5.  A cast to a struct, an enum or another non-polymorphic type
    succeeds exactly when a value of that very type is found in the
    source: behind at most one level of Optional and, from there, inside
    opaque or error existential containers, each payload once more behind
    at most one level of Optional.  When one is found the cast returns
    true, with any flags; and whenever the cast returns, its answer says
    whether one is found. *)
Theorem cast_to_value_type_is_exact
  (src : OpaqueValue) (srcType targetType : Metadata)
  (flags : DynamicCastFlags) :
  non_polymorphic targetType = true ->
  (finds_exact targetType (pointee src) srcType = true ->
   exists events,
     swift_dynamicCast conforms foreign src srcType targetType flags
     = (events, Returns true)) /\
  (forall events succeeded,
     swift_dynamicCast conforms foreign src srcType targetType flags
     = (events, Returns succeeded) ->
     succeeded = finds_exact targetType (pointee src) srcType).
Proof.
  intros Hnp. destruct src as [a v]. split.
  - apply (@cast_found_exact targetType Hnp v a srcType flags).
  - intros events succeeded E.
    exact (@cast_finds_exact targetType Hnp v a srcType flags events
             succeeded E).
Qed.

(** ** Optional targets *)


(** ** Existential sources *)

Lemma bind_ret_r {A} (m : Effect A) : (x <- m ;; ret x) = m.
Proof.
  destruct m as [t [x | c]]; simpl; [rewrite app_nil_r |]; reflexivity.
Qed.

Lemma bind_skip_ret {A} (m : Effect A) : (x <- m ;; ret tt ;; ret x) = m.
Proof.
  destruct m as [t [x | c]]; simpl; [rewrite app_nil_r |]; reflexivity.
Qed.

Lemma flags_minus_absent (f : DynamicCastFlags) :
  f &? Flags.TakeOnSuccess = false ->
  f &? Flags.DestroyOnFailure = false ->
  flags_minus f (flags_or Flags.DestroyOnFailure Flags.TakeOnSuccess) = f /\
  flags_minus f (flags_or Flags.TakeOnSuccess Flags.DestroyOnFailure) = f.
Proof.
  unfold has_flag, flags_minus, flags_or, Flags.TakeOnSuccess,
    Flags.DestroyOnFailure.
  intros Ht Hd.
  apply negb_false_iff, Z.eqb_eq in Ht, Hd.
  assert (H1 : Z.testbit f 1 = false).
  { apply (f_equal (fun z => Z.testbit z 1)) in Ht.
    rewrite Z.land_spec in Ht. simpl in Ht.
    rewrite andb_true_r in Ht. exact Ht. }
  assert (H2 : Z.testbit f 2 = false).
  { apply (f_equal (fun z => Z.testbit z 2)) in Hd.
    rewrite Z.land_spec in Hd. simpl in Hd.
    rewrite andb_true_r in Hd. exact Hd. }
  assert (E : Z.ldiff f 6 = f).
  { apply Z.bits_inj'. intros n Hn. rewrite Z.ldiff_spec.
    destruct (Z.eq_dec n 1) as [-> | N1];
      [rewrite H1; reflexivity |].
    destruct (Z.eq_dec n 2) as [-> | N2];
      [rewrite H2; reflexivity |].
    replace (Z.testbit 6 n) with false; [apply andb_true_r |].
    destruct n as [| p | p]; try reflexivity; try lia.
    destruct p as [p | p |]; try reflexivity; try lia;
      destruct p; try reflexivity; lia. }
  split; exact E.
Qed.

Lemma shouldDeallocateSource_absent b f :
  f &? Flags.TakeOnSuccess = false ->
  f &? Flags.DestroyOnFailure = false ->
  shouldDeallocateSource b f = false.
Proof.
  intros Ht Hd. unfold shouldDeallocateSource. rewrite Ht, Hd.
  destruct b; reflexivity.
Qed.

Lemma pass_absent (m : Effect bool) (after : bool -> Effect unit) :
  (forall b, after b = ret tt) ->
  (result <- m ;; after result ;; ret result) = m.
Proof.
  intros H. destruct m as [t [b | c]]; simpl; [| reflexivity].
  rewrite H. simpl. rewrite app_nil_r. reflexivity.
Qed.

Lemma _maybeDeallocateOpaqueExistential_absent src b flags :
  flags &? Flags.TakeOnSuccess = false ->
  flags &? Flags.DestroyOnFailure = false ->
  _maybeDeallocateOpaqueExistential src b flags = ret tt.
Proof.
  intros Ht Hd. unfold _maybeDeallocateOpaqueExistential.
  rewrite shouldDeallocateSource_absent by assumption. reflexivity.
Qed.

Lemma cast_existential_transparent a v e T flags pa payload pt :
  flags &? Flags.TakeOnSuccess = false ->
  flags &? Flags.DestroyOnFailure = false ->
  casts_payload_again T = true ->
  container_of e v = true ->
  container_payload a v = Some (pa, payload, pt) ->
  cast conforms foreign T a v (MExistential e) flags
  = cast conforms foreign T pa payload pt flags.
Proof.
  intros Ht Hd HT Hc Hp.
  destruct (flags_minus_absent _ Ht Hd) as [F1 F2].
  rewrite (@cast_not_optional conforms foreign T a v (MExistential e))
    by discriminate.
  assert (From :
    _dynamicCastFromExistential (cast conforms foreign T) a v e T flags
    = cast conforms foreign T pa payload pt flags).
  { unfold _dynamicCastFromExistential, container_of in *.
    destruct (getRepresentation e), v; try discriminate Hc;
      simpl in Hp; cbv beta iota zeta; cbn [negb andb].
    - inversion Hp; subst. apply pass_absent. intros b.
      rewrite _maybeDeallocateOpaqueExistential_absent by assumption.
      destruct (b && negb (a =? vw_projectBuffer a box)%N); reflexivity.
    - destruct v; try discriminate Hc. inversion Hp; subst.
      cbn [load_object]. rewrite bind_ret_l.
      apply pass_absent. intros b. rewrite andb_false_r. reflexivity.
    - inversion Hp; subst. rewrite F1.
      apply pass_absent. intros b.
      rewrite shouldDeallocateSource_absent by assumption. reflexivity. }
  assert (Class :
    _dynamicCastToUnknownClassFromExistential (cast conforms foreign T)
      a v e T flags
    = cast conforms foreign T pa payload pt flags \/
    isAnyKindOfClass (getKind T) = false).
  { destruct (isAnyKindOfClass (getKind T)) eqn:K; [left | right; reflexivity].
    unfold _dynamicCastToUnknownClassFromExistential, container_of in *.
    destruct (getRepresentation e), v; try discriminate Hc;
      simpl in Hp; cbv beta iota zeta.
    - inversion Hp; subst. apply pass_absent. intros b.
      rewrite _maybeDeallocateOpaqueExistential_absent by assumption.
      destruct (negb (a =? vw_projectBuffer a box)%N); reflexivity.
    - destruct v; try discriminate Hc. inversion Hp; subst.
      cbn [load_object]. rewrite bind_ret_l.
      rewrite cast_not_optional by discriminate.
      unfold swift_dynamicCast_dispatch, swift_getObjectType.
      destruct T; try discriminate K;
        cbn [load_object]; rewrite bind_ret_l; reflexivity.
    - inversion Hp; subst. rewrite F2.
      apply pass_absent. intros b.
      rewrite shouldDeallocateSource_absent by assumption. reflexivity. }
  unfold swift_dynamicCast_dispatch, _dynamicCastToFunction.
  destruct T; try discriminate HT;
    try (destruct Class as [Class | Class];
         [exact Class | discriminate Class]);
    exact From.
Qed.

(** X7.  With flags that neither take on success nor destroy on failure,
    an existential source is transparent: its cast to any type but an
    existential or a metatype is the cast of the payload of the
    container, from the type the payload is held at, with the same
    effects and the same answer. *)
Theorem existential_source_is_transparent
  (a : Addr) (v : Value) (e : ExistentialTypeMetadata) (T : Metadata)
  (flags : DynamicCastFlags)
  (payloadAddress : Addr) (payload : Value) (payloadType : Metadata) :
  flags &? Flags.TakeOnSuccess = false ->
  flags &? Flags.DestroyOnFailure = false ->
  casts_payload_again T = true ->
  container_of e v = true ->
  container_payload a v = Some (payloadAddress, payload, payloadType) ->
  swift_dynamicCast conforms foreign {| address := a; pointee := v |}
    (MExistential e) T flags
  = swift_dynamicCast conforms foreign
      {| address := payloadAddress; pointee := payload |} payloadType T flags.
Proof. apply cast_existential_transparent. Qed.

(** ** Casts to [Any] *)

Lemma deallocateDynamicValue__returns (v : Value) : forall a S,
  has_dynamic_value v S ->
  exists t, deallocateDynamicValue_ a v S = (t, Returns tt).
Proof.
  induction v as [bits | o | m | | payload IHv | Value_ IHv ws
                  | Type_ box payload IHv ws | box Type_ w payload IHv
                  | m ws];
    intros a S H; rewrite deallocateDynamicValue__eq;
    destruct S; try (eexists; reflexivity); simpl in H |- *;
    try contradiction.
  - destruct Value_; try contradiction. rewrite H. eexists; reflexivity.
  - destruct H as [-> H].
    destruct (IHv (vw_projectBuffer a box) Type_ H) as [t ->].
    eexists; reflexivity.
  - destruct H as [-> H]. eexists; reflexivity.
Qed.

Lemma _dynamicCastToExistential_Any a v S e flags :
  getRepresentation e = ExistentialTypeRepresentation.Opaque ->
  Protocols e = [] ->
  has_dynamic_value v S ->
  exists a' taken rest,
    _dynamicCastToExistential conforms {| address := a; pointee := v |} S e
      flags
    = (store_existential_Type (dynamic_type v S) ::
       (if (taken : bool)
        then vw_initializeBufferWithTake (dynamic_type v S)
               {| address := a'; pointee := dynamic_payload v S |}
        else vw_initializeBufferWithCopy (dynamic_type v S)
               {| address := a'; pointee := dynamic_payload v S |}) ::
       rest,
       Returns true) /\
    (taken = true -> flags &? Flags.TakeOnSuccess = true).
Proof.
  intros Hrep Hps Hdyn.
  destruct (@findDynamicValueAndType__dynamic v S a true Hdyn)
    as (a' & c' & Hfind).
  destruct (@deallocateDynamicValue__returns v a S Hdyn) as [td Hd].
  unfold _dynamicCastToExistential, findDynamicValueAndType.
  cbn [address pointee]. rewrite Hfind.
  change (@nil Event, Returns ?x) with (ret x). rewrite bind_ret_l.
  cbv beta iota zeta. rewrite Hrep, Hps.
  cbn [_conformsToProtocols]. rewrite bind_ret_l. cbv beta iota zeta.
  unfold deallocateDynamicValue. cbn [address pointee]. rewrite Hd.
  exists a', (c' && (flags &? Flags.TakeOnSuccess)).
  destruct c', (flags &? Flags.TakeOnSuccess) eqn:Ht;
    unfold shouldDeallocateSource; rewrite ?Ht; cbn [andb orb negb];
    try destruct (negb (ptr_eqb _ _));
    simpl; eexists; (split; [reflexivity | auto; discriminate]).
Qed.

(** X8.  A cast to an existential with the opaque representation and no
    protocols ([Any]) of a source that has a dynamic value always returns
    true, with any flags: the dynamic type of the source is stored into
    the container and then its dynamic value, copied unless the flags
    ask to take it. *)
Theorem cast_to_Any_succeeds
  (src : OpaqueValue) (srcType : Metadata) (e : ExistentialTypeMetadata)
  (flags : DynamicCastFlags) :
  getRepresentation e = ExistentialTypeRepresentation.Opaque ->
  Protocols e = [] ->
  has_dynamic_value (pointee src) srcType ->
  exists a' taken rest,
    swift_dynamicCast conforms foreign src srcType (MExistential e) flags
    = (store_existential_Type (dynamic_type (pointee src) srcType) ::
       (if (taken : bool)
        then vw_initializeBufferWithTake
               (dynamic_type (pointee src) srcType)
               {| address := a';
                  pointee := dynamic_payload (pointee src) srcType |}
        else vw_initializeBufferWithCopy
               (dynamic_type (pointee src) srcType)
               {| address := a';
                  pointee := dynamic_payload (pointee src) srcType |}) ::
       rest,
       Returns true) /\
    (taken = true -> flags &? Flags.TakeOnSuccess = true).
Proof.
  intros Hrep Hps Hdyn. destruct src as [a v]. cbn [pointee] in *.
  change (swift_dynamicCast conforms foreign _ ?s ?t ?f)
    with (cast conforms foreign t a v s f).
  rewrite cast_eq. unfold checkDynamicCastFromOptional.
  destruct srcType;
    try (unfold swift_dynamicCast_dispatch;
         apply _dynamicCastToExistential_Any; assumption).
  destruct (@_dynamicCastToExistential_Any a v (MOptional srcType) e
              (flags_minus flags
                 (flags_or Flags.Unconditional Flags.DestroyOnFailure))
              Hrep Hps Hdyn)
    as (a' & taken & rest & -> & Htaken).
  rewrite bind_returns. simpl. rewrite app_nil_r.
  exists a', taken, rest. split; [reflexivity |].
  intros E. specialize (Htaken E).
  change (checkCastFlags flags &? Flags.TakeOnSuccess = true) in Htaken.
  rewrite checkCastFlags_TakeOnSuccess in Htaken. exact Htaken.
Qed.

End Public_casts.

(** * The dynamic value *)

Lemma findDynamicValueAndType__fixpoint (v : Value) :
  forall a type canTake t p ty c,
    findDynamicValueAndType_ a v type canTake = (t, Returns (p, ty, c)) ->
    getKind ty <> MetadataKind.Existential /\
    findDynamicValueAndType_ (address p) (pointee p) ty c
    = ([], Returns (p, ty, c)).
Proof.
  induction v as [bits | o | m | | payload IHv | Value_ IHv ws
                  | Type_ box payload IHv ws | box Type_ w payload IHv
                  | m ws];
    intros a type canTake t p ty c E;
    rewrite findDynamicValueAndType__eq in E;
    destruct type; simpl in E;
    try discriminate E;
    try (inversion E; subst; split; [discriminate | reflexivity]);
    try (destruct (getRepresentation e); try discriminate E;
         try (eapply IHv; exact E)).
  all: destruct Value_; try discriminate E; simpl in E; inversion E; subst.
  all: try (split; [discriminate | reflexivity]).
  destruct Value_; try discriminate E. simpl in E. inversion E; subst.
  split; [discriminate | reflexivity].
Qed.

Lemma findDynamicValueAndType__any_canTake (v : Value) :
  forall a type canTake t p ty c canTake',
    findDynamicValueAndType_ a v type canTake = (t, Returns (p, ty, c)) ->
    exists c',
      findDynamicValueAndType_ a v type canTake' = (t, Returns (p, ty, c')).
Proof.
  induction v as [bits | o | m | | payload IHv | Value_ IHv ws
                  | Type_ box payload IHv ws | box Type_ w payload IHv
                  | m ws];
    intros a type canTake t p ty c canTake' E;
    rewrite findDynamicValueAndType__eq in E |- *;
    destruct type; simpl in E |- *;
    try discriminate E;
    try (inversion E; subst; eexists; reflexivity);
    try (destruct (getRepresentation e); try discriminate E;
         try (eapply IHv; exact E)).
  all: destruct Value_; try discriminate E; simpl in E |- *;
    try (inversion E; subst; eexists; reflexivity).
  destruct Value_; try discriminate E. simpl in E |- *.
  inversion E; subst. eexists; reflexivity.
Qed.

(** X9.  The dynamic type [findDynamicValueAndType] finds is never an
    existential type, and the dynamic value is its own dynamic value:
    searching again from what was found finds the same value, the same
    type and the same takability, and [swift_getDynamicType] of what was
    found is the type that was found. *)
Theorem dynamic_value_is_not_existential
  (value : OpaqueValue) (type : Metadata) (canTake : bool)
  (events : list Event) (outValue : OpaqueValue) (outType : Metadata)
  (outCanTake : bool) :
  findDynamicValueAndType value type canTake
    = (events, Returns (outValue, outType, outCanTake)) ->
  getKind outType <> MetadataKind.Existential /\
  findDynamicValueAndType outValue outType outCanTake
  = ret (outValue, outType, outCanTake) /\
  swift_getDynamicType outValue outType = ret outType.
Proof.
  unfold findDynamicValueAndType, swift_getDynamicType. intros E.
  destruct (findDynamicValueAndType__fixpoint _ _ _ _ E) as [K F].
  split; [exact K |]. split; [exact F |].
  unfold findDynamicValueAndType.
  destruct (@findDynamicValueAndType__any_canTake _ _ _ _ _ _ _ _ false F)
    as [c' ->].
  reflexivity.
Qed.

(** * Conformance *)

Section Conformance.
Variable conforms : Metadata -> ProtocolDescriptor -> option WitnessTable.

Lemma _conformsToProtocol_decides value type p conformance :
  getKind type <> MetadataKind.ForeignClass ->
  exists t r,
    _conformsToProtocol conforms value type p conformance = (t, Returns r) /\
    is_some r = conforms_to conforms type p.
Proof.
  intros Hk. unfold _conformsToProtocol, conforms_to.
  destruct (SpecialProtocol.eqb _ _).
  - destruct type; try (eexists; eexists; split; reflexivity).
    destruct (isClassBounded e); eexists; eexists; split; reflexivity.
  - destruct (needsWitnessTable (protocol_Flags p)).
    + destruct (conforms type p) as [w |];
        [| eexists; eexists; split; reflexivity].
      destruct conformance; eexists; eexists; split; reflexivity.
    + destruct type; try (eexists; eexists; split; reflexivity).
      exfalso; apply Hk; reflexivity.
Qed.

Lemma decides__conformsToProtocols
  (value : option OpaqueValue) (type : Metadata)
  (protocols : list ProtocolDescriptor) (conformances : WitnessTables) :
  getKind type <> MetadataKind.ForeignClass ->
  exists t r,
    _conformsToProtocols conforms value type protocols conformances
    = (t, Returns r) /\
    is_some r = forallb (conforms_to conforms type) protocols.
Proof.
  intros Hk. revert conformances.
  induction protocols as [| p ps IH]; intros conformances; simpl.
  - eexists; eexists; split; reflexivity.
  - destruct (@_conformsToProtocol_decides value type p conformances Hk)
      as (t & r & -> & Hr).
    rewrite bind_returns, <- Hr.
    destruct r as [stored |]; [| eexists; eexists; split; reflexivity].
    destruct (IH (if needsWitnessTable (protocol_Flags p)
                  then next_conformance conformances else conformances))
      as (t' & r' & -> & Hr').
    rewrite bind_returns, <- Hr'.
    destruct r'; simpl; eexists; eexists; split; reflexivity.
Qed.

(** X10.  For a type that is not a foreign class, [_conformsToProtocols]
    always returns, and says yes exactly when the type conforms to every
    protocol of the list: [AnyObject] for the class kinds and the
    class-bounded existentials, a witness table from the conformance
    oracle for a protocol that needs one, and no conformance to any other
    protocol. *)
Theorem _conformsToProtocols_decides
  (value : option OpaqueValue) (type : Metadata)
  (protocols : list ProtocolDescriptor) (conformances : WitnessTables) :
  getKind type <> MetadataKind.ForeignClass ->
  exists t r,
    _conformsToProtocols conforms value type protocols conformances
    = (t, Returns r) /\
    is_some r = forallb (conforms_to conforms type) protocols.
Proof.
  intros Hk.
  destruct (@decides__conformsToProtocols value type protocols conformances
              Hk) as (t & r & E & Hr).
  exists t, r. split; assumption.
Qed.

Lemma stores_from_cons i w ws :
  stores_from i (w :: ws) = store_witness i w :: stores_from (S i) ws.
Proof. reflexivity. Qed.

(** X11.  When no [AnyObject] protocol asks for a witness table, the
    witness tables [_conformsToProtocols] finds are those the oracle gives
    for the protocols that need one, in the order of the protocols, and
    they are stored into consecutive slots of the destination, from the
    slot it was given on. *)
Theorem witness_tables_fill_consecutive_slots
  (value : option OpaqueValue) (type : Metadata)
  (protocols : list ProtocolDescriptor) (index : nat)
  (events : list Event) (tables : list WitnessTable) :
  forallb (fun p => negb (is_AnyObject p && needs_table p)) protocols = true ->
  _conformsToProtocols conforms value type protocols (dest_witnesses index)
    = (events, Returns (Some tables)) ->
  map Some tables = map (conforms type) (filter needs_table protocols) /\
  events = stores_from index tables.
Proof.
  revert index events tables.
  induction protocols as [| p ps IH]; intros index events tables Hany E;
    simpl in E.
  - inversion E; subst. split; reflexivity.
  - simpl in Hany. apply andb_prop in Hany. destruct Hany as [Hp Hps].
    apply bind_inv in E as (t1 & r & t2 & E1 & E2 & ->).
    destruct r as [stored |]; [| discriminate E2].
    apply bind_inv in E2 as (t3 & rs & t4 & E3 & E4 & ->).
    destruct rs as [ws |]; [| discriminate E4].
    inversion E4; subst. rewrite app_nil_r.
    unfold _conformsToProtocol in E1. unfold is_AnyObject, needs_table in Hp.
    simpl. unfold needs_table at 1.
    destruct (SpecialProtocol.eqb _ _).
    + destruct (needsWitnessTable (protocol_Flags p)); [discriminate Hp |].
      destruct (IH _ _ _ Hps E3) as [Hws ->].
      assert (stored = None /\ t1 = []) as [-> ->].
      { destruct type; try discriminate E1;
          try (inversion E1; auto).
        destruct (isClassBounded e); inversion H0; auto. }
      split; [exact Hws | reflexivity].
    + destruct (needsWitnessTable (protocol_Flags p)).
      * destruct (conforms type p) as [w |] eqn:Ew; [| discriminate E1].
        simpl in E1. inversion E1; subst.
        destruct (IH _ _ _ Hps E3) as [Hws ->].
        simpl. rewrite Hws, Ew. split; reflexivity.
      * destruct (IH _ _ _ Hps E3) as [Hws ->].
        destruct type; discriminate E1.
Qed.

End Conformance.

(** * Casts that copy *)

Lemma has_flag_minus_false (f g X : DynamicCastFlags) :
  f &? X = false -> flags_minus f g &? X = false.
Proof.
  unfold has_flag, flags_minus. intros H.
  apply negb_false_iff, Z.eqb_eq in H.
  apply negb_false_iff, Z.eqb_eq.
  apply Z.bits_inj'. intros n Hn.
  apply (f_equal (fun z => Z.testbit z n)) in H.
  rewrite Z.land_spec, Z.bits_0 in H.
  rewrite Z.land_spec, Z.ldiff_spec, Z.bits_0.
  destruct (Z.testbit f n), (Z.testbit X n), (Z.testbit g n);
    try reflexivity; discriminate H.
Qed.

Lemma source_kept_app t1 t2 :
  source_kept (t1 ++ t2) = source_kept t1 && source_kept t2.
Proof. apply forallb_app. Qed.

#[export] Hint Resolve has_flag_minus_false : post_db.

Ltac use_flags :=
  repeat match goal with
         | Hf : ?f &? ?X = false, H : context [?f &? ?X] |- _ =>
             tryif constr_eq H Hf then fail else rewrite Hf in H
         end;
  rewrite ?andb_false_r in *.

Ltac kept_finish :=
  tidy_hyps; try discriminate; try congruence;
  use_flags; try discriminate;
  repeat match goal with
         | H : shouldDeallocateSource _ _ = true |- _ =>
             rewrite shouldDeallocateSource_absent in H by assumption;
             discriminate H
         | H : ?x = ?x -> _ |- _ => specialize (H eq_refl)
         end;
  repeat rewrite source_kept_app;
  repeat match goal with
         | H : source_kept ?t = true |- _ => rewrite H
         | H : _ &? _ = false |- _ => rewrite H
         end;
  rewrite ?andb_false_r;
  repeat match goal with
         | |- context [if ?b then _ else _] => destruct b
         end;
  try reflexivity; try discriminate; try congruence; auto.

Ltac kept := post_steps; kept_finish.

Section Copying_casts.
Variable conforms : Metadata -> ProtocolDescriptor -> option WitnessTable.
Variable foreign : Metadata -> Metadata -> bool.

Lemma kept_store_conformance c w :
  post (store_conformance c w) (fun t _ => source_kept t = true).
Proof. destruct c; intros t a E; inversion E; reflexivity. Qed.
Hint Resolve kept_store_conformance : post_db.

Lemma kept__conformsToProtocol value type protocol conformance :
  post (_conformsToProtocol conforms value type protocol conformance)
       (fun t _ => source_kept t = true).
Proof. unfold _conformsToProtocol. kept. Qed.
Hint Resolve kept__conformsToProtocol : post_db.

Lemma kept__conformsToProtocols value type protocols :
  forall conformances,
  post (_conformsToProtocols conforms value type protocols conformances)
       (fun t _ => source_kept t = true).
Proof.
  induction protocols; intros; cbn [_conformsToProtocols]; kept.
Qed.
Hint Resolve kept__conformsToProtocols : post_db.

Hint Resolve silent_findDynamicValueAndType : post_db.

Lemma kept__dynamicCastToExistential src srcType e flags :
  flags &? Flags.TakeOnSuccess = false ->
  flags &? Flags.DestroyOnFailure = false ->
  post (_dynamicCastToExistential conforms src srcType e flags)
       (fun t _ => source_kept t = true).
Proof.
  intros Ht Hd.
  assert (D : forall v ty,
            post (deallocateDynamicValue v ty) (fun _ _ => True))
    by (intros v ty t a _; exact I).
  unfold _dynamicCastToExistential. kept.
Qed.
Hint Resolve kept__dynamicCastToExistential : post_db.

Lemma kept__dynamicCastUnknownClassIndirect object targetType flags :
  flags &? Flags.TakeOnSuccess = false ->
  flags &? Flags.DestroyOnFailure = false ->
  post (_dynamicCastUnknownClassIndirect object targetType flags)
       (fun t _ => source_kept t = true).
Proof. intros Ht Hd. unfold _dynamicCastUnknownClassIndirect. kept. Qed.

Lemma kept__dynamicCastMetatypeToMetatype metatype instanceType flags :
  post (_dynamicCastMetatypeToMetatype foreign metatype instanceType flags)
       (fun t _ => source_kept t = true).
Proof. unfold _dynamicCastMetatypeToMetatype. kept. Qed.

Lemma kept__dynamicCastUnknownClassToMetatype object instanceType flags :
  flags &? Flags.TakeOnSuccess = false ->
  flags &? Flags.DestroyOnFailure = false ->
  post (_dynamicCastUnknownClassToMetatype foreign object instanceType flags)
       (fun t _ => source_kept t = true).
Proof.
  intros Ht Hd.
  unfold _dynamicCastUnknownClassToMetatype, _getUnknownClassAsMetatype.
  kept.
Qed.

Hint Resolve kept__dynamicCastUnknownClassIndirect
  kept__dynamicCastMetatypeToMetatype
  kept__dynamicCastUnknownClassToMetatype : post_db.

Lemma kept__maybeDeallocateOpaqueExistential src result flags :
  flags &? Flags.TakeOnSuccess = false ->
  flags &? Flags.DestroyOnFailure = false ->
  post (_maybeDeallocateOpaqueExistential src result flags)
       (fun t _ => source_kept t = true).
Proof.
  intros Ht Hd.
  rewrite _maybeDeallocateOpaqueExistential_absent by assumption.
  apply post_ret. reflexivity.
Qed.
Hint Resolve kept__maybeDeallocateOpaqueExistential : post_db.

Lemma kept__dynamicCastToMetatype v :
  forall a srcType instanceType flags,
  flags &? Flags.TakeOnSuccess = false ->
  flags &? Flags.DestroyOnFailure = false ->
  post (_dynamicCastToMetatype_ foreign a v srcType instanceType flags)
       (fun t _ => source_kept t = true).
Proof.
  induction v as [v IH] using (induction_ltof1 _ size_value); intros.
  rewrite _dynamicCastToMetatype__eq. kept.
Qed.

Lemma kept_conformsToAll srcMetatype targetType flags protocols :
  forall conformance,
  post (conformsToAll conforms srcMetatype targetType flags protocols
          conformance)
       (fun t _ => source_kept t = true).
Proof.
  induction protocols; intros; cbn [conformsToAll]; kept.
Qed.
Hint Resolve kept_conformsToAll : post_db.

Lemma kept__dynamicCastMetatypeToExistentialMetatype instanceType :
  forall srcMetatype flags writeDestMetatype,
  post (_dynamicCastMetatypeToExistentialMetatype conforms srcMetatype
          instanceType flags writeDestMetatype)
       (fun t _ => source_kept t = true).
Proof.
  induction instanceType; intros;
    rewrite _dynamicCastMetatypeToExistentialMetatype_eq; kept.
Qed.

Lemma kept__dynamicCastUnknownClassToExistentialMetatype object instanceType
  flags :
  flags &? Flags.TakeOnSuccess = false ->
  flags &? Flags.DestroyOnFailure = false ->
  post (_dynamicCastUnknownClassToExistentialMetatype conforms object
          instanceType flags)
       (fun t _ => source_kept t = true).
Proof.
  intros Ht Hd.
  unfold _dynamicCastUnknownClassToExistentialMetatype,
    _getUnknownClassAsMetatype.
  kept.
Qed.

Hint Resolve kept__dynamicCastToMetatype
  kept__dynamicCastMetatypeToExistentialMetatype
  kept__dynamicCastUnknownClassToExistentialMetatype : post_db.

Lemma kept__dynamicCastToExistentialMetatype v :
  forall a srcType instanceType flags,
  flags &? Flags.TakeOnSuccess = false ->
  flags &? Flags.DestroyOnFailure = false ->
  post (_dynamicCastToExistentialMetatype_ conforms a v srcType instanceType
          flags)
       (fun t _ => source_kept t = true).
Proof.
  induction v as [v IH] using (induction_ltof1 _ size_value); intros.
  rewrite _dynamicCastToExistentialMetatype__eq. kept.
Qed.
Hint Resolve kept__dynamicCastToExistentialMetatype : post_db.

Lemma kept__dynamicCastFromExistential cast_payload a v e T flags :
  payload_casts_keep cast_payload v ->
  flags &? Flags.TakeOnSuccess = false ->
  flags &? Flags.DestroyOnFailure = false ->
  post (_dynamicCastFromExistential cast_payload a v e T flags)
       (fun t _ => source_kept t = true).
Proof.
  unfold payload_casts_keep.
  intros Hcp Ht Hd. unfold _dynamicCastFromExistential. kept.
Qed.

Lemma kept__dynamicCastToUnknownClassFromExistential cast_payload a v e T
  flags :
  payload_casts_keep cast_payload v ->
  flags &? Flags.TakeOnSuccess = false ->
  flags &? Flags.DestroyOnFailure = false ->
  post (_dynamicCastToUnknownClassFromExistential cast_payload a v e T flags)
       (fun t _ => source_kept t = true).
Proof.
  unfold payload_casts_keep.
  intros Hcp Ht Hd. unfold _dynamicCastToUnknownClassFromExistential. kept.
Qed.

Lemma kept__dynamicCastToFunction cast_payload a v s tf ta tr flags :
  payload_casts_keep cast_payload v ->
  flags &? Flags.TakeOnSuccess = false ->
  flags &? Flags.DestroyOnFailure = false ->
  post (_dynamicCastToFunction cast_payload a v s tf ta tr flags)
       (fun t _ => source_kept t = true).
Proof.
  intros Hcp Ht Hd.
  pose proof (fun a e T =>
                @kept__dynamicCastFromExistential _ a v e T flags Hcp Ht Hd)
    as HF.
  pose proof silent_arguments_differ as HA.
  unfold _dynamicCastToFunction. kept.
Qed.

Lemma kept_dispatch cast_payload cast_into T a v s flags :
  payload_casts_keep cast_payload v ->
  (forall T' a' v' s' f',
     T = MOptional T' ->
     f' &? Flags.TakeOnSuccess = false ->
     f' &? Flags.DestroyOnFailure = false ->
     post (cast_into T' a' v' s' f') (fun t _ => source_kept t = true)) ->
  flags &? Flags.TakeOnSuccess = false ->
  flags &? Flags.DestroyOnFailure = false ->
  post (swift_dynamicCast_dispatch conforms foreign cast_payload cast_into
          T a v s flags)
       (fun t _ => source_kept t = true).
Proof.
  intros Hcp Hci Ht Hd.
  pose proof (fun a e T =>
                @kept__dynamicCastFromExistential _ a v e T flags Hcp Ht Hd)
    as HF.
  pose proof (fun a e T =>
                @kept__dynamicCastToUnknownClassFromExistential
                  _ a v e T flags Hcp Ht Hd) as HC.
  pose proof (fun a s tf ta tr =>
                @kept__dynamicCastToFunction _ a v s tf ta tr flags Hcp Ht Hd)
    as HFn.
  unfold swift_dynamicCast_dispatch, _dynamicCastToMetatype,
    _dynamicCastToExistentialMetatype.
  destruct T; try specialize (Hci _ a v s flags eq_refl Ht Hd); kept.
Qed.

Lemma kept_checkDynamicCastFromOptional a v s T flags dispatch :
  (forall x ty,
     size_value x <= size_value v ->
     post (dispatch x ty) (fun t _ => source_kept t = true)) ->
  flags &? Flags.TakeOnSuccess = false ->
  flags &? Flags.DestroyOnFailure = false ->
  post (checkDynamicCastFromOptional conforms a v s T flags dispatch)
       (fun t _ => source_kept t = true).
Proof.
  intros Hdisp Ht Hd.
  unfold checkDynamicCastFromOptional. kept.
Qed.

Lemma copying_cast_keeps_source T a v s flags :
  flags &? Flags.TakeOnSuccess = false ->
  flags &? Flags.DestroyOnFailure = false ->
  post (cast conforms foreign T a v s flags)
       (fun t _ => source_kept t = true).
Proof.
  revert T a v s flags.
  apply (engine_induction
           (fun T a v s f =>
              f &? Flags.TakeOnSuccess = false ->
              f &? Flags.DestroyOnFailure = false ->
              post (cast conforms foreign T a v s f)
                   (fun t _ => source_kept t = true))).
  intros T a v s f IHT IHv Ht Hd. rewrite cast_eq.
  apply kept_checkDynamicCastFromOptional; auto.
  intros x ty Hx. apply kept_dispatch; auto.
  intros a' v' s' f' Hlt. apply IHv. lia.
Qed.


End Copying_casts.

(** * A cast that succeeds has stored a value *)

Lemma post_True {A} (m : Effect A) : post m (fun _ _ => True).
Proof. intros t a _. exact I. Qed.

Lemma value_stored_app t1 t2 :
  value_stored (t1 ++ t2) = value_stored t1 || value_stored t2.
Proof. apply existsb_app. Qed.

Ltac stored_finish :=
  unfold succeeds_with_value in *;
  tidy_hyps; try discriminate; try congruence;
  repeat match goal with
         | H : ?x = ?x -> _ |- _ => specialize (H eq_refl)
         end;
  repeat rewrite value_stored_app;
  repeat match goal with
         | H : value_stored ?t = true |- _ => rewrite H
         end;
  rewrite ?orb_true_r;
  repeat match goal with
         | |- context [if ?b then _ else _] => destruct b
         end;
  simpl; rewrite ?orb_true_r;
  try reflexivity; try discriminate; try congruence; auto.

Ltac stored := post_steps; stored_finish.

Section Successful_casts.
Variable conforms : Metadata -> ProtocolDescriptor -> option WitnessTable.
Variable foreign : Metadata -> Metadata -> bool.

Lemma returns__conformsToProtocols value type protocols conformances :
  post (_conformsToProtocols conforms value type protocols conformances)
       (fun _ _ => True).
Proof. apply post_True. Qed.

Lemma returns_conformsToAll srcMetatype targetType flags protocols
  conformance :
  post (conformsToAll conforms srcMetatype targetType flags protocols
          conformance)
       (fun _ _ => True).
Proof. apply post_True. Qed.

Lemma returns_deallocateDynamicValue v ty :
  post (deallocateDynamicValue v ty) (fun _ _ => True).
Proof. apply post_True. Qed.

Lemma returns__maybeDeallocateOpaqueExistential src result flags :
  post (_maybeDeallocateOpaqueExistential src result flags)
       (fun _ _ => True).
Proof. apply post_True. Qed.

Lemma returns__dynamicCastMetatypeToExistentialMetatype srcMetatype
  instanceType flags :
  post (_dynamicCastMetatypeToExistentialMetatype conforms srcMetatype
          instanceType flags false)
       (fun _ _ => True).
Proof. apply post_True. Qed.

Hint Resolve returns__conformsToProtocols returns_conformsToAll
  returns_deallocateDynamicValue returns__maybeDeallocateOpaqueExistential
  returns__dynamicCastMetatypeToExistentialMetatype
  silent_findDynamicValueAndType silent_arguments_differ : post_db.

Lemma stored__dynamicCastToExistential src srcType e flags :
  post (_dynamicCastToExistential conforms src srcType e flags)
       succeeds_with_value.
Proof. unfold _dynamicCastToExistential. stored. Qed.

Lemma stored__dynamicCastUnknownClassIndirect object targetType flags :
  post (_dynamicCastUnknownClassIndirect object targetType flags)
       succeeds_with_value.
Proof. unfold _dynamicCastUnknownClassIndirect. stored. Qed.

Lemma stored__dynamicCastMetatypeToMetatype metatype instanceType flags :
  post (_dynamicCastMetatypeToMetatype foreign metatype instanceType flags)
       succeeds_with_value.
Proof. unfold _dynamicCastMetatypeToMetatype. stored. Qed.

Lemma stored__dynamicCastUnknownClassToMetatype object instanceType flags :
  post (_dynamicCastUnknownClassToMetatype foreign object instanceType flags)
       succeeds_with_value.
Proof.
  unfold _dynamicCastUnknownClassToMetatype, _getUnknownClassAsMetatype.
  stored.
Qed.

Hint Resolve stored__dynamicCastToExistential
  stored__dynamicCastUnknownClassIndirect
  stored__dynamicCastMetatypeToMetatype
  stored__dynamicCastUnknownClassToMetatype | 1 : post_db.

Lemma stored__dynamicCastToMetatype v :
  forall a srcType instanceType flags,
  post (_dynamicCastToMetatype_ foreign a v srcType instanceType flags)
       succeeds_with_value.
Proof.
  induction v as [v IH] using (induction_ltof1 _ size_value); intros.
  rewrite _dynamicCastToMetatype__eq. stored.
Qed.

Lemma stored__dynamicCastMetatypeToExistentialMetatype instanceType
  srcMetatype flags :
  post (_dynamicCastMetatypeToExistentialMetatype conforms srcMetatype
          instanceType flags true)
       succeeds_with_value.
Proof.
  rewrite _dynamicCastMetatypeToExistentialMetatype_eq.
  destruct instanceType; stored.
Qed.

Lemma stored__dynamicCastUnknownClassToExistentialMetatype object instanceType
  flags :
  post (_dynamicCastUnknownClassToExistentialMetatype conforms object
          instanceType flags)
       succeeds_with_value.
Proof.
  unfold _dynamicCastUnknownClassToExistentialMetatype,
    _getUnknownClassAsMetatype.
  stored.
Qed.

Hint Resolve stored__dynamicCastToMetatype
  stored__dynamicCastMetatypeToExistentialMetatype
  stored__dynamicCastUnknownClassToExistentialMetatype | 1 : post_db.

Lemma stored__dynamicCastToExistentialMetatype v :
  forall a srcType instanceType flags,
  post (_dynamicCastToExistentialMetatype_ conforms a v srcType instanceType
          flags)
       succeeds_with_value.
Proof.
  induction v as [v IH] using (induction_ltof1 _ size_value); intros.
  rewrite _dynamicCastToExistentialMetatype__eq. stored.
Qed.
Hint Resolve stored__dynamicCastToExistentialMetatype | 1 : post_db.

Lemma stored__dynamicCastFromExistential cast_payload a v e T flags :
  payload_casts_post cast_payload v succeeds_with_value ->
  post (_dynamicCastFromExistential cast_payload a v e T flags)
       succeeds_with_value.
Proof.
  unfold payload_casts_post.
  intros Hcp. unfold _dynamicCastFromExistential. stored.
Qed.

Lemma stored__dynamicCastToUnknownClassFromExistential cast_payload a v e T
  flags :
  payload_casts_post cast_payload v succeeds_with_value ->
  post (_dynamicCastToUnknownClassFromExistential cast_payload a v e T flags)
       succeeds_with_value.
Proof.
  unfold payload_casts_post.
  intros Hcp. unfold _dynamicCastToUnknownClassFromExistential. stored.
Qed.

Lemma stored__dynamicCastToFunction cast_payload a v s tf ta tr flags :
  payload_casts_post cast_payload v succeeds_with_value ->
  post (_dynamicCastToFunction cast_payload a v s tf ta tr flags)
       succeeds_with_value.
Proof.
  intros Hcp.
  pose proof (fun a e T f =>
                @stored__dynamicCastFromExistential _ a v e T f Hcp) as HF.
  unfold _dynamicCastToFunction. stored.
Qed.

Lemma stored_dispatch cast_payload cast_into T a v s flags :
  payload_casts_post cast_payload v succeeds_with_value ->
  (forall T' a' v' s' f',
     T = MOptional T' -> post (cast_into T' a' v' s' f') succeeds_with_value) ->
  post (swift_dynamicCast_dispatch conforms foreign cast_payload cast_into
          T a v s flags)
       succeeds_with_value.
Proof.
  intros Hcp Hci.
  pose proof (fun a e T f =>
                @stored__dynamicCastFromExistential _ a v e T f Hcp) as HF.
  pose proof (fun a e T f =>
                @stored__dynamicCastToUnknownClassFromExistential
                  _ a v e T f Hcp) as HC.
  pose proof (fun a s tf ta tr f =>
                @stored__dynamicCastToFunction _ a v s tf ta tr f Hcp) as HFn.
  unfold swift_dynamicCast_dispatch, _dynamicCastToMetatype,
    _dynamicCastToExistentialMetatype.
  destruct T; try specialize (Hci _ a v s flags eq_refl); stored.
Qed.

Lemma stored_checkDynamicCastFromOptional a v s T flags dispatch :
  (forall x ty,
     size_value x <= size_value v ->
     post (dispatch x ty) succeeds_with_value) ->
  post (checkDynamicCastFromOptional conforms a v s T flags dispatch)
       succeeds_with_value.
Proof.
  intros Hd. unfold checkDynamicCastFromOptional. stored.
Qed.

Lemma successful_cast_stores_value T a v s flags :
  post (cast conforms foreign T a v s flags) succeeds_with_value.
Proof.
  revert T a v s flags.
  apply (engine_induction
           (fun T a v s f =>
              post (cast conforms foreign T a v s f) succeeds_with_value)).
  intros T a v s f IHT IHv. rewrite cast_eq.
  apply stored_checkDynamicCastFromOptional. intros x ty Hx.
  apply stored_dispatch; auto.
  intros a' v' s' f' Hlt. apply IHv. lia.
Qed.

(** X13.  A cast that answers true has put a value into [dest]: the
    source copied or taken, a reference, a metatype or an error box; never
    only witness tables, a dynamic type or an enum tag. *)
Theorem successful_cast_has_stored_a_value
  (src : OpaqueValue) (srcType targetType : Metadata)
  (flags : DynamicCastFlags) (events : list Event) :
  swift_dynamicCast conforms foreign src srcType targetType flags
    = (events, Returns true) ->
  value_stored events = true.
Proof.
  destruct src as [a v]. intros E.
  exact (@successful_cast_stores_value targetType a v srcType flags events
           true E eq_refl).
Qed.

End Successful_casts.

(** * Conditional casts do not end in a cast failure *)

#[export] Hint Resolve has_flag_minus_false : ncf.
#[export] Hint Extern 1 (size_value _ < size_value _) => simpl; lia : ncf.
#[export] Hint Extern 1 (size_value _ <= size_value _) => simpl; lia : ncf.
#[export] Hint Extern 1 (ltof _ size_value _ _) => unfold ltof; simpl; lia
  : ncf.

Ltac ncf_conditional :=
  repeat (cbn [negb andb orb]; ncf_step; try congruence);
  cbn [negb andb orb]; cbv beta iota zeta; eauto with ncf.

Section Conditional_casts.
Variable conforms : Metadata -> ProtocolDescriptor -> option WitnessTable.
Variable foreign : Metadata -> Metadata -> bool.

Hint Resolve ncf_findDynamicValueAndType ncf_deallocateDynamicValue
  ncf_store_conformance ncf__conformsToProtocol ncf__conformsToProtocols
  ncf__dynamicCastToExistential : ncf.

Lemma ncf__maybeDeallocateOpaqueExistential src result flags :
  no_cast_failure (_maybeDeallocateOpaqueExistential src result flags).
Proof.
  unfold _maybeDeallocateOpaqueExistential, load_container_Type.
  ncf_conditional.
Qed.
Hint Resolve ncf__maybeDeallocateOpaqueExistential : ncf.

Lemma ncf_swift_dynamicCastUnknownClass object targetType :
  no_cast_failure (swift_dynamicCastUnknownClass object targetType).
Proof. destruct targetType; simpl; auto with ncf. Qed.
Hint Resolve ncf_swift_dynamicCastUnknownClass : ncf.

Lemma ncf__dynamicCastUnknownClassIndirect object targetType flags :
  flags &? Flags.Unconditional = false ->
  no_cast_failure (_dynamicCastUnknownClassIndirect object targetType flags).
Proof.
  intros H. unfold _dynamicCastUnknownClassIndirect. ncf_conditional.
Qed.

Lemma ncf__dynamicCastMetatypeToMetatype metatype instanceType flags :
  flags &? Flags.Unconditional = false ->
  no_cast_failure
    (_dynamicCastMetatypeToMetatype foreign metatype instanceType flags).
Proof.
  intros H. unfold _dynamicCastMetatypeToMetatype. ncf_conditional.
Qed.

Lemma ncf__dynamicCastUnknownClassToMetatype object instanceType flags :
  flags &? Flags.Unconditional = false ->
  no_cast_failure
    (_dynamicCastUnknownClassToMetatype foreign object instanceType flags).
Proof.
  intros H.
  unfold _dynamicCastUnknownClassToMetatype, _getUnknownClassAsMetatype.
  ncf_conditional.
Qed.

Hint Resolve ncf__dynamicCastUnknownClassIndirect
  ncf__dynamicCastMetatypeToMetatype
  ncf__dynamicCastUnknownClassToMetatype : ncf.

Lemma ncf__dynamicCastToMetatype v :
  forall a srcType instanceType flags,
  flags &? Flags.Unconditional = false ->
  no_cast_failure
    (_dynamicCastToMetatype_ foreign a v srcType instanceType flags).
Proof.
  induction v as [v IH] using (induction_ltof1 _ size_value); intros.
  rewrite _dynamicCastToMetatype__eq. ncf_conditional.
Qed.

Lemma ncf_conformsToAll srcMetatype targetType flags protocols :
  flags &? Flags.Unconditional = false ->
  forall conformance,
  no_cast_failure
    (conformsToAll conforms srcMetatype targetType flags protocols
       conformance).
Proof.
  intros H. induction protocols; intros; cbn [conformsToAll];
    ncf_conditional.
Qed.
Hint Resolve ncf_conformsToAll : ncf.

Lemma ncf__dynamicCastMetatypeToExistentialMetatype instanceType :
  forall srcMetatype flags writeDestMetatype,
  flags &? Flags.Unconditional = false ->
  no_cast_failure
    (_dynamicCastMetatypeToExistentialMetatype conforms srcMetatype
       instanceType flags writeDestMetatype).
Proof.
  induction instanceType; intros;
    rewrite _dynamicCastMetatypeToExistentialMetatype_eq; ncf_conditional.
Qed.

Lemma ncf__dynamicCastUnknownClassToExistentialMetatype object instanceType
  flags :
  flags &? Flags.Unconditional = false ->
  no_cast_failure
    (_dynamicCastUnknownClassToExistentialMetatype conforms object
       instanceType flags).
Proof.
  intros H.
  unfold _dynamicCastUnknownClassToExistentialMetatype,
    _getUnknownClassAsMetatype.
  ncf_conditional.
Qed.

Hint Resolve ncf__dynamicCastToMetatype
  ncf__dynamicCastMetatypeToExistentialMetatype
  ncf__dynamicCastUnknownClassToExistentialMetatype : ncf.

Lemma ncf__dynamicCastToExistentialMetatype v :
  forall a srcType instanceType flags,
  flags &? Flags.Unconditional = false ->
  no_cast_failure
    (_dynamicCastToExistentialMetatype_ conforms a v srcType instanceType
       flags).
Proof.
  induction v as [v IH] using (induction_ltof1 _ size_value); intros.
  rewrite _dynamicCastToExistentialMetatype__eq. ncf_conditional.
Qed.
Hint Resolve ncf__dynamicCastToExistentialMetatype : ncf.

Lemma ncf__dynamicCastFromExistential cast_payload a v e T flags :
  payload_casts_return cast_payload v ->
  flags &? Flags.Unconditional = false ->
  no_cast_failure
    (_dynamicCastFromExistential cast_payload a v e T flags).
Proof.
  unfold payload_casts_return. intros Hcp H.
  unfold _dynamicCastFromExistential. ncf_conditional.
Qed.

Lemma ncf__dynamicCastToUnknownClassFromExistential cast_payload a v e T
  flags :
  payload_casts_return cast_payload v ->
  flags &? Flags.Unconditional = false ->
  no_cast_failure
    (_dynamicCastToUnknownClassFromExistential cast_payload a v e T flags).
Proof.
  unfold payload_casts_return. intros Hcp H.
  unfold _dynamicCastToUnknownClassFromExistential. ncf_conditional.
Qed.

Lemma ncf_arguments_differ n :
  forall xs ys, no_cast_failure (arguments_differ n xs ys).
Proof. induction n; intros; cbn [arguments_differ]; ncf_conditional. Qed.
Hint Resolve ncf_arguments_differ : ncf.

Lemma ncf__succeed src srcType flags :
  no_cast_failure (_succeed src srcType flags).
Proof. unfold _succeed. ncf_conditional. Qed.
Hint Resolve ncf__succeed : ncf.

Lemma ncf__dynamicCastToFunction cast_payload a v s tf ta tr flags :
  payload_casts_return cast_payload v ->
  flags &? Flags.Unconditional = false ->
  no_cast_failure
    (_dynamicCastToFunction cast_payload a v s tf ta tr flags).
Proof.
  intros Hcp H.
  pose proof (fun a e T =>
                @ncf__dynamicCastFromExistential _ a v e T flags Hcp H) as HF.
  unfold _dynamicCastToFunction. ncf_conditional.
Qed.

Lemma ncf_dispatch cast_payload cast_into T a v s flags :
  payload_casts_return cast_payload v ->
  (forall T' a' v' s' f',
     T = MOptional T' ->
     f' &? Flags.Unconditional = false ->
     no_cast_failure (cast_into T' a' v' s' f')) ->
  flags &? Flags.Unconditional = false ->
  no_cast_failure
    (swift_dynamicCast_dispatch conforms foreign cast_payload cast_into
       T a v s flags).
Proof.
  intros Hcp Hci H.
  pose proof (fun a e T =>
                @ncf__dynamicCastFromExistential _ a v e T flags Hcp H) as HF.
  pose proof (fun a e T =>
                @ncf__dynamicCastToUnknownClassFromExistential
                  _ a v e T flags Hcp H) as HC.
  pose proof (fun a s tf ta tr =>
                @ncf__dynamicCastToFunction _ a v s tf ta tr flags Hcp H)
    as HFn.
  unfold swift_dynamicCast_dispatch, _dynamicCastToMetatype,
    _dynamicCastToExistentialMetatype.
  destruct T; try specialize (Hci _ a v s flags eq_refl H); ncf_conditional.
Qed.

Lemma ncf_checkDynamicCastFromOptional a v s T flags dispatch :
  (forall x ty,
     size_value x <= size_value v -> no_cast_failure (dispatch x ty)) ->
  flags &? Flags.Unconditional = false ->
  no_cast_failure
    (checkDynamicCastFromOptional conforms a v s T flags dispatch).
Proof.
  intros Hd H. unfold checkDynamicCastFromOptional. ncf_conditional.
Qed.

Lemma ncf_cast T a v s flags :
  flags &? Flags.Unconditional = false ->
  no_cast_failure (cast conforms foreign T a v s flags).
Proof.
  revert T a v s flags.
  apply (engine_induction
           (fun T a v s f =>
              f &? Flags.Unconditional = false ->
              no_cast_failure (cast conforms foreign T a v s f))).
  intros T a v s f IHT IHv H. rewrite cast_eq.
  apply ncf_checkDynamicCastFromOptional; auto.
  intros x ty Hx. apply ncf_dispatch; auto.
  intros a' v' s' f' Hlt. apply IHv. lia.
Qed.

(** X14.  A cast without the [Unconditional] flag never ends in a cast
    failure: if it does not return, it has met a corrupt type or a buffer
    that does not hold what its type says. *)
Theorem conditional_cast_reports_no_failure
  (src : OpaqueValue) (srcType targetType : Metadata)
  (flags : DynamicCastFlags) (events : list Event) (crash : Crash) :
  flags &? Flags.Unconditional = false ->
  swift_dynamicCast conforms foreign src srcType targetType flags
    = (events, Aborts crash) ->
  crash = invalidValue \/ exists type, crash = corruptType type.
Proof.
  intros H E. destruct src as [a v].
  pose proof (@ncf_cast targetType a v srcType flags H events crash E) as N.
  destruct crash; [discriminate N | |]; eauto.
Qed.

End Conditional_casts.

(** * Metatype targets *)

Section Metatype_targets.
Variable conforms : Metadata -> ProtocolDescriptor -> option WitnessTable.
Variable foreign : Metadata -> Metadata -> bool.

Lemma held_metatype_eq v S :
  held_metatype v S =
  match S with
  | MMetatype _ | MExistentialMetatype _ =>
      match v with
      | VMetadata m => Some m
      | VExistentialMetatype m _ => Some m
      | _ => None
      end
  | MExistential e =>
      match getRepresentation e, v with
      | ExistentialTypeRepresentation.Opaque,
        VOpaqueExistential ty _ payload _ => held_metatype payload ty
      | ExistentialTypeRepresentation.ErrorProtocol,
        VErrorBox _ ty _ payload => held_metatype payload ty
      | _, _ => None
      end
  | _ => None
  end.
Proof. destruct v; reflexivity. Qed.

Lemma post_false (m : Effect bool) (R : bool -> Prop) :
  post m (fun _ b => b = false) -> R false -> post m (fun _ b => R b).
Proof. intros H HR t b E. rewrite (H t b E). exact HR. Qed.

Lemma metatype__dynamicCastMetatypeToMetatype m instanceType flags :
  flags &? Flags.Unconditional = false ->
  post (_dynamicCastMetatypeToMetatype foreign m instanceType flags)
       (fun _ b => b = is_some (swift_dynamicCastMetatype foreign m
                                  instanceType)).
Proof.
  intros H. unfold _dynamicCastMetatypeToMetatype. rewrite H.
  destruct (swift_dynamicCastMetatype foreign m instanceType);
    intros t b E; inversion E; reflexivity.
Qed.

Lemma metatype__dynamicCastToMetatype instanceType v :
  forall a S flags,
    flags &? Flags.Unconditional = false ->
    post (_dynamicCastToMetatype_ foreign a v S instanceType flags)
         (fun _ b =>
            b = match held_metatype v S with
                | Some m =>
                    is_some (swift_dynamicCastMetatype foreign m instanceType)
                | None => false
                end).
Proof.
  induction v as [bits | o | m | | payload IHv | Value_ IHv ws
                  | Type_ box payload IHv ws | box Type_ w payload IHv
                  | m ws];
    intros a S flags H;
    rewrite _dynamicCastToMetatype__eq, held_metatype_eq;
    destruct S; cbv beta iota zeta;
    try (eapply post_weaken; [apply post__fail |];
         cbv beta; intros t b [-> _]; reflexivity);
    try (destruct (getRepresentation e));
    try apply post_abort;
    cbn [load_metadata load_object]; rewrite ?bind_ret_l;
    try (apply metatype__dynamicCastMetatypeToMetatype; assumption);
    try (unfold _dynamicCastUnknownClassToMetatype,
           _getUnknownClassAsMetatype; rewrite H;
         destruct (flags &? Flags.DestroyOnFailure);
         intros t b E; inversion E; reflexivity).
  all: try (apply post_pass
              with (Q := fun b =>
                           b = match held_metatype payload Type_ with
                               | Some m =>
                                   is_some (swift_dynamicCastMetatype
                                              foreign m instanceType)
                               | None => false
                               end);
            apply IHv; auto using has_flag_minus_false).
  all: try (apply has_flag_minus_false; assumption).
  all: destruct Value_; try apply post_abort; rewrite bind_ret_l;
    unfold _dynamicCastUnknownClassToMetatype, _getUnknownClassAsMetatype;
    rewrite H; destruct (flags &? Flags.DestroyOnFailure);
    intros t b E; inversion E; reflexivity.
Qed.

(** X15.  A conditional cast to a metatype type answers by the metatype it
    finds in the source, behind at most one level of Optional and inside
    opaque or error existentials: true exactly when there is one and it
    is an instance of the target's instance type.  A class reference, a
    class existential or a value of any other type holds none. *)
Theorem cast_to_metatype_finds_a_metatype
  (src : OpaqueValue) (srcType instanceType : Metadata)
  (flags : DynamicCastFlags) (events : list Event) (succeeded : bool) :
  flags &? Flags.Unconditional = false ->
  swift_dynamicCast conforms foreign src srcType (MMetatype instanceType)
    flags
    = (events, Returns succeeded) ->
  succeeded =
    match source_metatype (pointee src) srcType with
    | Some m => is_some (swift_dynamicCastMetatype foreign m instanceType)
    | None => false
    end.
Proof.
  intros H. destruct src as [a v]. cbn [pointee].
  change (swift_dynamicCast conforms foreign _ ?s ?t ?f)
    with (cast conforms foreign t a v s f).
  revert events succeeded.
  change (post (cast conforms foreign (MMetatype instanceType) a v srcType
                  flags)
               (fun _ b =>
                  b = match source_metatype v srcType with
                      | Some m =>
                          is_some (swift_dynamicCastMetatype foreign m
                                     instanceType)
                      | None => false
                      end)).
  rewrite cast_eq. unfold checkDynamicCastFromOptional, source_metatype.
  destruct srcType;
    try (unfold swift_dynamicCast_dispatch, _dynamicCastToMetatype;
         apply metatype__dynamicCastToMetatype; assumption).
  rewrite bind_ret_l.
  destruct v; try apply post_abort.
  - eapply post_bind; [apply post__fail |].
    intros t1 b1 _. apply post_ret. reflexivity.
  - unfold swift_dynamicCast_dispatch, _dynamicCastToMetatype.
    apply metatype__dynamicCastToMetatype; assumption.
Qed.

Lemma decides__conformsToProtocol value type p conformance :
  post (_conformsToProtocol conforms value type p conformance)
       (fun _ r => is_some r = conforms_to conforms type p).
Proof.
  unfold _conformsToProtocol, conforms_to.
  destruct (SpecialProtocol.eqb _ _).
  - destruct type; try (apply post_ret; reflexivity).
    destruct (isClassBounded e); apply post_ret; reflexivity.
  - destruct (needsWitnessTable (protocol_Flags p)).
    + destruct (conforms type p) as [w |]; [| apply post_ret; reflexivity].
      destruct conformance; intros t r E; inversion E; reflexivity.
    + destruct type; try (apply post_ret; reflexivity).
      apply post_abort.
Qed.

Lemma decides_conformsToAll m T flags ps :
  flags &? Flags.Unconditional = false ->
  forall conformance,
    post (conformsToAll conforms m T flags ps conformance)
         (fun _ ok => ok = forallb (conforms_to conforms m) ps).
Proof.
  intros H. induction ps as [| p ps IH]; intros conformance;
    cbn [conformsToAll forallb].
  - apply post_ret. reflexivity.
  - eapply post_bind; [apply decides__conformsToProtocol |].
    cbv beta. intros t1 r <-. destruct r; cbn [is_some andb].
    + eapply post_weaken; [apply IH |]. cbv beta. auto.
    + rewrite H. unfold when. rewrite bind_ret_l.
      apply post_ret. reflexivity.
Qed.

Lemma decides__dynamicCastMetatypeToExistentialMetatype instanceType :
  forall m flags writeDestMetatype,
    flags &? Flags.Unconditional = false ->
    post (_dynamicCastMetatypeToExistentialMetatype conforms m instanceType
            flags writeDestMetatype)
         (fun _ b => b = true <-> metatype_conforms conforms m instanceType).
Proof.
  induction instanceType using Metadata_nested_ind;
    intros m flags writeDestMetatype Hf;
    rewrite _dynamicCastMetatypeToExistentialMetatype_eq;
    cbv beta iota zeta; try apply post_abort.
  - eapply post_bind; [apply decides_conformsToAll; assumption |].
    cbv beta. intros t1 ok ->. simpl.
    destruct (forallb _ _).
    + destruct writeDestMetatype; intros t b E; inversion E;
        split; reflexivity.
    + apply post_ret. split; discriminate.
  - destruct m; simpl;
      try (rewrite Hf; unfold when; rewrite bind_ret_l; apply post_ret;
           split; [discriminate | contradiction]).
    destruct writeDestMetatype; unfold when.
    + eapply post_bind; [apply post_emit_exact |].
      intros t1 [] _. eapply post_weaken; [apply IHinstanceType, Hf |].
      cbv beta. auto.
    + rewrite bind_ret_l. apply IHinstanceType, Hf.
Qed.

Lemma decides__dynamicCastToExistentialMetatype instanceType v :
  forall a S flags,
    flags &? Flags.Unconditional = false ->
    post (_dynamicCastToExistentialMetatype_ conforms a v S instanceType
            flags)
         (fun _ b =>
            b = true <->
            conforming_metatype conforms instanceType (held_metatype v S)).
Proof.
  induction v as [bits | o | m | | payload IHv | Value_ IHv ws
                  | Type_ box payload IHv ws | box Type_ w payload IHv
                  | m ws];
    intros a S flags H;
    rewrite _dynamicCastToExistentialMetatype__eq, held_metatype_eq;
    destruct S; cbv beta iota zeta;
    try (eapply post_weaken; [apply post__fail |];
         cbv beta; intros t b [-> _]; simpl;
         split; [discriminate | contradiction]);
    try (destruct (getRepresentation e));
    try apply post_abort;
    cbn [load_metadata load_object]; rewrite ?bind_ret_l;
    try (apply decides__dynamicCastMetatypeToExistentialMetatype;
         assumption);
    try (unfold _dynamicCastUnknownClassToExistentialMetatype,
           _getUnknownClassAsMetatype; rewrite H;
         destruct (flags &? Flags.DestroyOnFailure);
         intros t b E; inversion E; subst; simpl;
         (split; [discriminate | contradiction])).
  all: try (apply post_pass
              with (Q := fun b =>
                           b = true <->
                           conforming_metatype conforms instanceType
                             (held_metatype payload Type_));
            apply IHv; auto using has_flag_minus_false).
  all: try (apply has_flag_minus_false; assumption).
  all: destruct Value_; try apply post_abort; rewrite bind_ret_l;
    unfold _dynamicCastUnknownClassToExistentialMetatype,
      _getUnknownClassAsMetatype;
    rewrite H; destruct (flags &? Flags.DestroyOnFailure);
    intros t b E; inversion E; subst; simpl;
    (split; [discriminate | contradiction]).
Qed.

(** X16.  A conditional cast to an existential metatype type answers true
    exactly when the metatype found in the source, behind at most one
    level of Optional and inside opaque or error existentials, conforms:
    to every protocol of the existential for [P.Type], and, for
    [P.Type.Type], by being the metatype of a metatype that does. *)
Theorem cast_to_existential_metatype_finds_a_conforming_metatype
  (src : OpaqueValue) (srcType instanceType : Metadata)
  (flags : DynamicCastFlags) (events : list Event) (succeeded : bool) :
  flags &? Flags.Unconditional = false ->
  swift_dynamicCast conforms foreign src srcType
    (MExistentialMetatype instanceType) flags
    = (events, Returns succeeded) ->
  (succeeded = true <->
   conforming_metatype conforms instanceType
     (source_metatype (pointee src) srcType)).
Proof.
  intros H. destruct src as [a v]. cbn [pointee].
  change (swift_dynamicCast conforms foreign _ ?s ?t ?f)
    with (cast conforms foreign t a v s f).
  revert events succeeded.
  change (post (cast conforms foreign (MExistentialMetatype instanceType)
                  a v srcType flags)
               (fun _ b =>
                  b = true <->
                  conforming_metatype conforms instanceType
                    (source_metatype v srcType))).
  rewrite cast_eq. unfold checkDynamicCastFromOptional, source_metatype.
  destruct srcType;
    try (unfold swift_dynamicCast_dispatch,
           _dynamicCastToExistentialMetatype;
         apply decides__dynamicCastToExistentialMetatype; assumption).
  rewrite bind_ret_l.
  destruct v; try apply post_abort.
  - eapply post_bind; [apply post__fail |].
    intros t1 b1 _. apply post_ret. simpl.
    split; [discriminate | contradiction].
  - unfold swift_dynamicCast_dispatch, _dynamicCastToExistentialMetatype.
    apply decides__dynamicCastToExistentialMetatype; assumption.
Qed.

End Metatype_targets.

(** * Type names *)

Lemma TypeNameKey_eqb_eq k k' : TypeNameKey_eqb k k' = true <-> k = k'.
Proof.
  destruct k as [t q], k' as [t' q']. unfold TypeNameKey_eqb. simpl.
  rewrite andb_true_iff, Metadata_eqb_eq, Bool.eqb_true_iff.
  split; [intros [-> ->]; reflexivity | intros E; inversion E; auto].
Qed.

Lemma TypeNameKey_eqb_refl k : TypeNameKey_eqb k k = true.
Proof. apply TypeNameKey_eqb_eq. reflexivity. Qed.

Section TypeName_cache.
Variable nameForMetadata : Metadata -> bool -> list Byte.byte.

Lemma cache_find_insert cache key result :
  cache_find cache key = None ->
  cache_find (cache_insert cache key result) key = Some result.
Proof.
  intros H. unfold cache_insert. rewrite H. simpl.
  rewrite TypeNameKey_eqb_refl. reflexivity.
Qed.

Lemma cache_find_insert_other cache key result k x :
  cache_find cache k = Some x ->
  cache_find (cache_insert cache key result) k = Some x.
Proof.
  intros H. unfold cache_insert.
  destruct (cache_find cache key) eqn:E; [exact H |].
  simpl. destruct (TypeNameKey_eqb key k) eqn:K; [| exact H].
  apply TypeNameKey_eqb_eq in K. subst. congruence.
Qed.

(** X17.  A name [swift_getTypeName] has returned is kept: after the
    call the cache holds the result under the type and the [qualified]
    bit, every name that was in the cache is still there, unchanged, and
    the same call made again returns the same result and leaves the cache
    as it is.  A name that was not in the cache is built by
    [nameForMetadata] and comes with its length. *)
Theorem swift_getTypeName_caches
  (type : Metadata) (qualified : bool) (cache : TypeNameCache) :
  let result := fst (swift_getTypeName nameForMetadata type qualified cache) in
  let cache' := snd (swift_getTypeName nameForMetadata type qualified cache) in
  cache_find cache' (type, qualified) = Some result /\
  (forall key kept,
     cache_find cache key = Some kept -> cache_find cache' key = Some kept) /\
  swift_getTypeName nameForMetadata type qualified cache' = (result, cache') /\
  (cache_find cache (type, qualified) = None ->
   result = (nameForMetadata type qualified,
             length (nameForMetadata type qualified))).
Proof.
  unfold swift_getTypeName.
  destruct (cache_find cache (type, qualified)) as [found |] eqn:E;
    cbv zeta; cbn [fst snd].
  - rewrite E. repeat split; auto. discriminate.
  - rewrite cache_find_insert by exact E.
    repeat split; auto using cache_find_insert_other.
Qed.

(** X18.  From a cache that holds only names [nameForMetadata] builds, as
    the empty cache does, [swift_getTypeName] returns the name of the
    type and its length, whether it was cached or not, and the cache it
    leaves holds only such names again. *)
Theorem swift_getTypeName_returns_the_name
  (type : Metadata) (qualified : bool) (cache : TypeNameCache) :
  cache_holds_names nameForMetadata cache ->
  fst (swift_getTypeName nameForMetadata type qualified cache)
  = (nameForMetadata type qualified,
     length (nameForMetadata type qualified)) /\
  cache_holds_names nameForMetadata
    (snd (swift_getTypeName nameForMetadata type qualified cache)).
Proof.
  intros Hok. unfold swift_getTypeName.
  destruct (cache_find cache (type, qualified)) as [found |] eqn:E;
    cbv zeta; cbn [fst snd].
  - split; [exact (Hok _ _ _ E) | exact Hok].
  - split; [reflexivity |].
    intros t q r. unfold cache_insert. rewrite E. simpl.
    destruct (TypeNameKey_eqb (type, qualified) (t, q)) eqn:K.
    + apply TypeNameKey_eqb_eq in K. inversion K; subst.
      intros H; inversion H; reflexivity.
    + apply Hok.
Qed.

End TypeName_cache.

(** * Casts to class types *)

Section Class_targets.
Variable conforms : Metadata -> ProtocolDescriptor -> option WitnessTable.
Variable foreign : Metadata -> Metadata -> bool.

Lemma finds_instance_eq t v S :
  finds_instance t v S =
  match S with
  | MOptional P =>
      match v with
      | VSome x => instance_or_inside t (finds_instance t) x P
      | _ => false
      end
  | _ => instance_or_inside t (finds_instance t) v S
  end.
Proof. destruct v; reflexivity. Qed.

Lemma load_object_held x :
  load_object x = match held_reference x with
                  | Some o => ret o
                  | None => abort invalidValue
                  end.
Proof. destruct x; try reflexivity. destruct x; reflexivity. Qed.

Lemma instance__dynamicCastUnknownClassIndirect t o flags :
  post (_dynamicCastUnknownClassIndirect o (MClass t) flags)
       (fun _ b => b = is_instance t o).
Proof.
  unfold _dynamicCastUnknownClassIndirect, is_instance.
  cbn [swift_dynamicCastUnknownClassUnconditional
         swift_dynamicCastUnknownClass].
  unfold swift_dynamicCastClassUnconditional, swift_dynamicCastClass.
  destruct (_dynamicCastClassMetatype _ t);
    destruct (flags &? Flags.Unconditional),
      (flags &? Flags.TakeOnSuccess), (flags &? Flags.DestroyOnFailure);
    intros tr b E; try discriminate E; inversion E; reflexivity.
Qed.

Lemma found__dynamicCastUnknownClassIndirect t o flags :
  is_instance t o = true ->
  exists tr,
    _dynamicCastUnknownClassIndirect o (MClass t) flags = (tr, Returns true).
Proof.
  unfold _dynamicCastUnknownClassIndirect, is_instance.
  cbn [swift_dynamicCastUnknownClassUnconditional
         swift_dynamicCastUnknownClass].
  unfold swift_dynamicCastClassUnconditional, swift_dynamicCastClass.
  destruct (_dynamicCastClassMetatype _ t); [intros _ | discriminate].
  destruct (flags &? Flags.Unconditional),
    (flags &? Flags.TakeOnSuccess); eexists; reflexivity.
Qed.

Lemma instance_reference t x flags :
  post (object <- load_object x ;;
        _dynamicCastUnknownClassIndirect object (MClass t) flags)
       (fun _ b => b = match held_reference x with
                       | Some o => is_instance t o
                       | None => false
                       end).
Proof.
  rewrite load_object_held.
  destruct (held_reference x) as [o |]; [| apply post_abort].
  rewrite bind_ret_l. apply instance__dynamicCastUnknownClassIndirect.
Qed.

Lemma found_reference t x flags :
  match held_reference x with
  | Some o => is_instance t o
  | None => false
  end = true ->
  exists tr,
    (object <- load_object x ;;
     _dynamicCastUnknownClassIndirect object (MClass t) flags)
    = (tr, Returns true).
Proof.
  rewrite load_object_held.
  destruct (held_reference x) as [o |]; [| discriminate].
  rewrite bind_ret_l. apply found__dynamicCastUnknownClassIndirect.
Qed.

Lemma instance_dispatch t a x P flags :
  (forall a' v' s' f',
     size_value v' < size_value x ->
     post (cast conforms foreign (MClass t) a' v' s' f')
          (fun _ b => b = finds_instance t v' s')) ->
  post (swift_dynamicCast_dispatch conforms foreign
          (cast conforms foreign (MClass t)) (cast conforms foreign)
          (MClass t) a x P flags)
       (fun _ b => b = instance_or_inside t (finds_instance t) x P).
Proof.
  intros IH. unfold swift_dynamicCast_dispatch, instance_or_inside.
  destruct P;
    try (eapply post_weaken; [apply post__fail |];
         cbv beta; intros tr b [-> _]; reflexivity);
    try apply instance_reference.
  unfold _dynamicCastToUnknownClassFromExistential.
  destruct (getRepresentation e); try apply instance_reference;
    destruct x as [bits | o | m | | payload | Value_ ws
                   | Type_ box payload ws | box Type_ w payload | m ws];
    try apply post_abort; cbv beta iota zeta.
  - apply post_pass with (Q := fun b => b = finds_instance t payload Type_).
    apply IH. simpl; lia.
  - apply post_pass with (Q := fun b => b = finds_instance t payload Type_).
    apply IH. simpl; lia.
Qed.

Lemma cast_finds_instance t :
  forall v a S flags,
    post (cast conforms foreign (MClass t) a v S flags)
         (fun _ b => b = finds_instance t v S).
Proof.
  intros v.
  induction v as [v IH] using (induction_ltof1 _ size_value).
  unfold ltof in IH. intros a S flags.
  rewrite cast_eq, finds_instance_eq. unfold checkDynamicCastFromOptional.
  destruct S; try (apply instance_dispatch; intros; apply IH; assumption).
  rewrite bind_ret_l.
  destruct v; try apply post_abort.
  - eapply post_bind; [apply post__fail |].
    intros t1 b1 _. apply post_ret. reflexivity.
  - apply instance_dispatch.
    intros a' v' s' f' Hlt. apply IH. simpl. lia.
Qed.

Lemma found_instance_dispatch t a x P flags :
  (forall a' v' s' f',
     size_value v' < size_value x ->
     finds_instance t v' s' = true ->
     exists tr,
       cast conforms foreign (MClass t) a' v' s' f' = (tr, Returns true)) ->
  instance_or_inside t (finds_instance t) x P = true ->
  exists tr,
    swift_dynamicCast_dispatch conforms foreign
      (cast conforms foreign (MClass t)) (cast conforms foreign)
      (MClass t) a x P flags
    = (tr, Returns true).
Proof.
  intros IH. unfold swift_dynamicCast_dispatch, instance_or_inside.
  destruct P; try discriminate; try apply found_reference.
  unfold _dynamicCastToUnknownClassFromExistential.
  destruct (getRepresentation e); try apply found_reference;
    destruct x as [bits | o | m | | payload | Value_ ws
                   | Type_ box payload ws | box Type_ w payload | m ws];
    try discriminate; intros Hin; cbv beta iota zeta.
  - destruct (IH (vw_projectBuffer a box) payload Type_ flags
                ltac:(simpl; lia) Hin) as [tr ->].
    rewrite bind_returns.
    unfold _maybeDeallocateOpaqueExistential.
    cbn [pointee load_container_Type].
    destruct (negb (a =? vw_projectBuffer a box)%N),
      (shouldDeallocateSource true flags); eexists; reflexivity.
  - destruct (IH box payload Type_
                (flags_minus flags
                   (flags_or Flags.TakeOnSuccess Flags.DestroyOnFailure))
                ltac:(simpl; lia) Hin) as [tr ->].
    rewrite bind_returns.
    destruct (shouldDeallocateSource true flags); eexists; reflexivity.
Qed.

Lemma cast_found_instance t :
  forall v a S flags,
    finds_instance t v S = true ->
    exists tr, cast conforms foreign (MClass t) a v S flags
               = (tr, Returns true).
Proof.
  intros v.
  induction v as [v IH] using (induction_ltof1 _ size_value).
  unfold ltof in IH. intros a S flags.
  rewrite cast_eq, finds_instance_eq. unfold checkDynamicCastFromOptional.
  destruct S; try (apply found_instance_dispatch; intros; apply IH;
                   assumption).
  rewrite bind_ret_l.
  destruct v; try discriminate.
  apply found_instance_dispatch.
  intros a' v' s' f' Hlt. apply IH. simpl. lia.
Qed.

(** X19.  A cast to a class type succeeds exactly when a reference to an
    instance of the class, or of a subclass, is found in the source:
    behind at most one level of Optional and, from there, inside
    existential containers, each payload once more behind at most one
    level of Optional.  When one is found the cast returns true, with any
    flags; and whenever the cast returns, its answer says whether one is
    found. *)
Theorem cast_to_class_finds_an_instance
  (src : OpaqueValue) (srcType : Metadata) (targetType : ClassMetadata)
  (flags : DynamicCastFlags) :
  (finds_instance targetType (pointee src) srcType = true ->
   exists events,
     swift_dynamicCast conforms foreign src srcType (MClass targetType) flags
     = (events, Returns true)) /\
  (forall events succeeded,
     swift_dynamicCast conforms foreign src srcType (MClass targetType) flags
     = (events, Returns succeeded) ->
     succeeded = finds_instance targetType (pointee src) srcType).
Proof.
  destruct src as [a v]. split.
  - apply (@cast_found_instance targetType v a srcType flags).
  - intros events succeeded E.
    exact (@cast_finds_instance targetType v a srcType flags events
             succeeded E).
Qed.

End Class_targets.

(** * Casts to existential types *)

Section Existential_targets.
Variable conforms : Metadata -> ProtocolDescriptor -> option WitnessTable.
Variable foreign : Metadata -> Metadata -> bool.

(** X20.  A cast of a source that is not an Optional to an existential
    type with the opaque representation is decided by the dynamic type of
    the source: it returns true when that type conforms to every protocol
    of the target; when it does not, a conditional cast returns false and
    an unconditional cast aborts with a cast failure that names the
    dynamic type, not the static type, of the source. *)
Theorem cast_to_opaque_existential_is_decided_by_the_dynamic_type
  (a : Addr) (v : Value) (S : Metadata) (e : ExistentialTypeMetadata)
  (flags : DynamicCastFlags) :
  getKind S <> MetadataKind.Optional ->
  getRepresentation e = ExistentialTypeRepresentation.Opaque ->
  has_dynamic_value v S ->
  getKind (dynamic_type v S) <> MetadataKind.ForeignClass ->
  exists events,
    swift_dynamicCast conforms foreign {| address := a; pointee := v |} S
      (MExistential e) flags
    = (events,
       if forallb (conforms_to conforms (dynamic_type v S)) (Protocols e)
       then Returns true
       else if flags &? Flags.Unconditional
            then Aborts (dynamicCastFailure (dynamic_type v S)
                           (MExistential e))
            else Returns false).
Proof.
  intros Hopt Hrep Hdyn Hk.
  change (swift_dynamicCast conforms foreign _ ?s ?t ?f)
    with (cast conforms foreign t a v s f).
  rewrite cast_not_optional by assumption.
  unfold swift_dynamicCast_dispatch.
  destruct (@findDynamicValueAndType__dynamic v S a true Hdyn)
    as (a' & c' & Hfind).
  destruct (@deallocateDynamicValue__returns v a S Hdyn) as [td Hd].
  unfold _dynamicCastToExistential, findDynamicValueAndType.
  cbn [address pointee]. rewrite Hfind.
  change (@nil Event, Returns ?x) with (ret x). rewrite bind_ret_l.
  cbv beta iota zeta. rewrite Hrep.
  destruct (@decides__conformsToProtocols conforms
              (Some {| address := a'; pointee := dynamic_payload v S |})
              (dynamic_type v S) (Protocols e) (dest_witnesses 0) Hk)
    as (t & r & -> & Hr).
  rewrite bind_returns, <- Hr.
  destruct r as [ws |]; cbn [is_some].
  - unfold deallocateDynamicValue. cbn [address pointee]. rewrite Hd.
    destruct c', (flags &? Flags.TakeOnSuccess),
      (shouldDeallocateSource true flags);
      cbn [andb orb negb];
      try destruct (negb (ptr_eqb _ _));
      simpl; eexists; reflexivity.
  - unfold _fail.
    destruct (flags &? Flags.Unconditional),
      (flags &? Flags.DestroyOnFailure); simpl; eexists; reflexivity.
Qed.

End Existential_targets.

(** * The two forms of the metatype cast *)

Section Metatype_forms.
Variable foreign : Metadata -> Metadata -> bool.

(** X21.  Away from foreign classes, the conditional and the
    unconditional metatype cast agree: the unconditional form returns
    what the conditional form returns, which is the source metatype
    itself, and where the conditional form returns null it aborts with a
    cast failure; the failure names the target with a wrapper replaced by
    its class and, for a class target, the source likewise. *)
Theorem swift_dynamicCastMetatype_forms_agree
  (sourceType targetType : Metadata) :
  getKind sourceType <> MetadataKind.ForeignClass ->
  getKind targetType <> MetadataKind.ForeignClass ->
  match swift_dynamicCastMetatype foreign sourceType targetType with
  | Some result =>
      result = sourceType /\
      swift_dynamicCastMetatypeUnconditional foreign sourceType targetType
      = ret sourceType
  | None =>
      swift_dynamicCastMetatypeUnconditional foreign sourceType targetType
      = ([], Aborts (dynamicCastFailure
                       (if isAnyKindOfClass (getKind targetType)
                        then unwrapped sourceType else sourceType)
                       (unwrapped targetType)))
  end.
Proof.
  intros Hs Ht.
  unfold swift_dynamicCastMetatype, swift_dynamicCastMetatypeUnconditional.
  destruct targetType; try (exfalso; apply Ht; reflexivity);
    destruct sourceType; try (exfalso; apply Hs; reflexivity);
    cbn [negb isAnyKindOfClass getKind unwrapped];
    try (split; reflexivity); try reflexivity;
    try (destruct (_dynamicCastClassMetatype _ _); [split |]; reflexivity);
    try (destruct (negb (Metadata_eqb _ _)); [| split]; reflexivity).
Qed.

End Metatype_forms.

(** * Into an existential and back *)

Section Round_trip.
Variable conforms : Metadata -> ProtocolDescriptor -> option WitnessTable.
Variable foreign : Metadata -> Metadata -> bool.

Lemma _dynamicCastToExistential_boxes a v T e :
  getRepresentation e = ExistentialTypeRepresentation.Opaque ->
  has_dynamic_value v T ->
  forallb (conforms_to conforms (dynamic_type v T)) (Protocols e) = true ->
  exists events witnesses,
    _dynamicCastToExistential conforms {| address := a; pointee := v |} T e
      Flags.Default
    = (events, Returns true) /\
    read_dest (MExistential e) (dest_after events)
    = Some (VOpaqueExistential (dynamic_type v T) None (dynamic_payload v T)
              witnesses).
Proof.
  intros Hrep Hdyn Hconf.
  destruct (@findDynamicValueAndType__dynamic v T a true Hdyn)
    as (a' & c' & Hfind).
  unfold _dynamicCastToExistential, findDynamicValueAndType.
  cbn [address pointee]. rewrite Hfind.
  change (@nil Event, Returns ?x) with (ret x). rewrite bind_ret_l.
  cbv beta iota zeta.
  rewrite shouldDeallocateSource_Default, has_flag_Default, andb_false_r.
  rewrite Hrep.
  destruct (@_conformsToProtocols_conforms conforms (Protocols e)
              (Some {| address := a'; pointee := dynamic_payload v T |})
              (dynamic_type v T) (dest_witnesses 0) Hconf)
    as (E & ws & -> & HE).
  rewrite bind_returns. simpl.
  eexists; eexists; split; [reflexivity |].
  rewrite dest_after_app. cbn [read_dest]. rewrite Hrep. simpl.
  reflexivity.
Qed.

Lemma cast_reference_to_class a o srcType targetType flags :
  isAnyKindOfClass (getKind srcType) = true ->
  subclass_or_equal targetType (_swift_getClassOfAllocated o) ->
  cast conforms foreign (MClass targetType) a (VObject o) srcType flags
  = (store_reference o ::
     (if flags &? Flags.TakeOnSuccess then [] else [swift_unknownRetain o]),
     Returns true).
Proof.
  intros Hs H.
  rewrite cast_not_optional
    by (destruct srcType; try discriminate Hs; discriminate).
  unfold swift_dynamicCast_dispatch.
  assert (E : forall k : HeapObject -> Effect bool,
            (object <- load_object (VObject o) ;; k object) = k o)
    by (intros k; cbn [load_object]; rewrite bind_ret_l; reflexivity).
  destruct srcType; try discriminate Hs; rewrite E;
    unfold _dynamicCastUnknownClassIndirect;
    cbn [swift_dynamicCastUnknownClassUnconditional
           swift_dynamicCastUnknownClass];
    unfold swift_dynamicCastClassUnconditional, swift_dynamicCastClass;
    destruct (_dynamicCastClassMetatype_complete H) as [r ->];
    destruct (flags &? Flags.Unconditional),
      (flags &? Flags.TakeOnSuccess); reflexivity.
Qed.

Lemma cast_value_to_its_type a v S flags :
  non_polymorphic S = true ->
  cast conforms foreign S a v S flags
  = _succeed {| address := a; pointee := v |} S flags.
Proof.
  intros H.
  rewrite cast_not_optional by (destruct S; try discriminate H; discriminate).
  rewrite swift_dynamicCast_dispatch_non_polymorphic by assumption.
  rewrite (proj2 (Metadata_eqb_eq S S) eq_refl). reflexivity.
Qed.

(** X22.  What a copying cast puts into an existential container comes
    back out of it: a value of a struct, an enum or another value type, or
    a reference of a class type, cast to an existential type with the
    opaque representation its dynamic type conforms to, leaves in [dest] a
    container that a cast back to the type it came from succeeds on,
    leaving in its [dest] the value or the reference that went in. *)
Theorem boxed_value_is_found_again
  (a a' : Addr) (v : Value) (S : Metadata) (e : ExistentialTypeMetadata) :
  value_or_class S = true ->
  well_formed conforms v S ->
  getRepresentation e = ExistentialTypeRepresentation.Opaque ->
  forallb (conforms_to conforms (dynamic_type v S)) (Protocols e) = true ->
  exists events held events',
    swift_dynamicCast conforms foreign {| address := a; pointee := v |}
      S (MExistential e) Flags.Default
    = (events, Returns true) /\
    read_dest (MExistential e) (dest_after events) = Some held /\
    swift_dynamicCast conforms foreign {| address := a'; pointee := held |}
      (MExistential e) S Flags.Default
    = (events', Returns true) /\
    read_dest S (dest_after events') = Some v.
Proof.
  intros HS Hwf Hrep Hconf.
  assert (Hdyn : has_dynamic_value v S).
  { destruct S; try discriminate HS;
      destruct v; simpl in Hwf |- *; try contradiction; exact I. }
  assert (Hpay : dynamic_payload v S = v)
    by (destruct S; try discriminate HS; destruct v; reflexivity).
  destruct (@_dynamicCastToExistential_boxes a v S e Hrep Hdyn Hconf)
    as (events & ws & Hbox & Hread).
  rewrite Hpay in Hread.
  assert (Hin :
    swift_dynamicCast conforms foreign {| address := a; pointee := v |}
      S (MExistential e) Flags.Default
    = (events, Returns true)).
  { change (swift_dynamicCast conforms foreign _ ?s ?t ?f)
      with (cast conforms foreign t a v s f).
    rewrite cast_not_optional
      by (destruct S; try discriminate HS; discriminate).
    exact Hbox. }
  assert (Hout :
    swift_dynamicCast conforms foreign
      {| address := a';
         pointee := VOpaqueExistential (dynamic_type v S) None v ws |}
      (MExistential e) S Flags.Default
    = cast conforms foreign S (vw_projectBuffer a' None) v
        (dynamic_type v S) Flags.Default).
  { apply cast_existential_transparent; try reflexivity.
    - destruct S; try discriminate HS; reflexivity.
    - unfold container_of. rewrite Hrep. reflexivity. }
  exists events, (VOpaqueExistential (dynamic_type v S) None v ws).
  destruct (non_polymorphic S) eqn:Hnp.
  - assert (Hty : dynamic_type v S = S)
      by (destruct S; try discriminate Hnp; destruct v; reflexivity).
    eexists; split; [exact Hin | split; [exact Hread |]].
    rewrite Hout, Hty, cast_value_to_its_type by assumption.
    split; [reflexivity |].
    destruct S; try discriminate Hnp; reflexivity.
  - destruct S; try discriminate HS; try discriminate Hnp.
    destruct v; simpl in Hwf; try contradiction.
    eexists; split; [exact Hin | split; [exact Hread |]].
    rewrite Hout. cbn [dynamic_type]. unfold swift_getObjectType.
    rewrite cast_reference_to_class by (try reflexivity; assumption).
    split; reflexivity.
Qed.

(** A value or a reference cast to its own type is stored as it is. *)
Lemma cast_to_own_type a v S flags :
  value_or_class S = true ->
  well_formed conforms v S ->
  exists events,
    cast conforms foreign S a v S flags = (events, Returns true) /\
    read_dest S (dest_after events) = Some v.
Proof.
  intros HS Hwf. destruct (non_polymorphic S) eqn:Hnp.
  - rewrite cast_value_to_its_type by assumption. unfold _succeed.
    destruct (flags &? Flags.TakeOnSuccess);
      (eexists; split; [reflexivity |]);
      destruct S; try discriminate Hnp; reflexivity.
  - destruct S; try discriminate HS; try discriminate Hnp.
    destruct v; simpl in Hwf; try contradiction.
    rewrite cast_reference_to_class by (try reflexivity; assumption).
    eexists; split; [reflexivity |].
    destruct (flags &? Flags.TakeOnSuccess); reflexivity.
Qed.

(** X23.  What a cast wraps into an Optional comes back out of it: a
    value of a value type or a reference of a class type, cast to the
    Optional of its type with any flags, leaves in [dest] the payload case
    holding it, and the cast of that Optional back to the type, with any
    flags, succeeds and leaves it in its [dest]. *)
Theorem wrapped_value_is_found_again
  (a a' : Addr) (v : Value) (S : Metadata) (flags flags' : DynamicCastFlags) :
  value_or_class S = true ->
  well_formed conforms v S ->
  exists events events',
    swift_dynamicCast conforms foreign {| address := a; pointee := v |}
      S (MOptional S) flags
    = (events, Returns true) /\
    read_dest (MOptional S) (dest_after events) = Some (VSome v) /\
    swift_dynamicCast conforms foreign
      {| address := a'; pointee := VSome v |} (MOptional S) S flags'
    = (events', Returns true) /\
    read_dest S (dest_after events') = Some v.
Proof.
  intros HS Hwf.
  assert (Hopt : getKind S <> MetadataKind.Optional)
    by (destruct S; try discriminate HS; discriminate).
  destruct (@cast_to_own_type a v S flags HS Hwf) as (events & Hin & Hread).
  destruct (@cast_to_own_type a' v S flags' HS Hwf)
    as (events' & Hout & Hread').
  exists (events ++ [swift_storeEnumTagSinglePayload S (-1)]), events'.
  split; [| split; [| split; [| exact Hread']]].
  - change (cast conforms foreign (MOptional S) a v S flags
            = (events ++ [swift_storeEnumTagSinglePayload S (-1)],
               Returns true)).
    rewrite cast_not_optional by assumption.
    unfold swift_dynamicCast_dispatch.
    destruct S; try discriminate HS; rewrite Hin, bind_returns; reflexivity.
  - rewrite dest_after_app. cbn [fold_left read_dest].
    replace (dest_tags (store (dest_after events)
                          (swift_storeEnumTagSinglePayload S (-1))))
      with ((S, (-1)%Z) :: dest_tags (dest_after events)) by reflexivity.
    cbn [lookup_tag]. rewrite Metadata_eqb_refl.
    rewrite read_dest_tag by lia. rewrite Hread. reflexivity.
  - change (cast conforms foreign S a' (VSome v) (MOptional S) flags'
            = (events', Returns true)).
    rewrite cast_eq. unfold checkDynamicCastFromOptional.
    destruct S; try discriminate HS; rewrite bind_ret_l;
      rewrite <- cast_not_optional by discriminate; exact Hout.
Qed.

End Round_trip.

(** * The theorems at concrete inputs *)

Module Instances.
Import Examples.




(** A non-throwing [(Int) -> String] casts to the throwing one. *)
Lemma function_cast_rule_witness :
  function_type_ok (swift_function false) [(Int, false)] /\
  function_type_ok (swift_function true) [(Int, false)] /\
  swift_dynamicCast no_conformance no_foreign_classes
    (at_address 16%N (VBits 7)) (Int_to_String false) (Int_to_String true)
    Flags.Default
  = ([vw_initializeWithCopy (Int_to_String false) (at_address 16%N (VBits 7))],
     Returns true).
Proof.
  split; [reflexivity | split; [reflexivity |]].
  destruct (@function_cast_rule no_conformance no_foreign_classes
              16%N (VBits 7) (swift_function false) [(Int, false)] String
              (swift_function true) [(Int, false)] String
              Flags.Default eq_refl eq_refl) as [_ [H _]].
  exact H.
Defined.

(** The reverse, throwing to non-throwing, fails. *)
Example throwing_to_nonthrowing_fails :
  swift_dynamicCast no_conformance no_foreign_classes
    (at_address 16%N (VBits 7)) (Int_to_String true) (Int_to_String false)
    Flags.Default
  = ([], Returns false).
Proof. reflexivity. Qed.

(** Subclass chain: [C.self] casts to [A.Type]; [A.self] does not cast to
    [C.Type]. *)
Example metatype_subclass_chain :
  swift_dynamicCastMetatype no_foreign_classes (MClass C) (MClass A)
    = Some (MClass C) /\
  swift_dynamicCastMetatype no_foreign_classes (MClass A) (MClass C) = None.
Proof. split; reflexivity. Qed.



(** An empty [Int?] cast to the struct [String] fails. *)
Example empty_optional_to_struct_fails :
  swift_dynamicCast no_conformance no_foreign_classes
    (at_address 16%N VNone) (MOptional Int) String Flags.Default
  = ([], Returns false).
Proof. reflexivity. Qed.

(** [Int?] to [P], [Int?] itself not conforming: the attempt fails without
    destroying the source although the caller asked for [DestroyOnFailure];
    the payload is then cast and, failing too, destroyed. *)
Example failed_attempt_then_payload :
  swift_dynamicCast no_conformance no_foreign_classes
    (at_address 16%N (VSome (VBits 7))) (MOptional Int)
    (MExistential P_existential) Flags.DestroyOnFailure
  = ([vw_destroy Int (at_address 16%N (VBits 7))], Returns false).
Proof. reflexivity. Qed.



(** An [Any] holding an [Int] out of line, cast with [DestroyOnFailure] to
    a struct and to a class: both casts fail and destroy the payload; only
    the cast to the class also deallocates the emptied buffer. *)
Example failed_cast_from_existential_keeps_the_buffer :
  swift_dynamicCast no_conformance no_foreign_classes
    (at_address 16%N (VOpaqueExistential Int (Some 64%N) (VBits 7) []))
    (MExistential Any) String Flags.DestroyOnFailure
  = ([vw_destroy Int (at_address 64%N (VBits 7))], Returns false) /\
  swift_dynamicCast no_conformance no_foreign_classes
    (at_address 16%N (VOpaqueExistential Int (Some 64%N) (VBits 7) []))
    (MExistential Any) (MClass A) Flags.DestroyOnFailure
  = ([vw_destroy Int (at_address 64%N (VBits 7));
      vw_deallocateBuffer Int
        (at_address 16%N (VOpaqueExistential Int (Some 64%N) (VBits 7) []))],
     Returns false).
Proof. split; reflexivity. Qed.



(** What that cast stores: the witness table, the dynamic type, the
    payload, and the tag of the payload case. *)
Example identity_cast_of_a_boxed_Int :
  swift_dynamicCast Int_conforms no_foreign_classes
    (at_address 16%N (VSome (VOpaqueExistential Int None (VBits 7) [100%N])))
    (MOptional (MExistential P_existential))
    (MOptional (MExistential P_existential)) Flags.Default
  = ([store_witness 0 100%N; store_existential_Type Int;
      vw_initializeBufferWithCopy Int (at_address 16%N (VBits 7));
      swift_storeEnumTagSinglePayload (MExistential P_existential) (-1)],
     Returns true).
Proof. reflexivity. Qed.

(** A reference cast to a foreign class type, its own static type: the
    native runtime takes the target type for corrupt. *)
Example foreign_class_target_is_corrupt :
  swift_dynamicCast no_conformance no_foreign_classes
    (at_address 16%N
       (VObject {| object_address := 32%N; _swift_getClassOfAllocated := A |}))
    (MForeignClass 5) (MForeignClass 5) Flags.Default
  = ([], Aborts (corruptType (MForeignClass 5))).
Proof. reflexivity. Qed.

End Instances.

(** * The further properties at concrete inputs *)

Module More_instances.
Import Examples.
Import More_examples.

(** The reference to a [C], of static type [A], casts to [B]: the
    reference is stored and retained. *)
Lemma class_reference_cast_witness :
  isAnyKindOfClass (getKind (MClass A)) = true /\
  subclass_or_equal B (_swift_getClassOfAllocated a_C) /\
  swift_dynamicCast no_conformance no_foreign_classes
    (at_address 16%N (VObject a_C)) (MClass A) (MClass B) Flags.Default
  = ([store_reference a_C; swift_unknownRetain a_C], Returns true).
Proof.
  assert (Hsub : subclass_or_equal B (_swift_getClassOfAllocated a_C))
    by (constructor; constructor).
  split; [reflexivity | split; [exact Hsub |]].
  destruct (@class_reference_cast no_conformance no_foreign_classes
              16%N a_C (MClass A) B Flags.Default eq_refl) as [H _].
  exact (H Hsub).
Defined.

(** A [String] is found in an [Any] that holds one. *)
Lemma cast_to_value_type_is_exact_witness :
  non_polymorphic String = true /\
  (exists events,
     swift_dynamicCast no_conformance no_foreign_classes
       (at_address 16%N (VOpaqueExistential String None (VBits 7) []))
       (MExistential Any) String Flags.Default
     = (events, Returns true)) /\
  (forall events succeeded,
     swift_dynamicCast no_conformance no_foreign_classes
       (at_address 16%N (VOpaqueExistential String None (VBits 7) []))
       (MExistential Any) String Flags.Default
     = (events, Returns succeeded) ->
     succeeded = true).
Proof.
  split; [reflexivity |].
  destruct (@cast_to_value_type_is_exact no_conformance no_foreign_classes
              (at_address 16%N (VOpaqueExistential String None (VBits 7) []))
              (MExistential Any) String Flags.Default eq_refl) as [H1 H2].
  split; [exact (H1 eq_refl) | exact H2].
Defined.


(** The [Any] holding an [Int] casts to [Int] as the [Int] in its buffer
    does. *)
Lemma existential_source_is_transparent_witness :
  Flags.Default &? Flags.TakeOnSuccess = false /\
  Flags.Default &? Flags.DestroyOnFailure = false /\
  casts_payload_again Int = true /\
  container_of Any Int_in_Any = true /\
  container_payload 16%N Int_in_Any = Some (64%N, VBits 7, Int) /\
  swift_dynamicCast no_conformance no_foreign_classes
    (at_address 16%N Int_in_Any) (MExistential Any) Int Flags.Default
  = swift_dynamicCast no_conformance no_foreign_classes
      (at_address 64%N (VBits 7)) Int Int Flags.Default.
Proof.
  repeat (split; [reflexivity |]).
  exact (@existential_source_is_transparent no_conformance no_foreign_classes
           16%N Int_in_Any Any Int Flags.Default 64%N (VBits 7) Int
           eq_refl eq_refl eq_refl eq_refl eq_refl).
Defined.

(** An [Int] casts to [Any]. *)
Lemma cast_to_Any_succeeds_witness :
  getRepresentation Any = ExistentialTypeRepresentation.Opaque /\
  Protocols Any = [] /\
  has_dynamic_value (VBits 7) Int /\
  exists a' taken rest,
    swift_dynamicCast no_conformance no_foreign_classes
      (at_address 16%N (VBits 7)) Int (MExistential Any) Flags.Default
    = (store_existential_Type Int ::
       (if (taken : bool)
        then vw_initializeBufferWithTake Int (at_address a' (VBits 7))
        else vw_initializeBufferWithCopy Int (at_address a' (VBits 7))) ::
       rest,
       Returns true) /\
    (taken = true -> Flags.Default &? Flags.TakeOnSuccess = true).
Proof.
  split; [reflexivity | split; [reflexivity | split; [exact I |]]].
  exact (@cast_to_Any_succeeds no_conformance no_foreign_classes
           (at_address 16%N (VBits 7)) Int Any Flags.Default
           eq_refl eq_refl I).
Defined.

(** The dynamic value of the [Any] holding an [Int] is the [Int] in its
    buffer. *)
Lemma dynamic_value_is_not_existential_witness :
  findDynamicValueAndType (at_address 16%N Int_in_Any) (MExistential Any) true
  = ([], Returns (at_address 64%N (VBits 7), Int, true)) /\
  getKind Int <> MetadataKind.Existential /\
  findDynamicValueAndType (at_address 64%N (VBits 7)) Int true
  = ret (at_address 64%N (VBits 7), Int, true) /\
  swift_getDynamicType (at_address 64%N (VBits 7)) Int = ret Int.
Proof.
  split; [reflexivity |].
  exact (@dynamic_value_is_not_existential (at_address 16%N Int_in_Any)
           (MExistential Any) true [] (at_address 64%N (VBits 7)) Int true
           eq_refl).
Defined.

(** [Int] against the protocol list of [P]. *)
Lemma _conformsToProtocols_decides_witness :
  getKind Int <> MetadataKind.ForeignClass /\
  exists t r,
    _conformsToProtocols Int_conforms None Int [P] (dest_witnesses 0)
    = (t, Returns r) /\
    is_some r = forallb (conforms_to Int_conforms Int) [P].
Proof.
  assert (H : getKind Int <> MetadataKind.ForeignClass) by discriminate.
  split; [exact H |].
  exact (@_conformsToProtocols_decides Int_conforms None Int [P]
           (dest_witnesses 0) H).
Defined.

(** The witness table of [Int] for [P] goes into the first slot. *)
Lemma witness_tables_fill_consecutive_slots_witness :
  forallb (fun p => negb (is_AnyObject p && needs_table p)) [P] = true /\
  _conformsToProtocols Int_conforms None Int [P] (dest_witnesses 0)
  = ([store_witness 0 100%N], Returns (Some [100%N])) /\
  map Some [100%N] = map (Int_conforms Int) (filter needs_table [P]) /\
  [store_witness 0 100%N] = stores_from 0 [100%N].
Proof.
  split; [reflexivity | split; [reflexivity |]].
  exact (@witness_tables_fill_consecutive_slots Int_conforms None Int [P] 0
           [store_witness 0 100%N] [100%N] eq_refl eq_refl).
Defined.


(** An [Int] conforming to [P] is cast to [P]: besides the witness table
    and the dynamic type, the value is stored. *)
Lemma successful_cast_has_stored_a_value_witness :
  swift_dynamicCast Int_conforms no_foreign_classes
    (at_address 16%N (VBits 7)) Int (MExistential P_existential)
    Flags.Default
  = ([store_witness 0 100%N; store_existential_Type Int;
      vw_initializeBufferWithCopy Int (at_address 16%N (VBits 7))],
     Returns true) /\
  value_stored [store_witness 0 100%N; store_existential_Type Int;
                vw_initializeBufferWithCopy Int (at_address 16%N (VBits 7))]
  = true.
Proof.
  split; [reflexivity |].
  exact (@successful_cast_has_stored_a_value Int_conforms no_foreign_classes
           (at_address 16%N (VBits 7)) Int (MExistential P_existential)
           Flags.Default
           [store_witness 0 100%N; store_existential_Type Int;
            vw_initializeBufferWithCopy Int (at_address 16%N (VBits 7))]
           eq_refl).
Defined.

(** A conditional cast to a foreign class type does not return: the
    target type is taken for corrupt. *)
Lemma conditional_cast_reports_no_failure_witness :
  Flags.Default &? Flags.Unconditional = false /\
  swift_dynamicCast no_conformance no_foreign_classes
    (at_address 16%N (VObject a_C)) (MClass A) (MForeignClass 5)
    Flags.Default
  = ([], Aborts (corruptType (MForeignClass 5))) /\
  (corruptType (MForeignClass 5) = invalidValue \/
   exists type, corruptType (MForeignClass 5) = corruptType type).
Proof.
  split; [reflexivity | split; [reflexivity |]].
  exact (@conditional_cast_reports_no_failure no_conformance
           no_foreign_classes (at_address 16%N (VObject a_C)) (MClass A)
           (MForeignClass 5) Flags.Default []
           (corruptType (MForeignClass 5)) eq_refl eq_refl).
Defined.

(** [C.self] casts to [A.Type]. *)
Lemma cast_to_metatype_finds_a_metatype_witness :
  Flags.Default &? Flags.Unconditional = false /\
  swift_dynamicCast no_conformance no_foreign_classes
    (at_address 16%N (VMetadata (MClass C))) (MMetatype (MClass C))
    (MMetatype (MClass A)) Flags.Default
  = ([store_metatype (MClass C)], Returns true) /\
  true =
    match source_metatype (VMetadata (MClass C)) (MMetatype (MClass C)) with
    | Some m =>
        is_some (swift_dynamicCastMetatype no_foreign_classes m (MClass A))
    | None => false
    end.
Proof.
  split; [reflexivity | split; [reflexivity |]].
  exact (@cast_to_metatype_finds_a_metatype no_conformance no_foreign_classes
           (at_address 16%N (VMetadata (MClass C))) (MMetatype (MClass C))
           (MClass A) Flags.Default [store_metatype (MClass C)] true
           eq_refl eq_refl).
Defined.

(** [Int.self] casts to [P.Type], [Int] conforming to [P]. *)
Lemma cast_to_existential_metatype_finds_a_conforming_metatype_witness :
  Flags.Default &? Flags.Unconditional = false /\
  swift_dynamicCast Int_conforms no_foreign_classes
    (at_address 16%N (VMetadata Int)) (MMetatype Int)
    (MExistentialMetatype (MExistential P_existential)) Flags.Default
  = ([store_witness 0 100%N; store_metatype Int], Returns true) /\
  (true = true <->
   conforming_metatype Int_conforms (MExistential P_existential)
     (source_metatype (VMetadata Int) (MMetatype Int))).
Proof.
  split; [reflexivity | split; [reflexivity |]].
  exact (@cast_to_existential_metatype_finds_a_conforming_metatype
           Int_conforms no_foreign_classes
           (at_address 16%N (VMetadata Int)) (MMetatype Int)
           (MExistential P_existential) Flags.Default
           [store_witness 0 100%N; store_metatype Int] true
           eq_refl eq_refl).
Defined.

(** The first call, on the empty cache. *)
Lemma swift_getTypeName_returns_the_name_witness :
  cache_holds_names no_names [] /\
  fst (swift_getTypeName no_names Int true [])
  = (no_names Int true, length (no_names Int true)) /\
  cache_holds_names no_names (snd (swift_getTypeName no_names Int true [])).
Proof.
  assert (H : cache_holds_names no_names [])
    by (intros type qualified result E; discriminate E).
  split; [exact H |].
  exact (@swift_getTypeName_returns_the_name no_names Int true [] H).
Defined.

(** An [Int] conforming to [P] is cast to [P]. *)
Lemma cast_to_opaque_existential_witness :
  getKind Int <> MetadataKind.Optional /\
  getRepresentation P_existential = ExistentialTypeRepresentation.Opaque /\
  has_dynamic_value (VBits 7) Int /\
  getKind (dynamic_type (VBits 7) Int) <> MetadataKind.ForeignClass /\
  exists events,
    swift_dynamicCast Int_conforms no_foreign_classes
      (at_address 16%N (VBits 7)) Int (MExistential P_existential)
      Flags.Default
    = (events, Returns true).
Proof.
  assert (H1 : getKind Int <> MetadataKind.Optional) by discriminate.
  assert (H2 : getKind (dynamic_type (VBits 7) Int)
               <> MetadataKind.ForeignClass) by discriminate.
  split; [exact H1 | split; [reflexivity | split; [exact I |]]].
  split; [exact H2 |].
  exact (@cast_to_opaque_existential_is_decided_by_the_dynamic_type
           Int_conforms no_foreign_classes 16%N (VBits 7) Int P_existential
           Flags.Default H1 eq_refl I H2).
Defined.

(** [C.self] casts to [A.Type] with either form; [A.self] does not cast
    to [C.Type]. *)
Lemma swift_dynamicCastMetatype_forms_agree_witness :
  getKind (MClass C) <> MetadataKind.ForeignClass /\
  getKind (MClass A) <> MetadataKind.ForeignClass /\
  swift_dynamicCastMetatypeUnconditional no_foreign_classes (MClass C)
    (MClass A)
  = ret (MClass C) /\
  swift_dynamicCastMetatypeUnconditional no_foreign_classes (MClass A)
    (MClass C)
  = ([], Aborts (dynamicCastFailure (MClass A) (MClass C))).
Proof.
  assert (HC : getKind (MClass C) <> MetadataKind.ForeignClass)
    by discriminate.
  assert (HA : getKind (MClass A) <> MetadataKind.ForeignClass)
    by discriminate.
  split; [exact HC | split; [exact HA |]].
  split.
  - exact (proj2 (@swift_dynamicCastMetatype_forms_agree no_foreign_classes
                    (MClass C) (MClass A) HC HA)).
  - exact (@swift_dynamicCastMetatype_forms_agree no_foreign_classes
             (MClass A) (MClass C) HA HC).
Defined.

(** The [Int] 7, conforming to [P], goes into a [P] and comes back. *)
Lemma boxed_value_is_found_again_witness :
  value_or_class Int = true /\
  well_formed Int_conforms (VBits 7) Int /\
  getRepresentation P_existential = ExistentialTypeRepresentation.Opaque /\
  forallb (conforms_to Int_conforms (dynamic_type (VBits 7) Int))
    (Protocols P_existential) = true /\
  exists events held events',
    swift_dynamicCast Int_conforms no_foreign_classes
      (at_address 16%N (VBits 7)) Int (MExistential P_existential)
      Flags.Default
    = (events, Returns true) /\
    read_dest (MExistential P_existential) (dest_after events) = Some held /\
    swift_dynamicCast Int_conforms no_foreign_classes
      (at_address 48%N held) (MExistential P_existential) Int Flags.Default
    = (events', Returns true) /\
    read_dest Int (dest_after events') = Some (VBits 7).
Proof.
  split; [reflexivity | split; [exact I | split; [reflexivity |]]].
  split; [reflexivity |].
  exact (@boxed_value_is_found_again Int_conforms no_foreign_classes
           16%N 48%N (VBits 7) Int P_existential eq_refl I eq_refl eq_refl).
Defined.

(** The reference to a [C], at the type [A], goes into an [A?] and comes
    back, taken both times. *)
Lemma wrapped_value_is_found_again_witness :
  value_or_class (MClass A) = true /\
  well_formed no_conformance (VObject a_C) (MClass A) /\
  exists events events',
    swift_dynamicCast no_conformance no_foreign_classes
      (at_address 16%N (VObject a_C)) (MClass A) (MOptional (MClass A))
      Flags.TakeOnSuccess
    = (events, Returns true) /\
    read_dest (MOptional (MClass A)) (dest_after events)
    = Some (VSome (VObject a_C)) /\
    swift_dynamicCast no_conformance no_foreign_classes
      (at_address 48%N (VSome (VObject a_C))) (MOptional (MClass A))
      (MClass A) Flags.TakeOnSuccess
    = (events', Returns true) /\
    read_dest (MClass A) (dest_after events') = Some (VObject a_C).
Proof.
  assert (Hwf : well_formed no_conformance (VObject a_C) (MClass A))
    by (simpl; constructor; constructor; constructor).
  split; [reflexivity | split; [exact Hwf |]].
  exact (@wrapped_value_is_found_again no_conformance no_foreign_classes
           16%N 48%N (VObject a_C) (MClass A) Flags.TakeOnSuccess
           Flags.TakeOnSuccess eq_refl Hwf).
Defined.

End More_instances.
